(** * Food Waste Dashboard: the data service and the trend-data library

    A shallow embedding of the data service, [lib/data/dataService.ts]
    (filtering, grouping, ranking and comparison of country records; its
    text is the second part of [app/layout.tsx] in the source tree), and of
    [lib/data/trendData.ts] (synthetic yearly series and their reduction),
    followed by the properties proved about them.

    Conventions of the embedding.
    - A JavaScript [number] that holds a measured figure is an exact
      rational (type [Js.number]); every arithmetic operation returns the
      fraction in lowest terms, so that results can be compared with [=].
      The arithmetic is exact, where the program's doubles round every
      result in the last place.  Counts, membership and the order by a
      computed key do not depend on this.  A computed value is related to
      its reference by an equation between exact numbers, which the program
      meets up to that rounding; an order between a computed mean and the
      figures it was made from is not claimed, since the rounding can
      reverse it.  A value that went through [toFixed(1)]
      is characterised as a whole number of tenths within 0.05 of its
      reference ([roundedToTenth]), which does not say to which neighbour a
      decimal tie goes: that can depend on the last place.
      Non-finite values cannot be entered by the loader; the one division
      whose divisor may be zero ([getComparisonData]) returns a
      [Js.quotient], which has them.
    - Arrays are lists; [Map] is an association list in insertion order;
      [Set] is a duplicate-free list in insertion order.
    - [Date] and [Math.random] are explicit: the current year is an
      argument and the random source is a stream read through a counter. *)

From Stdlib Require Import ZArith QArith Qround Qabs Qreduction.
From Stdlib Require Import String Ascii Bool List Lia Lqa.
From Stdlib Require Import Permutation Sorted DecimalString OrderedTypeEx.
Import ListNotations.

(** ** The JavaScript fragment the two libraries rely on *)

Module Js.

Abbreviation number := Q.

(** The four operations, exact: the sum, difference, product and quotient
    of the operands as rationals, where a double holds the nearest
    representable number. *)
Definition add (a b : number) : number := Qred (a + b)%Q.
Definition sub (a b : number) : number := Qred (a - b)%Q.
Definition mul (a b : number) : number := Qred (a * b)%Q.

(** [a / b] for a divisor known to be non-zero. *)
Definition div (a b : number) : number := Qred (a / b)%Q.

Definition ofInt (z : Z) : number := inject_Z z.
Definition ofLength (n : nat) : number := inject_Z (Z.of_nat n).

(** [a >= b] and [a <= b]. *)
Definition ge (a b : number) : bool := Qle_bool b a.
Definition le (a b : number) : bool := Qle_bool a b.

(** The value of [a / b] when nothing is known about [b]: IEEE division
    of finite numbers is finite unless the divisor is zero. *)
Inductive quotient : Type :=
| Finite (q : number)
| PosInfinity
| NegInfinity
| NaN.

Definition divide (a b : number) : quotient :=
  if Qeq_bool b 0 then
    match (a ?= 0)%Q with
    | Eq => NaN
    | Gt => PosInfinity
    | Lt => NegInfinity
    end
  else Finite (Qred (a / b)%Q).

(** ToBoolean on a string: only the empty string is falsy. *)
Definition truthy (s : string) : bool := negb (String.eqb s "").

(** [Array.prototype.includes] on an array of strings. *)
Definition includes (l : list string) (x : string) : bool :=
  existsb (String.eqb x) l.

(** [Array.prototype.sort(comparefn)].  The sort is stable, and [a] is
    placed before [b] when [comparefn a b <= 0]; for a consistent
    comparator this determines the result uniquely, and it is the list
    that stable insertion computes. *)
Section Sort.
Context {A : Type}.
Variable comparefn : A -> A -> number.

Fixpoint insert (x : A) (l : list A) : list A :=
  match l with
  | [] => [x]
  | y :: l' =>
      if Qle_bool (comparefn x y) 0 then x :: y :: l'
      else y :: insert x l'
  end.

Fixpoint sort (l : list A) : list A :=
  match l with
  | [] => []
  | x :: l' => insert x (sort l')
  end.
End Sort.

(** [Array.prototype.slice(start, end)] with integer arguments: a
    negative index counts from the end of the array. *)
Definition relativeIndex (len i : Z) : Z :=
  if (i <? 0)%Z then Z.max (len + i) 0 else Z.min i len.

Definition slice {A : Type} (l : list A) (start end_ : Z) : list A :=
  let len := Z.of_nat (List.length l) in
  let k := relativeIndex len start in
  let final := relativeIndex len end_ in
  firstn (Z.to_nat (Z.max (final - k) 0)) (skipn (Z.to_nat k) l).

(** [Number(x.toFixed(1))]: [x] rounded to one decimal place.  [toFixed]
    rounds the magnitude, a tie going to the larger digit string, and
    hands numbers of magnitude 1e21 and above to [ToString] unrounded.
    The argument here is the exact value of the expression; the double the
    program passes can lie on the other side of a decimal tie, and the
    result is then the other neighbour (one tenth away).  The properties
    that read a rounded value use [toFixed1_error] and [toFixed1_tenths],
    which hold for either neighbour of a tie. *)
Definition toFixed1 (x : number) : number :=
  if Qle_bool (inject_Z (10 ^ 21)) (Qabs x) then Qred x
  else
    let n := Qfloor (Qabs x * 10 + (1 # 2))%Q in
    if Qle_bool 0 x then Qred (n # 10) else Qred (- n # 10).

End Js.

(** ** [types.ts] *)

Inductive ConfidenceLevel : Type :=
| VeryLowConfidence
| LowConfidence
| MediumConfidence
| HighConfidence.

Definition ConfidenceLevel_eqb (a b : ConfidenceLevel) : bool :=
  match a, b with
  | VeryLowConfidence, VeryLowConfidence
  | LowConfidence, LowConfidence
  | MediumConfidence, MediumConfidence
  | HighConfidence, HighConfidence => true
  | _, _ => false
  end.

Record FoodWasteData : Type := {
  country : string;
  combinedFigures : Js.number;
  householdEstimatePerCapita : Js.number;
  householdEstimateTotal : Js.number;
  retailEstimatePerCapita : Js.number;
  retailEstimateTotal : Js.number;
  foodServiceEstimatePerCapita : Js.number;
  foodServiceEstimateTotal : Js.number;
  confidenceInEstimate : ConfidenceLevel;
  m49Code : Z;
  region : string;
  source : string
}.

(** The object spread [{ ...item, combinedFigures: v }]. *)
Definition withCombinedFigures (item : FoodWasteData) (v : Js.number)
  : FoodWasteData :=
  {| country := country item;
     combinedFigures := v;
     householdEstimatePerCapita := householdEstimatePerCapita item;
     householdEstimateTotal := householdEstimateTotal item;
     retailEstimatePerCapita := retailEstimatePerCapita item;
     retailEstimateTotal := retailEstimateTotal item;
     foodServiceEstimatePerCapita := foodServiceEstimatePerCapita item;
     foodServiceEstimateTotal := foodServiceEstimateTotal item;
     confidenceInEstimate := confidenceInEstimate item;
     m49Code := m49Code item;
     region := region item;
     source := source item |}.

Inductive WasteType : Type := combined | household | retail | foodService.

Module FilterOptions.
Record t : Type := {
  region : option string;
  confidence : option ConfidenceLevel;
  minWaste : option Js.number;
  maxWaste : option Js.number;
  wasteType : option WasteType
}.
End FilterOptions.

Module RegionData.
Record t : Type := {
  region : string;
  averageCombinedFigures : Js.number;
  totalCountries : nat;
  totalHouseholdWaste : Js.number;
  totalRetailWaste : Js.number;
  totalFoodServiceWaste : Js.number
}.
End RegionData.

Module WasteDistribution.
Record t : Type := {
  household : Js.quotient;
  retail : Js.quotient;
  foodService : Js.quotient
}.
End WasteDistribution.

Module ComparisonData.
Record t : Type := {
  country : string;
  combinedFigures : Js.number;
  wasteSources : WasteDistribution.t
}.
End ComparisonData.

(** ** [dataService.ts] *)

Definition filterData (data : list FoodWasteData)
  (options : option FilterOptions.t) : list FoodWasteData :=
  match options with
  | None => data
  | Some options =>
      let filteredData := data in
      let filteredData :=
        match FilterOptions.region options with
        | Some r =>
            if Js.truthy r
            then filter (fun item => String.eqb (region item) r) filteredData
            else filteredData
        | None => filteredData
        end in
      let filteredData :=
        match FilterOptions.confidence options with
        | Some c =>
            filter
              (fun item => ConfidenceLevel_eqb (confidenceInEstimate item) c)
              filteredData
        | None => filteredData
        end in
      let filteredData :=
        match FilterOptions.minWaste options with
        | Some m =>
            filter (fun item => Js.ge (combinedFigures item) m) filteredData
        | None => filteredData
        end in
      let filteredData :=
        match FilterOptions.maxWaste options with
        | Some m =>
            filter (fun item => Js.le (combinedFigures item) m) filteredData
        | None => filteredData
        end in
      match FilterOptions.wasteType options with
      | Some household =>
          map (fun item =>
                 withCombinedFigures item (householdEstimatePerCapita item))
            filteredData
      | Some retail =>
          map (fun item =>
                 withCombinedFigures item (retailEstimatePerCapita item))
            filteredData
      | Some foodService =>
          map (fun item =>
                 withCombinedFigures item (foodServiceEstimatePerCapita item))
            filteredData
      | Some combined => filteredData
      | None => filteredData
      end
  end.

(** [Map<string, V>]: the entries in insertion order.  [set] on a key
    that is present replaces its value in place. *)
Module Map.
Section WithValue.
Context {V : Type}.

Definition t := list (string * V).

Definition empty : t := [].

Fixpoint get (m : t) (k : string) : option V :=
  match m with
  | [] => None
  | (k', v) :: m' => if String.eqb k' k then Some v else get m' k
  end.

Definition has (m : t) (k : string) : bool :=
  match get m k with
  | Some _ => true
  | None => false
  end.

Fixpoint set (m : t) (k : string) (v : V) : t :=
  match m with
  | [] => [(k, v)]
  | (k', v') :: m' =>
      if String.eqb k' k then (k', v) :: m' else (k', v') :: set m' k v
  end.

Definition entries (m : t) : list (string * V) := m.
End WithValue.
Arguments t : clear implicits.
End Map.

(** One turn of the grouping loop of [getRegionData].  The array held by
    the map is the one [push] extends, so the map sees the new element. *)
Definition groupByRegionStep (regionMap : Map.t (list FoodWasteData))
  (item : FoodWasteData) : Map.t (list FoodWasteData) :=
  let regionMap :=
    if negb (Map.has regionMap (region item))
    then Map.set regionMap (region item) []
    else regionMap in
  match Map.get regionMap (region item) with
  | Some regionItems => Map.set regionMap (region item) (regionItems ++ [item])
  | None => regionMap
  end.

(** The four running totals of the statistics loop. *)
Definition regionTotals (regionItems : list FoodWasteData)
  : Js.number * Js.number * Js.number * Js.number :=
  fold_left
    (fun '(totalCombinedFigures, totalHouseholdWaste, totalRetailWaste,
           totalFoodServiceWaste) item =>
       (Js.add totalCombinedFigures (combinedFigures item),
        Js.add totalHouseholdWaste (householdEstimatePerCapita item),
        Js.add totalRetailWaste (retailEstimatePerCapita item),
        Js.add totalFoodServiceWaste (foodServiceEstimatePerCapita item)))
    regionItems (0, 0, 0, 0).

Definition regionStatistics (entry : string * list FoodWasteData)
  : RegionData.t :=
  let '(region, regionItems) := entry in
  let totalCountries := List.length regionItems in
  let '(totalCombinedFigures, totalHouseholdWaste, totalRetailWaste,
        totalFoodServiceWaste) := regionTotals regionItems in
  {| RegionData.region := region;
     RegionData.averageCombinedFigures :=
       Js.div totalCombinedFigures (Js.ofLength totalCountries);
     RegionData.totalCountries := totalCountries;
     RegionData.totalHouseholdWaste := totalHouseholdWaste;
     RegionData.totalRetailWaste := totalRetailWaste;
     RegionData.totalFoodServiceWaste := totalFoodServiceWaste |}.

Definition getRegionData (data : list FoodWasteData) : list RegionData.t :=
  let regionMap := fold_left groupByRegionStep data Map.empty in
  let regionData := map regionStatistics (Map.entries regionMap) in
  Js.sort
    (fun a b =>
       Js.sub (RegionData.averageCombinedFigures b)
         (RegionData.averageCombinedFigures a))
    regionData.

Definition getComparisonData (data : list FoodWasteData)
  (countries : list string) : list ComparisonData.t :=
  let filteredData :=
    filter (fun item => Js.includes countries (country item)) data in
  map
    (fun item =>
       let total :=
         Js.add
           (Js.add (householdEstimatePerCapita item)
              (retailEstimatePerCapita item))
           (foodServiceEstimatePerCapita item) in
       {| ComparisonData.country := country item;
          ComparisonData.combinedFigures := combinedFigures item;
          ComparisonData.wasteSources :=
            {| WasteDistribution.household :=
                 Js.divide (householdEstimatePerCapita item) total;
               WasteDistribution.retail :=
                 Js.divide (retailEstimatePerCapita item) total;
               WasteDistribution.foodService :=
                 Js.divide (foodServiceEstimatePerCapita item) total |} |})
    filteredData.

(** [count] is [None] when the caller leaves the argument out. *)
Definition getTopWasteCountries (data : list FoodWasteData)
  (count : option Z) : list FoodWasteData :=
  let count := match count with Some c => c | None => 10%Z end in
  Js.slice
    (Js.sort
       (fun a b => Js.sub (combinedFigures b) (combinedFigures a)) data)
    0 count.

(** ** [trendData.ts] *)

Module TrendDataPoint.
Record t : Type := {
  year : Z;
  combinedFigures : Js.number;
  householdEstimatePerCapita : Js.number;
  retailEstimatePerCapita : Js.number;
  foodServiceEstimatePerCapita : Js.number
}.
End TrendDataPoint.

Module CountryTrendData.
Record t : Type := {
  country : string;
  region : string;
  trendData : list TrendDataPoint.t
}.
End CountryTrendData.

(** How a call ends: with a value, or with a thrown error. *)
Inductive ErrorKind : Type := InvalidArgument | OtherError.

Inductive completion (A : Type) : Type :=
| Normal (value : A)
| Throw (kind : ErrorKind).

Arguments Normal {A} value.
Arguments Throw {A} kind.

Section Generator.
(** [new Date().getFullYear()]. *)
Variable currentYear : Z.
(** The successive results of [Math.random()]; the state threaded
    through the generator is the number of values drawn so far. *)
Variable random : nat -> Js.number.

(** The body of the [for] loop: the point pushed for [year], given the
    value [u] that [Math.random()] returned. *)
Definition trendPoint (country : FoodWasteData) (year : Z) (u : Js.number)
  : TrendDataPoint.t :=
  let yearDiff := (currentYear - year)%Z in
  let randomFactor := Js.add 1 (Js.sub (Js.mul u (1 # 10)) (5 # 100)) in
  let yearFactor := Js.add 1 (Js.mul (Js.ofInt yearDiff) (5 # 100)) in
  {| TrendDataPoint.year := year;
     TrendDataPoint.combinedFigures :=
       Js.toFixed1
         (Js.mul (Js.mul (combinedFigures country) yearFactor) randomFactor);
     TrendDataPoint.householdEstimatePerCapita :=
       Js.toFixed1
         (Js.mul (Js.mul (householdEstimatePerCapita country) yearFactor)
            randomFactor);
     TrendDataPoint.retailEstimatePerCapita :=
       Js.toFixed1
         (Js.mul (Js.mul (retailEstimatePerCapita country) yearFactor)
            randomFactor);
     TrendDataPoint.foodServiceEstimatePerCapita :=
       Js.toFixed1
         (Js.mul (Js.mul (foodServiceEstimatePerCapita country) yearFactor)
            randomFactor) |}.

(** [for (let year = startYear; year <= currentYear; year++)], entered
    with [year], the points pushed so far and [drawn] random values
    used.  [fuel] bounds the number of turns. *)
Fixpoint yearLoop (fuel : nat) (country : FoodWasteData) (year : Z)
  (trendData : list TrendDataPoint.t) (drawn : nat)
  : list TrendDataPoint.t * nat :=
  match fuel with
  | O => (trendData, drawn)
  | S fuel' =>
      if (year <=? currentYear)%Z then
        yearLoop fuel' country (year + 1)%Z
          (trendData ++ [trendPoint country year (random drawn)])
          (S drawn)
      else (trendData, drawn)
  end.

(** The turns the loop can take from [startYear]. *)
Definition yearLoopFuel (startYear : Z) : nat :=
  Z.to_nat (currentYear - startYear + 1).

Definition compareYear (a b : TrendDataPoint.t) : Js.number :=
  Js.sub (Js.ofInt (TrendDataPoint.year a)) (Js.ofInt (TrendDataPoint.year b)).

(** [currentData.map(country => ...)], the callback run on the elements
    in order. *)
Fixpoint mapCountries (currentData : list FoodWasteData) (startYear : Z)
  (drawn : nat) : list CountryTrendData.t * nat :=
  match currentData with
  | [] => ([], drawn)
  | c :: rest =>
      let '(trendData, drawn1) :=
        yearLoop (yearLoopFuel startYear) c startYear [] drawn in
      let series :=
        {| CountryTrendData.country := country c;
           CountryTrendData.region := region c;
           CountryTrendData.trendData := Js.sort compareYear trendData |} in
      let '(others, drawn2) := mapCountries rest startYear drawn1 in
      (series :: others, drawn2)
  end.

(** [years] is [None] when the caller leaves the argument out.  The body
    has no [throw]: every call completes normally. *)
Definition generateTrendData (currentData : list FoodWasteData)
  (years : option Z) (drawn : nat)
  : completion (list CountryTrendData.t * nat) :=
  let years := match years with Some y => y | None => 5%Z end in
  let startYear := (currentYear - years + 1)%Z in
  Normal (mapCountries currentData startYear drawn).
End Generator.

(** [new Set(l)] spread back into an array: first occurrences, in order. *)
Definition setOf (l : list Z) : list Z :=
  fold_left (fun s y => if existsb (Z.eqb y) s then s else s ++ [y]) l [].

(** [ToString] of an integer-valued number (below 1e21 in magnitude). *)
Definition toString (z : Z) : string := NilZero.string_of_int (Z.to_int z).

(** The comparison [sort()] makes when called without a comparator: the
    operands are converted to strings and compared by code units. *)
Definition defaultCompare (x y : Z) : Js.number :=
  let xString := toString x in
  let yString := toString y in
  if String.ltb xString yString then (-1)%Q
  else if String.ltb yString xString then 1%Q
  else 0%Q.

(** [const years] of [getGlobalTrendData]. *)
Definition availableYears (trendData : list CountryTrendData.t) : list Z :=
  Js.sort defaultCompare
    (setOf
       (flat_map
          (fun country =>
             map TrendDataPoint.year (CountryTrendData.trendData country))
          trendData)).

(** [const yearDataPoints] of [getGlobalTrendData]. *)
Definition yearDataPoints (trendData : list CountryTrendData.t) (year : Z)
  : list TrendDataPoint.t :=
  flat_map
    (fun country =>
       filter (fun point => (TrendDataPoint.year point =? year)%Z)
         (CountryTrendData.trendData country))
    trendData.

(** [Number((points.reduce((sum, point) => sum + f(point), 0) / count)
    .toFixed(1))]. *)
Definition roundedMean (f : TrendDataPoint.t -> Js.number)
  (points : list TrendDataPoint.t) (count : nat) : Js.number :=
  Js.toFixed1
    (Js.div (fold_left (fun sum point => Js.add sum (f point)) points 0%Q)
       (Js.ofLength count)).

Definition getGlobalTrendData (trendData : list CountryTrendData.t)
  : list TrendDataPoint.t :=
  let years := availableYears trendData in
  map
    (fun year =>
       let yearDataPoints := yearDataPoints trendData year in
       let count := List.length yearDataPoints in
       {| TrendDataPoint.year := year;
          TrendDataPoint.combinedFigures :=
            roundedMean TrendDataPoint.combinedFigures yearDataPoints count;
          TrendDataPoint.householdEstimatePerCapita :=
            roundedMean TrendDataPoint.householdEstimatePerCapita
              yearDataPoints count;
          TrendDataPoint.retailEstimatePerCapita :=
            roundedMean TrendDataPoint.retailEstimatePerCapita
              yearDataPoints count;
          TrendDataPoint.foodServiceEstimatePerCapita :=
            roundedMean TrendDataPoint.foodServiceEstimatePerCapita
              yearDataPoints count |})
    years.

Definition getRegionalTrendData (trendData : list CountryTrendData.t)
  (region : string) : list TrendDataPoint.t :=
  let regionData :=
    filter (fun country => String.eqb (CountryTrendData.region country) region)
      trendData in
  getGlobalTrendData regionData.

(** ** [dataService.ts], the other functions *)

Module ConfidenceData.
Record t : Type := {
  confidenceLevel : ConfidenceLevel;
  count : nat;
  averageCombinedFigures : Js.number
}.
End ConfidenceData.

(** [Map<ConfidenceLevel, V>]: the entries in insertion order. *)
Module LevelMap.
Section WithValue.
Context {V : Type}.

Definition t := list (ConfidenceLevel * V).

Definition empty : t := [].

Fixpoint get (m : t) (k : ConfidenceLevel) : option V :=
  match m with
  | [] => None
  | (k', v) :: m' => if ConfidenceLevel_eqb k' k then Some v else get m' k
  end.

Definition has (m : t) (k : ConfidenceLevel) : bool :=
  match get m k with
  | Some _ => true
  | None => false
  end.

Fixpoint set (m : t) (k : ConfidenceLevel) (v : V) : t :=
  match m with
  | [] => [(k, v)]
  | (k', v') :: m' =>
      if ConfidenceLevel_eqb k' k then (k', v) :: m'
      else (k', v') :: set m' k v
  end.

Definition entries (m : t) : list (ConfidenceLevel * V) := m.
End WithValue.
Arguments t : clear implicits.
End LevelMap.

(** One turn of the grouping loop of [getConfidenceData]. *)
Definition groupByConfidenceStep
  (confidenceMap : LevelMap.t (list FoodWasteData)) (item : FoodWasteData)
  : LevelMap.t (list FoodWasteData) :=
  let confidenceMap :=
    if negb (LevelMap.has confidenceMap (confidenceInEstimate item))
    then LevelMap.set confidenceMap (confidenceInEstimate item) []
    else confidenceMap in
  match LevelMap.get confidenceMap (confidenceInEstimate item) with
  | Some confidenceItems =>
      LevelMap.set confidenceMap (confidenceInEstimate item)
        (confidenceItems ++ [item])
  | None => confidenceMap
  end.

(** [items.reduce((sum, item) => sum + item.combinedFigures, 0)], which is
    also what the loops over [totalCombinedFigures] compute. *)
Definition sumCombinedFigures (items : list FoodWasteData) : Js.number :=
  fold_left (fun sum item => Js.add sum (combinedFigures item)) items 0%Q.

Definition confidenceStatistics (entry : ConfidenceLevel * list FoodWasteData)
  : ConfidenceData.t :=
  let '(confidenceLevel, confidenceItems) := entry in
  let count := List.length confidenceItems in
  let totalCombinedFigures := sumCombinedFigures confidenceItems in
  {| ConfidenceData.confidenceLevel := confidenceLevel;
     ConfidenceData.count := count;
     ConfidenceData.averageCombinedFigures :=
       Js.div totalCombinedFigures (Js.ofLength count) |}.

Definition getConfidenceData (data : list FoodWasteData)
  : list ConfidenceData.t :=
  let confidenceMap := fold_left groupByConfidenceStep data LevelMap.empty in
  map confidenceStatistics (LevelMap.entries confidenceMap).

(** [Set<string>.add]: a value already in the set is not added again. *)
Definition setAdd (s : list string) (x : string) : list string :=
  if existsb (String.eqb x) s then s else s ++ [x].

(** The comparison [sort()] makes on strings when called without a
    comparator: by code units.  (Strings are sequences of 8-bit code units
    here.) *)
Definition compareStrings (x y : string) : Js.number :=
  if String.ltb x y then (-1)%Q
  else if String.ltb y x then 1%Q
  else 0%Q.

Definition getAllRegions (data : list FoodWasteData) : list string :=
  let regionsSet :=
    fold_left (fun regionsSet item => setAdd regionsSet (region item))
      data [] in
  Js.sort compareStrings regionsSet.

(** A [number * number]: non-finite operands stay non-finite, and an
    infinity times zero is NaN. *)
Definition times (a : Js.quotient) (k : Js.number) : Js.quotient :=
  match a with
  | Js.Finite q => Js.Finite (Qred (q * k)%Q)
  | Js.NaN => Js.NaN
  | Js.PosInfinity =>
      match (k ?= 0)%Q with
      | Eq => Js.NaN
      | Gt => Js.PosInfinity
      | Lt => Js.NegInfinity
      end
  | Js.NegInfinity =>
      match (k ?= 0)%Q with
      | Eq => Js.NaN
      | Gt => Js.NegInfinity
      | Lt => Js.PosInfinity
      end
  end.

(** [percentage] is [None] when the caller leaves the argument out. *)
Definition getWasteDistribution (data : FoodWasteData)
  (percentage : option bool) : WasteDistribution.t :=
  let percentage := match percentage with Some p => p | None => true end in
  let total :=
    Js.add
      (Js.add (householdEstimatePerCapita data) (retailEstimatePerCapita data))
      (foodServiceEstimatePerCapita data) in
  if percentage then
    {| WasteDistribution.household :=
         times (Js.divide (householdEstimatePerCapita data) total) 100;
       WasteDistribution.retail :=
         times (Js.divide (retailEstimatePerCapita data) total) 100;
       WasteDistribution.foodService :=
         times (Js.divide (foodServiceEstimatePerCapita data) total) 100 |}
  else
    {| WasteDistribution.household :=
         Js.Finite (householdEstimatePerCapita data);
       WasteDistribution.retail := Js.Finite (retailEstimatePerCapita data);
       WasteDistribution.foodService :=
         Js.Finite (foodServiceEstimatePerCapita data) |}.

Definition getAllCountries (data : list FoodWasteData) : list string :=
  Js.sort compareStrings (map country data).

(** ** [trendData.ts], the other function *)

Definition getCountryTrendData (trendData : list CountryTrendData.t)
  (countries : list string) : list CountryTrendData.t :=
  filter (fun data => Js.includes countries (CountryTrendData.country data))
    trendData.

(** ** Callers of the data service *)

(** The criteria object [{ region }]. *)
Definition regionCriteria (region : string) : FilterOptions.t :=
  {| FilterOptions.region := Some region;
     FilterOptions.confidence := None;
     FilterOptions.minWaste := None;
     FilterOptions.maxWaste := None;
     FilterOptions.wasteType := None |}.

(** [a - b] when the operands may be non-finite. *)
Definition minus (a b : Js.quotient) : Js.quotient :=
  match a, b with
  | Js.Finite x, Js.Finite y => Js.Finite (Qred (x - y)%Q)
  | Js.NaN, _ | _, Js.NaN => Js.NaN
  | Js.PosInfinity, Js.PosInfinity => Js.NaN
  | Js.NegInfinity, Js.NegInfinity => Js.NaN
  | Js.PosInfinity, _ => Js.PosInfinity
  | Js.NegInfinity, _ => Js.NegInfinity
  | Js.Finite _, Js.PosInfinity => Js.NegInfinity
  | Js.Finite _, Js.NegInfinity => Js.PosInfinity
  end.

(** What [sort] makes of the value a comparator returns: NaN counts as 0,
    and of the others only the sign matters. *)
Definition comparatorResult (v : Js.quotient) : Js.number :=
  match v with
  | Js.Finite q => q
  | Js.PosInfinity => 1%Q
  | Js.NegInfinity => (-1)%Q
  | Js.NaN => 0%Q
  end.

Module RegionAverage.
Record t : Type := {
  region : string;
  average : Js.quotient;
  count : nat
}.
End RegionAverage.

(** [generateInsights]: the callback of [regions.map] that computes the
    average of one region (the chat assistant computes the same for the
    region a question names). *)
Definition regionAverage (data : list FoodWasteData) (region : string)
  : RegionAverage.t :=
  let countriesInRegion := filterData data (Some (regionCriteria region)) in
  let average :=
    Js.divide (sumCombinedFigures countriesInRegion)
      (Js.ofLength (List.length countriesInRegion)) in
  {| RegionAverage.region := region;
     RegionAverage.average := average;
     RegionAverage.count := List.length countriesInRegion |}.

(** [const regionAverages] of [generateInsights]. *)
Definition regionAverages (data : list FoodWasteData)
  : list RegionAverage.t :=
  let regions := getAllRegions data in
  Js.sort
    (fun a b =>
       comparatorResult
         (minus (RegionAverage.average b) (RegionAverage.average a)))
    (map (regionAverage data) regions).

(** *** [Dashboard.tsx] *)

(** The callback of [data.map] in the waste-type effect: a copy of the
    record whose combined figure is overwritten for the three source
    types. *)
Definition mapWasteType (activeWasteType : WasteType) (item : FoodWasteData)
  : FoodWasteData :=
  let copy := item in
  match activeWasteType with
  | household => withCombinedFigures copy (householdEstimatePerCapita item)
  | retail => withCombinedFigures copy (retailEstimatePerCapita item)
  | foodService =>
      withCombinedFigures copy (foodServiceEstimatePerCapita item)
  | combined => copy
  end.

(** The waste-type effect: the state [wasteTypeData] after it has run.  It
    returns early, leaving the state as it is, when there is no data. *)
Definition wasteTypeEffect (data : list FoodWasteData)
  (activeWasteType : WasteType) (wasteTypeData : list FoodWasteData)
  : list FoodWasteData :=
  if (List.length data =? 0)%nat then wasteTypeData
  else map (mapWasteType activeWasteType) data.

(** The filter effect: the state [filteredData] after it has run. *)
Definition filteredDataEffect (data wasteTypeData : list FoodWasteData)
  (filterOptions : FilterOptions.t) (activeWasteType : WasteType)
  : list FoodWasteData :=
  let dataToFilter :=
    match activeWasteType with
    | combined => data
    | _ => wasteTypeData
    end in
  filterData dataToFilter (Some filterOptions).

(** The initial criteria object [{}]. *)
Definition noCriteria : FilterOptions.t :=
  {| FilterOptions.region := None;
     FilterOptions.confidence := None;
     FilterOptions.minWaste := None;
     FilterOptions.maxWaste := None;
     FilterOptions.wasteType := None |}.

(** [{ ...prev, region: region || undefined }]; [region] is [None] for
    [null]. *)
Definition handleRegionFilterChange (prev : FilterOptions.t)
  (region : option string) : FilterOptions.t :=
  {| FilterOptions.region :=
       match region with
       | Some r => if Js.truthy r then Some r else None
       | None => None
       end;
     FilterOptions.confidence := FilterOptions.confidence prev;
     FilterOptions.minWaste := FilterOptions.minWaste prev;
     FilterOptions.maxWaste := FilterOptions.maxWaste prev;
     FilterOptions.wasteType := FilterOptions.wasteType prev |}.

(** [{ ...prev, minWaste: min, maxWaste: max }]. *)
Definition handleWasteRangeFilterChange (prev : FilterOptions.t)
  (min max : Js.number) : FilterOptions.t :=
  {| FilterOptions.region := FilterOptions.region prev;
     FilterOptions.confidence := FilterOptions.confidence prev;
     FilterOptions.minWaste := Some min;
     FilterOptions.maxWaste := Some max;
     FilterOptions.wasteType := FilterOptions.wasteType prev |}.

(** *** [WasteRangeFilter.tsx] *)

(** [Math.min(...values)] and [Math.max(...values)]: without arguments
    they are [Infinity] and [-Infinity]. *)
Definition mathMin (values : list Js.number) : Js.quotient :=
  match values with
  | [] => Js.PosInfinity
  | x :: rest =>
      Js.Finite (fold_left (fun m y => if Qle_bool m y then m else y) rest x)
  end.

Definition mathMax (values : list Js.number) : Js.quotient :=
  match values with
  | [] => Js.NegInfinity
  | x :: rest =>
      Js.Finite (fold_left (fun m y => if Qle_bool y m then m else y) rest x)
  end.

(** [Math.floor] and [Math.ceil]: a non-finite argument is returned. *)
Definition mathFloor (v : Js.quotient) : Js.quotient :=
  match v with
  | Js.Finite x => Js.Finite (inject_Z (Qfloor x))
  | other => other
  end.

Definition mathCeil (v : Js.quotient) : Js.quotient :=
  match v with
  | Js.Finite x => Js.Finite (inject_Z (Qceiling x))
  | other => other
  end.

(** The two ends of the slider. *)
Definition sliderMin (data : list FoodWasteData) : Js.quotient :=
  mathFloor (mathMin (map combinedFigures data)).

Definition sliderMax (data : list FoodWasteData) : Js.quotient :=
  mathCeil (mathMax (map combinedFigures data)).

(** *** [CountryComparison.tsx] *)

(** The two handlers, as the new value of the state [selectedCountries]. *)
Definition handleAddCountry (selectedCountries : list string)
  (country : string) : list string :=
  if Js.includes selectedCountries country then selectedCountries
  else if (8 <=? List.length selectedCountries)%nat then selectedCountries
  else selectedCountries ++ [country].

Definition handleRemoveCountry (selectedCountries : list string)
  (country : string) : list string :=
  filter (fun c => negb (String.eqb c country)) selectedCountries.

(** What a user does to the selection. *)
Inductive SelectionAction : Type :=
| AddCountry (country : string)
| RemoveCountry (country : string).

Definition applySelectionAction (selectedCountries : list string)
  (a : SelectionAction) : list string :=
  match a with
  | AddCountry c => handleAddCountry selectedCountries c
  | RemoveCountry c => handleRemoveCountry selectedCountries c
  end.

(** The initial value of [selectedCountries]. *)
Definition initialSelection : list string :=
  ["United States of America"; "China"; "India"; "United Kingdom";
   "Germany"]%string.

(** *** [ChatBot.tsx] *)

(** The answer to a question about the top countries.  [numMatch] is the
    number read from the first run of digits of the question, if it has
    one; a run of digits is never read as a negative number. *)
Definition topCountriesLimit (numMatch : option N) : Z :=
  let num := match numMatch with Some n => Z.of_N n | None => 5%Z end in
  Z.min num 10.

Definition topCountries (data : list FoodWasteData) (numMatch : option N)
  : list FoodWasteData :=
  getTopWasteCountries data (Some (topCountriesLimit numMatch)).

(** The figures of the answer on global statistics.  The message reads
    [highest.country] and [lowest.country], which throws when the array
    that was indexed is empty. *)
Module GlobalStatistics.
Record t : Type := {
  avg : Js.quotient;
  totalCountries : nat;
  highest : FoodWasteData;
  lowest : FoodWasteData
}.
End GlobalStatistics.

Definition globalStatistics (data : list FoodWasteData)
  : completion GlobalStatistics.t :=
  let avg :=
    Js.divide
      (fold_left (fun sum item => Js.add sum (combinedFigures item)) data 0%Q)
      (Js.ofLength (List.length data)) in
  let highest := nth_error (getTopWasteCountries data (Some 1%Z)) 0 in
  let lowest :=
    nth_error
      (Js.sort (fun a b => Js.sub (combinedFigures a) (combinedFigures b))
         data)
      0 in
  match highest, lowest with
  | Some highest, Some lowest =>
      Normal
        {| GlobalStatistics.avg := avg;
           GlobalStatistics.totalCountries := List.length data;
           GlobalStatistics.highest := highest;
           GlobalStatistics.lowest := lowest |}
  | _, _ => Throw OtherError
  end.

(** *** [DataTable.tsx] *)

Definition itemsPerPage : Z := 10.

(** [Array.prototype.findIndex], counting from [i]. *)
Fixpoint findIndexFrom {A : Type} (p : A -> bool) (l : list A) (i : Z) : Z :=
  match l with
  | [] => (-1)%Z
  | x :: l' => if p x then i else findIndexFrom p l' (i + 1)%Z
  end.

Definition findIndex {A : Type} (p : A -> bool) (l : list A) : Z :=
  findIndexFrom p l 0%Z.

(** The page the table is on after the effect that follows a change of
    [highlightedCountry]. *)
Definition highlightEffect (filteredData : list FoodWasteData)
  (highlightedCountry : option string) (currentPage : Z) : Z :=
  match highlightedCountry with
  | Some h =>
      if Js.truthy h then
        let index :=
          findIndex (fun item => String.eqb (country item) h) filteredData in
        if negb (index =? -1)%Z then
          (Qfloor (Js.div (Js.ofInt index) (Js.ofInt itemsPerPage)) + 1)%Z
        else currentPage
      else currentPage
  | None => currentPage
  end.

Definition totalPages (filteredData : list FoodWasteData) : Z :=
  Qceiling
    (Js.div (Js.ofLength (List.length filteredData)) (Js.ofInt itemsPerPage)).

Definition startIndex (currentPage : Z) : Z :=
  ((currentPage - 1) * itemsPerPage)%Z.

Definition paginatedData (filteredData : list FoodWasteData)
  (currentPage : Z) : list FoodWasteData :=
  Js.slice filteredData (startIndex currentPage)
    (startIndex currentPage + itemsPerPage)%Z.

(** The buttons [Previous] and [Next]. *)
Definition previousPage (p : Z) : Z := Z.max 1 (p - 1).
Definition nextPage (filteredData : list FoodWasteData) (p : Z) : Z :=
  Z.min (totalPages filteredData) (p + 1).

(** *** [DataOverview.tsx] *)

(** The figures on the overview cards.  [x?.f || d] is [d] when [x] is
    undefined or its field is falsy: the empty string, or zero. *)
Module Overview.
Record t : Type := {
  totalCountries : nat;
  averageWaste : Js.quotient;
  highestWasteCountry : string;
  highestWasteAmount : Js.number;
  highestWasteRegion : string
}.
End Overview.

Definition dataOverview (data : list FoodWasteData) : Overview.t :=
  let topCountries := getTopWasteCountries data (Some 5%Z) in
  let regionData := getRegionData data in
  let totalCountries := List.length data in
  let averageWaste :=
    Js.divide
      (fold_left (fun sum item => Js.add sum (combinedFigures item)) data 0%Q)
      (Js.ofLength totalCountries) in
  {| Overview.totalCountries := totalCountries;
     Overview.averageWaste := averageWaste;
     Overview.highestWasteCountry :=
       match nth_error topCountries 0 with
       | Some c => if Js.truthy (country c) then country c else "N/A"%string
       | None => "N/A"%string
       end;
     Overview.highestWasteAmount :=
       match nth_error topCountries 0 with
       | Some c =>
           if Qeq_bool (combinedFigures c) 0 then 0%Q else combinedFigures c
       | None => 0%Q
       end;
     Overview.highestWasteRegion :=
       match nth_error regionData 0 with
       | Some r =>
           if Js.truthy (RegionData.region r) then RegionData.region r
           else "N/A"%string
       | None => "N/A"%string
       end |}.

(** *** [DataCharts.tsx] *)

(** The labels of the chart of confidence levels and the count under
    each. *)
Definition confidenceLevels : list ConfidenceLevel :=
  [VeryLowConfidence; LowConfidence; MediumConfidence; HighConfidence].

Definition confidenceCounts (data : list FoodWasteData) : list nat :=
  map
    (fun level =>
       List.length
         (filter
            (fun item => ConfidenceLevel_eqb (confidenceInEstimate item) level)
            data))
    confidenceLevels.

(** *** The insights panel: confidence *)

(** [highConfidenceCount], [lowConfidenceCount] and
    [mediumConfidenceCount] of [generateInsights]. *)
Definition insightConfidenceCounts (data : list FoodWasteData)
  : nat * nat * nat :=
  let highConfidenceCount :=
    List.length
      (filter
         (fun country =>
            ConfidenceLevel_eqb (confidenceInEstimate country) HighConfidence)
         data) in
  let lowConfidenceCount :=
    List.length
      (filter
         (fun country =>
            ConfidenceLevel_eqb (confidenceInEstimate country)
              VeryLowConfidence)
         data) in
  let mediumConfidenceCount :=
    List.length
      (filter
         (fun country =>
            negb
              (ConfidenceLevel_eqb (confidenceInEstimate country)
                 HighConfidence)
            && negb
                 (ConfidenceLevel_eqb (confidenceInEstimate country)
                    VeryLowConfidence))
         data) in
  (highConfidenceCount, lowConfidenceCount, mediumConfidenceCount).

(** ** Reference behaviour the properties are stated against *)

(** A record passes the numeric range when its combined figure is within
    the inclusive bounds that are present. *)
Definition withinBounds (minWaste maxWaste : option Js.number)
  (item : FoodWasteData) : bool :=
  match minWaste with
  | Some m => Qle_bool m (combinedFigures item)
  | None => true
  end
  &&
  match maxWaste with
  | Some m => Qle_bool (combinedFigures item) m
  | None => true
  end.

(** The waste-type projection of one record. *)
Definition projectWasteType (wasteType : WasteType) (item : FoodWasteData)
  : FoodWasteData :=
  match wasteType with
  | combined => item
  | household => withCombinedFigures item (householdEstimatePerCapita item)
  | retail => withCombinedFigures item (retailEstimatePerCapita item)
  | foodService => withCombinedFigures item (foodServiceEstimatePerCapita item)
  end.

Definition projectOptionalWasteType (wasteType : option WasteType)
  (item : FoodWasteData) : FoodWasteData :=
  match wasteType with
  | Some w => projectWasteType w item
  | None => item
  end.

(** The conjunction of the four predicates of a criteria object. *)
Definition regionMatches (r : option string) (item : FoodWasteData) : bool :=
  match r with
  | Some r => if Js.truthy r then String.eqb (region item) r else true
  | None => true
  end.

Definition confidenceMatches (c : option ConfidenceLevel)
  (item : FoodWasteData) : bool :=
  match c with
  | Some c => ConfidenceLevel_eqb (confidenceInEstimate item) c
  | None => true
  end.

Definition keeps (o : FilterOptions.t) (item : FoodWasteData) : bool :=
  regionMatches (FilterOptions.region o) item
  && confidenceMatches (FilterOptions.confidence o) item
  && withinBounds (FilterOptions.minWaste o) (FilterOptions.maxWaste o) item.

(** Criteria that carry a numeric bound together with a projection onto
    one of the three source figures. *)
Definition combinesRangeWithProjection (options : option FilterOptions.t)
  : bool :=
  match options with
  | None => false
  | Some o =>
      match FilterOptions.wasteType o with
      | Some household | Some retail | Some foodService =>
          match FilterOptions.minWaste o, FilterOptions.maxWaste o with
          | None, None => false
          | _, _ => true
          end
      | Some combined | None => false
      end
  end.

(** [a] may stand before [b] in an array sorted with [comparefn]. *)
Definition precedes {A : Type} (comparefn : A -> A -> Js.number) (a b : A)
  : Prop :=
  (comparefn a b <= 0)%Q.

(** The comparator [(a, b) => key(b) - key(a)]. *)
Definition descending {A : Type} (key : A -> Js.number) (a b : A)
  : Js.number :=
  Js.sub (key b) (key a).

(** The effect of one turn of the grouping loop on the entries: the record
    joins the group of its region, or opens a new group after the others. *)
Fixpoint addToGroup (m : Map.t (list FoodWasteData)) (item : FoodWasteData)
  : Map.t (list FoodWasteData) :=
  match m with
  | [] => [(region item, [item])]
  | (k, items) :: m' =>
      if String.eqb k (region item) then (k, items ++ [item]) :: m'
      else (k, items) :: addToGroup m' item
  end.

(** The records of one region. *)
Definition inRegion (r : string) (item : FoodWasteData) : bool :=
  String.eqb (region item) r.

(** The groups are those of the records read so far. *)
Definition groupsOf (done : list FoodWasteData)
  (m : Map.t (list FoodWasteData)) : Prop :=
  NoDup (map fst m)
  /\ (forall k, In k (map fst m) <-> In k (map region done))
  /\ Forall (fun e => snd e = filter (inRegion (fst e)) done) m.

(** The order a caller would expect from the order of the requested names:
    of two requested names that both come out, the one requested first
    comes out first. *)
Definition requestedOrderKept (countries out : list string) : Prop :=
  forall (i j : nat) (a b : string),
    (i < j)%nat ->
    nth_error countries i = Some a ->
    nth_error countries j = Some b ->
    In a out -> In b out ->
    exists p q : nat,
      (p < q)%nat /\ nth_error out p = Some a /\ nth_error out q = Some b.

(** The sum of the three per-capita source figures of a record. *)
Definition sourceTotal (item : FoodWasteData) : Q :=
  (householdEstimatePerCapita item + retailEstimatePerCapita item
   + foodServiceEstimatePerCapita item)%Q.

(** The data model's constraint on a record: no source figure is negative. *)
Definition sourcesNonNegative (item : FoodWasteData) : Prop :=
  (0 <= householdEstimatePerCapita item)%Q
  /\ (0 <= retailEstimatePerCapita item)%Q
  /\ (0 <= foodServiceEstimatePerCapita item)%Q.

Definition sourcesAllZero (item : FoodWasteData) : Prop :=
  (householdEstimatePerCapita item == 0)%Q
  /\ (retailEstimatePerCapita item == 0)%Q
  /\ (foodServiceEstimatePerCapita item == 0)%Q.

(** The entry of [getComparisonData] for a record whose shares are finite. *)
Definition comparisonEntry (item : FoodWasteData) (sh sr sf : Js.number)
  : ComparisonData.t :=
  {| ComparisonData.country := country item;
     ComparisonData.combinedFigures := combinedFigures item;
     ComparisonData.wasteSources :=
       {| WasteDistribution.household := Js.Finite sh;
          WasteDistribution.retail := Js.Finite sr;
          WasteDistribution.foodService := Js.Finite sf |} |}.



(** The points the loop pushes in [n] turns from [year], the first of them
    made with the random value number [drawn]. *)
Definition loopPoints (currentYear : Z) (random : nat -> Js.number)
  (c : FoodWasteData) (year : Z) (drawn n : nat) : list TrendDataPoint.t :=
  map
    (fun i =>
       trendPoint currentYear c (year + Z.of_nat i) (random (drawn + i)%nat))
    (seq 0 n).

(** The series of the records of [data], each of [n] points. *)
Fixpoint seriesOf (currentYear : Z) (random : nat -> Js.number)
  (data : list FoodWasteData) (startYear : Z) (drawn n : nat)
  : list CountryTrendData.t :=
  match data with
  | [] => []
  | c :: rest =>
      {| CountryTrendData.country := country c;
         CountryTrendData.region := region c;
         CountryTrendData.trendData :=
           loopPoints currentYear random c startYear drawn n |}
      :: seriesOf currentYear random rest startYear (drawn + n) n
  end.

(** A series without points. *)
Definition emptySeries (c : FoodWasteData) : CountryTrendData.t :=
  {| CountryTrendData.country := country c;
     CountryTrendData.region := region c;
     CountryTrendData.trendData := [] |}.




(** The year [y] occurs in some series of [trendData]. *)
Definition yearOccurs (trendData : list CountryTrendData.t) (y : Z) : Prop :=
  exists (s : CountryTrendData.t) (point : TrendDataPoint.t),
    In s trendData
    /\ In point (CountryTrendData.trendData s)
    /\ TrendDataPoint.year point = y.






(** ** Sample series *)

Module SampleTrend.
Open Scope string_scope.

(** A point whose four metrics are all [v]. *)
Definition point (y : Z) (v : Js.number) : TrendDataPoint.t :=
  {| TrendDataPoint.year := y;
     TrendDataPoint.combinedFigures := v;
     TrendDataPoint.householdEstimatePerCapita := v;
     TrendDataPoint.retailEstimatePerCapita := v;
     TrendDataPoint.foodServiceEstimatePerCapita := v |}.

Definition series (name reg : string) (points : list TrendDataPoint.t)
  : CountryTrendData.t :=
  {| CountryTrendData.country := name;
     CountryTrendData.region := reg;
     CountryTrendData.trendData := points |}.

(** Two series that share the year 2024, with values 1 and 1.5; the first
    also covers 2023. *)
Definition twoSeries : list CountryTrendData.t :=
  [series "A" "X" [point 2023 4; point 2024 1];
   series "B" "X" [point 2024 (3 # 2)]].

End SampleTrend.

(** The exact mean of [combinedFigures] over some records. *)
Definition meanCombined (items : list FoodWasteData) : Q :=
  (fold_right Qplus 0 (map combinedFigures items)
   / inject_Z (Z.of_nat (List.length items)))%Q.

(** The first occurrences of the elements of a list, in order. *)
Definition firstOccurrencesBy {A : Type} (eqb : A -> A -> bool) (l : list A)
  : list A :=
  fold_left (fun s x => if existsb (eqb x) s then s else s ++ [x]) l [].

(** The effect of one turn of the grouping loop of [getConfidenceData] on
    the entries. *)
Fixpoint addToLevel (m : LevelMap.t (list FoodWasteData))
  (item : FoodWasteData) : LevelMap.t (list FoodWasteData) :=
  match m with
  | [] => [(confidenceInEstimate item, [item])]
  | (k, items) :: m' =>
      if ConfidenceLevel_eqb k (confidenceInEstimate item)
      then (k, items ++ [item]) :: m'
      else (k, items) :: addToLevel m' item
  end.

(** The records of one confidence level. *)
Definition atLevel (c : ConfidenceLevel) (item : FoodWasteData) : bool :=
  ConfidenceLevel_eqb (confidenceInEstimate item) c.

(** The groups are those of the records read so far, in the order in which
    their levels first occurred. *)
Definition levelGroupsOf (done : list FoodWasteData)
  (m : LevelMap.t (list FoodWasteData)) : Prop :=
  map fst m
  = firstOccurrencesBy ConfidenceLevel_eqb (map confidenceInEstimate done)
  /\ Forall (fun e => snd e = filter (atLevel (fst e)) done) m.

(** A summary of [getRegionData] in the shape of a regional average. *)
Definition summaryAverage (s : RegionData.t) : RegionAverage.t :=
  {| RegionAverage.region := RegionData.region s;
     RegionAverage.average := Js.Finite (RegionData.averageCombinedFigures s);
     RegionAverage.count := RegionData.totalCountries s |}.

(** No record has the empty string for its region. *)
Definition regionsNamed (data : list FoodWasteData) : Prop :=
  Forall (fun item => region item <> EmptyString) data.

(** [a] has a finite average that is at least the finite average of [b]. *)
Definition averageAtLeast (a b : RegionAverage.t) : Prop :=
  exists x y : Js.number,
    RegionAverage.average a = Js.Finite x
    /\ RegionAverage.average b = Js.Finite y
    /\ (y <= x)%Q.




(** The selection of countries to compare has no repetition and at most
    eight names. *)
Definition selectionBounded (selectedCountries : list string) : Prop :=
  NoDup selectedCountries /\ (List.length selectedCountries <= 8)%nat.

(** The figure that a waste type selects from a record. *)
Definition selectedFigure (w : WasteType) (item : FoodWasteData)
  : Js.number :=
  match w with
  | combined => combinedFigures item
  | household => householdEstimatePerCapita item
  | retail => retailEstimatePerCapita item
  | foodService => foodServiceEstimatePerCapita item
  end.

(** [out] is the record [item] with [v] for its combined figure: field by
    field, every other field is that of [item]. *)
Definition replacesCombinedFigure (item : FoodWasteData) (v : Js.number)
  (out : FoodWasteData) : Prop :=
  combinedFigures out = v
  /\ country out = country item
  /\ householdEstimatePerCapita out = householdEstimatePerCapita item
  /\ householdEstimateTotal out = householdEstimateTotal item
  /\ retailEstimatePerCapita out = retailEstimatePerCapita item
  /\ retailEstimateTotal out = retailEstimateTotal item
  /\ foodServiceEstimatePerCapita out = foodServiceEstimatePerCapita item
  /\ foodServiceEstimateTotal out = foodServiceEstimateTotal item
  /\ confidenceInEstimate out = confidenceInEstimate item
  /\ m49Code out = m49Code item
  /\ region out = region item
  /\ source out = source item.





(** ** Sample data *)

Module Sample.
Open Scope string_scope.

Definition record (name : string) (c h r f : Js.number) (reg : string)
  : FoodWasteData :=
  {| country := name;
     combinedFigures := c;
     householdEstimatePerCapita := h;
     householdEstimateTotal := 0;
     retailEstimatePerCapita := r;
     retailEstimateTotal := 0;
     foodServiceEstimatePerCapita := f;
     foodServiceEstimateTotal := 0;
     confidenceInEstimate := HighConfidence;
     m49Code := 0;
     region := reg;
     source := "" |}.

(** The two records of the end-to-end example. *)
Definition A : FoodWasteData := record "A" 100 60 20 20 "X".
Definition B : FoodWasteData := record "B" 50 30 10 10 "X".

(** A record whose household figure lies below a threshold of 60 that
    its combined figure passes. *)
Definition C : FoodWasteData := record "C" 100 30 40 30 "Y".

Definition criteria (lo hi : option Js.number) (w : option WasteType)
  : FilterOptions.t :=
  {| FilterOptions.region := None;
     FilterOptions.confidence := None;
     FilterOptions.minWaste := lo;
     FilterOptions.maxWaste := hi;
     FilterOptions.wasteType := w |}.

Definition atLeast60 : FilterOptions.t := criteria (Some 60) None None.
Definition atLeast60Household : FilterOptions.t :=
  criteria (Some 60) None (Some household).
Definition householdOnly : FilterOptions.t :=
  criteria None None (Some household).
End Sample.

(** * Properties *)

(** ** Lists *)

Section ListFacts.
Context {A : Type}.

Lemma filter_filter (f g : A -> bool) (l : list A) :
  filter f (filter g l) = filter (fun x => g x && f x) l.
Proof.
  induction l as [|x l IH]; simpl; [reflexivity|].
  destruct (g x); simpl; [destruct (f x)|]; rewrite IH; reflexivity.
Qed.

Lemma filter_true (l : list A) : filter (fun _ => true) l = l.
Proof. induction l as [|x l IH]; simpl; [|rewrite IH]; reflexivity. Qed.

(** A stage that filters only when its criterion is present. *)
Lemma filter_optional {B : Type} (o : option B) (f : B -> A -> bool)
  (l : list A) :
  match o with
  | Some b => filter (fun x => f b x) l
  | None => l
  end
  = filter (fun x => match o with Some b => f b x | None => true end) l.
Proof. destruct o; [reflexivity | symmetry; apply filter_true]. Qed.

Lemma filter_all (f : A -> bool) (l : list A) :
  Forall (fun x => f x = true) l -> filter f l = l.
Proof.
  induction 1 as [|x l Hx _ IH]; simpl; [reflexivity|].
  rewrite Hx, IH; reflexivity.
Qed.

Lemma filter_length_all (f : A -> bool) (l : list A) :
  List.length (filter f l) = List.length l ->
  Forall (fun x => f x = true) l.
Proof.
  induction l as [|x l IH]; simpl; intros H; [constructor|].
  pose proof (filter_length_le f l) as Hle.
  destruct (f x) eqn:E; simpl in H.
  - constructor; [assumption | apply IH; lia].
  - lia.
Qed.

Lemma Forall_filter_true (f : A -> bool) (l : list A) :
  Forall (fun x => f x = true) (filter f l).
Proof.
  apply Forall_forall; intros x Hx; apply filter_In in Hx; tauto.
Qed.
End ListFacts.

(** ** [filterData] *)

Lemma projectWasteType_idempotent (w : WasteType) (item : FoodWasteData) :
  projectWasteType w (projectWasteType w item) = projectWasteType w item.
Proof. destruct w; reflexivity. Qed.

Lemma regionMatches_project (r : option string) (w : option WasteType)
  (item : FoodWasteData) :
  regionMatches r (projectOptionalWasteType w item) = regionMatches r item.
Proof. destruct w as [[]|]; reflexivity. Qed.

Lemma confidenceMatches_project (c : option ConfidenceLevel)
  (w : option WasteType) (item : FoodWasteData) :
  confidenceMatches c (projectOptionalWasteType w item)
  = confidenceMatches c item.
Proof. destruct w as [[]|]; reflexivity. Qed.

(** The five stages of [filterData] amount to one filter by the
    conjunction of the predicates, followed by one projection. *)
Lemma filterData_keeps_then_projects (data : list FoodWasteData)
  (o : FilterOptions.t) :
  filterData data (Some o)
  = map (projectOptionalWasteType (FilterOptions.wasteType o))
      (filter (keeps o) data).
Proof.
  destruct o as [r c lo hi w]. unfold filterData, keeps, withinBounds.
  cbn [FilterOptions.region FilterOptions.confidence FilterOptions.minWaste
       FilterOptions.maxWaste FilterOptions.wasteType].
  cbv zeta.
  set (d1 := match r with Some _ => _ | None => _ end).
  assert (H1 : d1 = filter (regionMatches r) data).
  { subst d1. unfold regionMatches. destruct r as [r0|];
      [destruct (Js.truthy r0)|]; try reflexivity;
      symmetry; apply filter_true. }
  rewrite (filter_optional c
             (fun c0 item =>
                ConfidenceLevel_eqb (confidenceInEstimate item) c0)).
  rewrite (filter_optional lo (fun m item => Js.ge (combinedFigures item) m)).
  rewrite (filter_optional hi (fun m item => Js.le (combinedFigures item) m)).
  rewrite H1, !filter_filter.
  rewrite (filter_ext _
             (fun item =>
                regionMatches r item && confidenceMatches c item
                && (match lo with
                    | Some m => Qle_bool m (combinedFigures item)
                    | None => true
                    end
                    && match hi with
                       | Some m => Qle_bool (combinedFigures item) m
                       | None => true
                       end))).
  - destruct w as [[]|]; try reflexivity; symmetry; apply map_id.
  - intros item. unfold confidenceMatches, Js.ge, Js.le.
    rewrite !andb_assoc. reflexivity.
Qed.

Lemma keeps_withinBounds (o : FilterOptions.t) (item : FoodWasteData) :
  keeps o item = true ->
  withinBounds (FilterOptions.minWaste o) (FilterOptions.maxWaste o) item
  = true.
Proof. unfold keeps. intros H. apply andb_true_iff in H. tauto. Qed.

Lemma keeps_project (o : FilterOptions.t) (w : option WasteType)
  (item : FoodWasteData) :
  keeps o item = true ->
  keeps o (projectOptionalWasteType w item)
  = withinBounds (FilterOptions.minWaste o) (FilterOptions.maxWaste o)
      (projectOptionalWasteType w item).
Proof.
  unfold keeps. intros H.
  rewrite regionMatches_project, confidenceMatches_project.
  apply andb_true_iff in H. destruct H as [H _]. rewrite H. reflexivity.
Qed.

Lemma projectOptionalWasteType_idempotent (w : option WasteType)
  (item : FoodWasteData) :
  projectOptionalWasteType w (projectOptionalWasteType w item)
  = projectOptionalWasteType w item.
Proof.
  destruct w; simpl; [apply projectWasteType_idempotent | reflexivity].
Qed.

(** A second pass changes nothing exactly when every record of the first
    result still has its combined figure, as projected, within the bounds. *)
Lemma filterData_twice_iff (data : list FoodWasteData) (o : FilterOptions.t) :
  filterData (filterData data (Some o)) (Some o) = filterData data (Some o)
  <->
  Forall
    (fun item =>
       withinBounds (FilterOptions.minWaste o) (FilterOptions.maxWaste o) item
       = true)
    (filterData data (Some o)).
Proof.
  rewrite (filterData_keeps_then_projects (filterData data (Some o)) o).
  rewrite (filterData_keeps_then_projects data o).
  set (w := FilterOptions.wasteType o).
  assert (Hl : Forall (fun item => keeps o item = true) (filter (keeps o) data))
    by apply Forall_filter_true.
  revert Hl. generalize (filter (keeps o) data) as l. intros l Hl.
  assert (Hk : Forall (fun item => keeps o item = true)
                 (map (projectOptionalWasteType w) l)
               <->
               Forall (fun item =>
                         withinBounds (FilterOptions.minWaste o)
                           (FilterOptions.maxWaste o) item = true)
                 (map (projectOptionalWasteType w) l)).
  { rewrite !Forall_map. rewrite !Forall_forall. rewrite Forall_forall in Hl.
    split; intros H x Hx; specialize (H x Hx);
      rewrite (keeps_project o w x (Hl x Hx)) in *; exact H. }
  split.
  - intros H. apply Hk. apply filter_length_all.
    apply (f_equal (@List.length _)) in H. rewrite !length_map in H.
    rewrite length_map. exact H.
  - intros H. apply Hk in H. rewrite (filter_all _ _ H).
    rewrite map_map. apply map_ext. intros item.
    apply projectOptionalWasteType_idempotent.
Qed.

(** [withinBounds] is the inclusive range test on the combined figure. *)
Lemma withinBounds_iff (lo hi : option Js.number) (item : FoodWasteData) :
  withinBounds lo hi item = true
  <-> (forall m, lo = Some m -> (m <= combinedFigures item)%Q)
      /\ (forall m, hi = Some m -> (combinedFigures item <= m)%Q).
Proof.
  unfold withinBounds. rewrite andb_true_iff.
  destruct lo as [l|], hi as [h|]; rewrite ?Qle_bool_iff; split;
    try (intros [H1 H2]; split; intros m E; inversion E; subst; assumption);
    try (intros [H1 H2]; split; try reflexivity;
         try (apply H1; reflexivity); try (apply H2; reflexivity)).
Qed.

Lemma projectWasteType_replaces (w : WasteType) (item : FoodWasteData) :
  replacesCombinedFigure item (selectedFigure w item)
    (projectWasteType w item).
Proof. destruct w; repeat split. Qed.

Lemma map_projectWasteType_replaces (w : WasteType)
  (l : list FoodWasteData) :
  Forall2
    (fun item out => replacesCombinedFigure item (selectedFigure w item) out)
    l (map (projectWasteType w) l).
Proof.
  induction l as [|item l IH]; simpl; constructor;
    [apply projectWasteType_replaces | exact IH].
Qed.

(** C1 (filter-then-project).  For every criteria object that names a waste
    type, the records that [filterData] returns correspond one to one, in
    order, to the input records that pass its predicates, the numeric range
    being read on the original combined figure; each returned record has
    the figure selected by the waste type for its combined figure and, field
    by field, the values of the input record for everything else.  With no
    region and no confidence criterion, the survivors are exactly the
    records whose original combined figure lies within the inclusive bounds.
    Without a waste type the survivors are returned as they are.  On the two
    records of the example, a minimum of 60 keeps record A alone, with and
    without the household projection, although the household figure of A
    (60) passes the threshold and the combined figure of B (50) does not.
    With record C added (combined 100, household 30) the order shows:
    filtering and then projecting keeps A and C, with the figures 60 and 30,
    where projecting first and filtering afterwards keeps A alone. *)
Theorem filterData_filters_then_projects :
  (forall (data : list FoodWasteData) (o : FilterOptions.t)
          (w : WasteType),
      FilterOptions.wasteType o = Some w ->
      Forall2
        (fun item out =>
           replacesCombinedFigure item (selectedFigure w item) out)
        (filter (keeps o) data)
        (filterData data (Some o)))
  /\ (forall (data : list FoodWasteData) (o : FilterOptions.t)
             (w : WasteType),
         FilterOptions.region o = None ->
         FilterOptions.confidence o = None ->
         FilterOptions.wasteType o = Some w ->
         Forall2
           (fun item out =>
              replacesCombinedFigure item (selectedFigure w item) out)
           (filter
              (withinBounds (FilterOptions.minWaste o)
                 (FilterOptions.maxWaste o))
              data)
           (filterData data (Some o)))
  /\ (forall (data : list FoodWasteData) (o : FilterOptions.t),
         FilterOptions.wasteType o = None ->
         filterData data (Some o) = filter (keeps o) data)
  /\ filterData [Sample.A; Sample.B] (Some Sample.atLeast60) = [Sample.A]
  /\ map (fun out => (country out, combinedFigures out))
       (filterData [Sample.A; Sample.B] (Some Sample.atLeast60Household))
     = [("A"%string, 60%Q)]
  /\ Js.ge (householdEstimatePerCapita Sample.A) 60 = true
  /\ Js.ge (combinedFigures Sample.B) 60 = false
  /\ map (fun out => (country out, combinedFigures out))
       (filterData [Sample.A; Sample.B; Sample.C]
          (Some Sample.atLeast60Household))
     = [("A"%string, 60%Q); ("C"%string, 30%Q)]
  /\ map (fun out => (country out, combinedFigures out))
       (filterData
          (filterData [Sample.A; Sample.B; Sample.C]
             (Some Sample.householdOnly))
          (Some Sample.atLeast60))
     = [("A"%string, 60%Q)].
Proof.
  assert (Hgeneral :
            forall (data : list FoodWasteData) (o : FilterOptions.t)
                   (w : WasteType),
              FilterOptions.wasteType o = Some w ->
              Forall2
                (fun item out =>
                   replacesCombinedFigure item (selectedFigure w item) out)
                (filter (keeps o) data)
                (filterData data (Some o))).
  { intros data o w Hw. rewrite filterData_keeps_then_projects, Hw.
    change (projectOptionalWasteType (Some w)) with (projectWasteType w).
    apply map_projectWasteType_replaces. }
  split; [exact Hgeneral|]. split.
  { intros data o w Hr Hc Hw.
    rewrite (filter_ext
               (withinBounds (FilterOptions.minWaste o)
                  (FilterOptions.maxWaste o))
               (keeps o)).
    - apply Hgeneral, Hw.
    - intros item. unfold keeps. rewrite Hr, Hc. reflexivity. }
  split.
  { intros data o Hw. rewrite filterData_keeps_then_projects, Hw.
    apply map_id. }
  repeat split.
Qed.

Lemma filterData_filters_then_projects_example :
  Forall2
    (fun item out =>
       replacesCombinedFigure item (selectedFigure household item) out)
    [Sample.A; Sample.C]
    (filterData [Sample.A; Sample.B; Sample.C]
       (Some Sample.atLeast60Household))
  /\ map combinedFigures [Sample.A; Sample.C] = [100%Q; 100%Q]
  /\ map (selectedFigure household) [Sample.A; Sample.C] = [60%Q; 30%Q].
Proof.
  split; [|split; reflexivity].
  exact (proj1 filterData_filters_then_projects
           [Sample.A; Sample.B; Sample.C] Sample.atLeast60Household
           household eq_refl).
Defined.

(** C2, as stated, fails: record C passes a minimum of 60 on its combined
    figure of 100, is projected onto its household figure of 30, and is
    then rejected by a second pass with the same criteria. *)
Lemma filterData_not_idempotent :
  filterData (filterData [Sample.C] (Some Sample.atLeast60Household))
    (Some Sample.atLeast60Household)
  <> filterData [Sample.C] (Some Sample.atLeast60Household).
Proof. vm_compute. discriminate. Qed.

(** C2, amended.  [filterData] is idempotent for every criteria object that
    does not carry a numeric bound together with a projection onto one of
    the three source figures (and when no criteria are given at all). *)
Theorem filterData_idempotent :
  forall (data : list FoodWasteData) (options : option FilterOptions.t),
    combinesRangeWithProjection options = false ->
    filterData (filterData data options) options = filterData data options.
Proof.
  intros data [o|] H; [|reflexivity].
  apply filterData_twice_iff.
  rewrite filterData_keeps_then_projects.
  simpl in H.
  destruct (FilterOptions.wasteType o) as [[]|] eqn:Ew; simpl;
    try (rewrite map_id; apply Forall_forall; intros x Hx;
         apply filter_In in Hx; apply keeps_withinBounds; tauto);
    destruct (FilterOptions.minWaste o), (FilterOptions.maxWaste o);
    try discriminate; apply Forall_forall; reflexivity.
Qed.

Lemma filterData_idempotent_example :
  combinesRangeWithProjection (Some Sample.householdOnly) = false
  /\ filterData
       (filterData [Sample.A; Sample.B] (Some Sample.householdOnly))
       (Some Sample.householdOnly)
     = filterData [Sample.A; Sample.B] (Some Sample.householdOnly).
Proof.
  split; [reflexivity|].
  exact (filterData_idempotent [Sample.A; Sample.B]
           (Some Sample.householdOnly) eq_refl).
Defined.

(** ** [Array.prototype.sort] *)

Section SortFacts.
Context {A : Type}.
Variable comparefn : A -> A -> Js.number.

Lemma insert_permutation (x : A) (l : list A) :
  Permutation (Js.insert comparefn x l) (x :: l).
Proof.
  induction l as [|y l IH]; simpl; [apply Permutation_refl|].
  destruct (Qle_bool (comparefn x y) 0); [apply Permutation_refl|].
  eapply Permutation_trans; [apply perm_skip, IH | apply perm_swap].
Qed.

Lemma sort_permutation (l : list A) : Permutation (Js.sort comparefn l) l.
Proof.
  induction l as [|x l IH]; simpl; [constructor|].
  eapply Permutation_trans; [apply insert_permutation|].
  apply perm_skip, IH.
Qed.

Lemma sort_length (l : list A) :
  List.length (Js.sort comparefn l) = List.length l.
Proof. apply Permutation_length, sort_permutation. Qed.

(** An array that is already in order is left as it is. *)
Lemma sort_sorted_fixed (l : list A) :
  StronglySorted (precedes comparefn) l -> Js.sort comparefn l = l.
Proof.
  induction 1 as [|x l Hs IH Hx]; simpl; [reflexivity|].
  rewrite IH. destruct l as [|y l']; simpl; [reflexivity|].
  inversion Hx as [|? ? Hxy _]; subst.
  apply Qle_bool_iff in Hxy. rewrite Hxy. reflexivity.
Qed.

(** A comparator that is consistent on the elements in hand (those that
    satisfy [P]) leaves them in order. *)
Section Consistent.
Variable P : A -> Prop.
Hypothesis precedes_total :
  forall a b, P a -> P b -> precedes comparefn a b \/ precedes comparefn b a.
Hypothesis precedes_trans :
  forall a b c,
    P a -> P b -> P c ->
    precedes comparefn a b -> precedes comparefn b c -> precedes comparefn a c.

Lemma insert_sorted (x : A) (l : list A) :
  P x -> Forall P l ->
  StronglySorted (precedes comparefn) l ->
  StronglySorted (precedes comparefn) (Js.insert comparefn x l).
Proof.
  intros Px Pl Hl. induction Hl as [|y l Hs IH Hy]; simpl.
  - constructor; constructor.
  - inversion Pl as [|? ? Py Pl']; subst.
    destruct (Qle_bool (comparefn x y) 0) eqn:E.
    + apply Qle_bool_iff in E.
      constructor; [constructor; assumption|].
      constructor; [exact E|].
      rewrite Forall_forall in Hy, Pl' |- *.
      intros z Hz. exact (precedes_trans x y z Px Py (Pl' z Hz) E (Hy z Hz)).
    + constructor; [exact (IH Pl')|].
      apply (Permutation_Forall (Permutation_sym (insert_permutation x l))).
      constructor; [|exact Hy].
      destruct (precedes_total x y Px Py) as [H|H]; [|exact H].
      apply Qle_bool_iff in H. unfold precedes in H. congruence.
Qed.

Lemma sort_sorted (l : list A) :
  Forall P l -> StronglySorted (precedes comparefn) (Js.sort comparefn l).
Proof.
  induction 1 as [|x l Px Pl IH]; simpl; [constructor|].
  apply insert_sorted; [exact Px | | exact IH].
  apply (Permutation_Forall (Permutation_sym (sort_permutation l))), Pl.
Qed.
End Consistent.
End SortFacts.

(** Comparators of the shape [(a, b) => key(b) - key(a)]. *)
Section DescendingByKey.
Context {A : Type}.
Variable key : A -> Js.number.

Lemma descending_precedes (a b : A) :
  precedes (descending key) a b <-> (key b <= key a)%Q.
Proof.
  unfold precedes, descending, Js.sub. rewrite Qred_correct.
  generalize (key a) (key b). intros p q. split; lra.
Qed.

Lemma sort_descending (l : list A) :
  StronglySorted (fun a b => (key b <= key a)%Q) (Js.sort (descending key) l).
Proof.
  assert (H : StronglySorted (precedes (descending key))
                (Js.sort (descending key) l)).
  { apply (sort_sorted _ (fun _ => True)).
    - intros a b _ _. rewrite !descending_precedes.
      generalize (key a) (key b). intros p q. lra.
    - intros a b c _ _ _. rewrite !descending_precedes.
      generalize (key a) (key b) (key c). intros p q r.
      lra.
    - apply Forall_forall. intros; exact I. }
  revert H. generalize (Js.sort (descending key) l). intros s H.
  induction H as [|x s Hs IH Hx]; constructor; [exact IH|].
  eapply Forall_impl; [|exact Hx].
  intros y. apply descending_precedes.
Qed.
End DescendingByKey.

(** ** [getRegionData] *)

Lemma groupByRegionStep_cons (k : string) (v : list FoodWasteData)
  (m : Map.t (list FoodWasteData)) (item : FoodWasteData) :
  String.eqb k (region item) = false ->
  groupByRegionStep ((k, v) :: m) item = (k, v) :: groupByRegionStep m item.
Proof.
  intros E. unfold groupByRegionStep, Map.has. simpl. rewrite !E.
  destruct (Map.get m (region item)) as [items|] eqn:G; simpl;
    rewrite ?E, ?G; simpl; rewrite ?E; [reflexivity|].
  destruct (Map.get (Map.set m (region item) []) (region item));
    simpl; rewrite ?E; reflexivity.
Qed.

Lemma groupByRegionStep_addToGroup (m : Map.t (list FoodWasteData))
  (item : FoodWasteData) :
  groupByRegionStep m item = addToGroup m item.
Proof.
  induction m as [|[k v] m IH].
  - unfold groupByRegionStep, Map.has. simpl.
    rewrite !String.eqb_refl. reflexivity.
  - simpl. destruct (String.eqb k (region item)) eqn:E.
    + unfold groupByRegionStep, Map.has. simpl. rewrite !E. simpl.
      rewrite ?E. reflexivity.
    + rewrite groupByRegionStep_cons by exact E. rewrite IH. reflexivity.
Qed.

Lemma fold_groupByRegionStep (data : list FoodWasteData)
  (m : Map.t (list FoodWasteData)) :
  fold_left groupByRegionStep data m = fold_left addToGroup data m.
Proof.
  revert m. induction data as [|item data IH]; intros m; simpl;
    [reflexivity|].
  rewrite groupByRegionStep_addToGroup. apply IH.
Qed.

Lemma addToGroup_keys (m : Map.t (list FoodWasteData)) (item : FoodWasteData)
  (k : string) :
  In k (map fst (addToGroup m item)) <-> In k (map fst m) \/ k = region item.
Proof.
  induction m as [|[k' v] m IH]; simpl.
  - intuition congruence.
  - destruct (String.eqb k' (region item)) eqn:E; simpl.
    + apply String.eqb_eq in E. intuition congruence.
    + rewrite IH. tauto.
Qed.

Lemma addToGroup_NoDup (m : Map.t (list FoodWasteData)) (item : FoodWasteData) :
  NoDup (map fst m) -> NoDup (map fst (addToGroup m item)).
Proof.
  induction m as [|[k' v] m IH]; simpl; intros H.
  - constructor; [intros []|constructor].
  - inversion H as [|? ? Hn Hm]; subst.
    destruct (String.eqb k' (region item)) eqn:E; simpl.
    + constructor; assumption.
    + constructor; [|apply IH; exact Hm].
      rewrite addToGroup_keys. intros [Hin|Heq]; [exact (Hn Hin)|].
      subst k'. rewrite String.eqb_refl in E. discriminate.
Qed.

Lemma filter_inRegion_snoc (k : string) (done : list FoodWasteData)
  (item : FoodWasteData) :
  filter (inRegion k) (done ++ [item])
  = filter (inRegion k) done
    ++ (if String.eqb k (region item) then [item] else []).
Proof.
  rewrite filter_app. simpl. unfold inRegion.
  rewrite (String.eqb_sym (region item) k).
  destruct (String.eqb k (region item)); reflexivity.
Qed.

Lemma filter_inRegion_absent (k : string) (done : list FoodWasteData) :
  ~ In k (map region done) -> filter (inRegion k) done = [].
Proof.
  induction done as [|i done IH]; simpl; intros H; [reflexivity|].
  unfold inRegion at 1. destruct (String.eqb (region i) k) eqn:E.
  - apply String.eqb_eq in E. tauto.
  - apply IH. tauto.
Qed.

Lemma addToGroup_contents (done : list FoodWasteData)
  (m : Map.t (list FoodWasteData)) (item : FoodWasteData) :
  NoDup (map fst m) ->
  (In (region item) (map fst m)
   \/ filter (inRegion (region item)) done = []) ->
  Forall (fun e => snd e = filter (inRegion (fst e)) done) m ->
  Forall (fun e => snd e = filter (inRegion (fst e)) (done ++ [item]))
    (addToGroup m item).
Proof.
  induction m as [|[k v] m IH]; simpl; intros Hnd Hk Hm.
  - constructor; [|constructor]. simpl.
    rewrite filter_inRegion_snoc, String.eqb_refl.
    destruct Hk as [[]|Hk]. rewrite Hk. reflexivity.
  - inversion Hnd as [|? ? Hn Hnd']; subst.
    inversion Hm as [|? ? Hv Hm']; subst. simpl in Hv.
    destruct (String.eqb k (region item)) eqn:E.
    + constructor; simpl.
      * rewrite filter_inRegion_snoc, E, Hv. reflexivity.
      * apply Forall_forall. intros [k' v'] Hin.
        rewrite Forall_forall in Hm'. specialize (Hm' _ Hin). simpl in *.
        rewrite filter_inRegion_snoc.
        destruct (String.eqb k' (region item)) eqn:E'.
        -- apply String.eqb_eq in E, E'. exfalso. apply Hn.
           rewrite E, <- E'. apply (in_map fst _ _ Hin).
        -- rewrite app_nil_r. exact Hm'.
    + constructor; simpl.
      * rewrite filter_inRegion_snoc, E, app_nil_r. exact Hv.
      * apply IH; [exact Hnd' | | exact Hm'].
        destruct Hk as [[Hk|Hk]|Hk]; [|left; exact Hk|right; exact Hk].
        subst k. rewrite String.eqb_refl in E. discriminate.
Qed.

Lemma groupsOf_step (done : list FoodWasteData)
  (m : Map.t (list FoodWasteData)) (item : FoodWasteData) :
  groupsOf done m -> groupsOf (done ++ [item]) (addToGroup m item).
Proof.
  intros (Hnd & Hkeys & Hm). repeat split.
  - apply addToGroup_NoDup, Hnd.
  - rewrite addToGroup_keys, map_app, in_app_iff, Hkeys. simpl. intuition.
  - rewrite addToGroup_keys, map_app, in_app_iff, Hkeys. simpl. intuition.
  - apply addToGroup_contents; [exact Hnd| |exact Hm].
    destruct (in_dec string_dec (region item) (map fst m)) as [Hin|Hout];
      [left; exact Hin|right].
    apply filter_inRegion_absent. rewrite <- Hkeys. exact Hout.
Qed.

Lemma groupsOf_fold (data done : list FoodWasteData)
  (m : Map.t (list FoodWasteData)) :
  groupsOf done m -> groupsOf (done ++ data) (fold_left addToGroup data m).
Proof.
  revert done m. induction data as [|item data IH]; intros done m H; simpl.
  - rewrite app_nil_r. exact H.
  - replace (done ++ item :: data) with ((done ++ [item]) ++ data)
      by (rewrite <- app_assoc; reflexivity).
    apply IH, groupsOf_step, H.
Qed.

Lemma addToGroup_sizes (m : Map.t (list FoodWasteData)) (item : FoodWasteData) :
  list_sum (map (fun e => List.length (snd e)) (addToGroup m item))
  = S (list_sum (map (fun e => List.length (snd e)) m)).
Proof.
  induction m as [|[k v] m IH]; simpl; [reflexivity|].
  destruct (String.eqb k (region item)); simpl.
  - rewrite length_app. simpl. lia.
  - rewrite IH. lia.
Qed.

Lemma fold_addToGroup_sizes (data : list FoodWasteData)
  (m : Map.t (list FoodWasteData)) :
  list_sum (map (fun e => List.length (snd e)) (fold_left addToGroup data m))
  = (list_sum (map (fun e => List.length (snd e)) m) + List.length data)%nat.
Proof.
  revert m. induction data as [|item data IH]; intros m; simpl; [lia|].
  rewrite IH, addToGroup_sizes. lia.
Qed.

Lemma regionStatistics_region (e : string * list FoodWasteData) :
  RegionData.region (regionStatistics e) = fst e.
Proof.
  destruct e as [k items]. unfold regionStatistics.
  destruct (regionTotals items) as [[[a b] c] d]. reflexivity.
Qed.

Lemma regionStatistics_totalCountries (e : string * list FoodWasteData) :
  RegionData.totalCountries (regionStatistics e) = List.length (snd e).
Proof.
  destruct e as [k items]. unfold regionStatistics.
  destruct (regionTotals items) as [[[a b] c] d]. reflexivity.
Qed.

Lemma list_sum_permutation (l l' : list nat) :
  Permutation l l' -> list_sum l = list_sum l'.
Proof. induction 1; simpl; lia. Qed.

Lemma groupsOf_empty : groupsOf [] [].
Proof.
  split; [constructor|]. split; [simpl; tauto | constructor].
Qed.

Lemma getRegionData_groups (data : list FoodWasteData) :
  exists m : Map.t (list FoodWasteData),
    groupsOf data m
    /\ list_sum (map (fun e => List.length (snd e)) m) = List.length data
    /\ Permutation (getRegionData data) (map regionStatistics m).
Proof.
  exists (fold_left addToGroup data []). split; [|split].
  - apply (groupsOf_fold data [] []), groupsOf_empty.
  - rewrite fold_addToGroup_sizes. reflexivity.
  - unfold getRegionData, Map.entries, Map.empty.
    rewrite fold_groupByRegionStep. apply sort_permutation.
Qed.

Lemma regionTotals_combined (items : list FoodWasteData)
  (a b c d : Js.number) :
  (fst (fst (fst
     (fold_left
        (fun '(totalCombinedFigures, totalHouseholdWaste, totalRetailWaste,
               totalFoodServiceWaste) item =>
           (Js.add totalCombinedFigures (combinedFigures item),
            Js.add totalHouseholdWaste (householdEstimatePerCapita item),
            Js.add totalRetailWaste (retailEstimatePerCapita item),
            Js.add totalFoodServiceWaste (foodServiceEstimatePerCapita item)))
        items (a, b, c, d))))
   == a + fold_right Qplus 0 (map combinedFigures items))%Q.
Proof.
  revert a b c d. induction items as [|i items IH]; intros a b c d; simpl.
  - ring.
  - rewrite IH. unfold Js.add. rewrite Qred_correct. ring.
Qed.

(** The average of a group is the exact mean of its combined figures. *)
Lemma regionStatistics_average (e : string * list FoodWasteData) :
  (RegionData.averageCombinedFigures (regionStatistics e)
   == meanCombined (snd e))%Q.
Proof.
  destruct e as [k items]. unfold regionStatistics, meanCombined.
  pose proof (regionTotals_combined items 0 0 0 0) as H.
  fold (regionTotals items) in H.
  destruct (regionTotals items) as [[[a b] c] d]. simpl in *.
  unfold Js.div, Js.ofLength. rewrite Qred_correct, H, Qplus_0_l.
  reflexivity.
Qed.

(** C3.  The summaries returned by [getRegionData] are in non-increasing
    order of [averageCombinedFigures]; their [totalCountries] add up to the
    number of input records; the regions listed are pairwise distinct and
    are exactly the regions that occur in the input; and each summary counts
    the records of its own region, of which there is at least one, and
    carries the mean of their combined figures.  This holds for every
    input, the empty one included. *)
Theorem getRegionData_sorted_and_counts :
  forall data : list FoodWasteData,
    StronglySorted
      (fun a b =>
         (RegionData.averageCombinedFigures b
          <= RegionData.averageCombinedFigures a)%Q)
      (getRegionData data)
    /\ list_sum (map RegionData.totalCountries (getRegionData data))
       = List.length data
    /\ NoDup (map RegionData.region (getRegionData data))
    /\ (forall r,
           In r (map RegionData.region (getRegionData data))
           <-> In r (map region data))
    /\ Forall
         (fun s =>
            RegionData.totalCountries s
            = List.length (filter (inRegion (RegionData.region s)) data)
            /\ (1 <= RegionData.totalCountries s)%nat
            /\ (RegionData.averageCombinedFigures s
                == meanCombined
                     (filter (inRegion (RegionData.region s)) data))%Q)
         (getRegionData data).
Proof.
  intros data.
  destruct (getRegionData_groups data) as (m & (Hnd & Hkeys & Hm) & Hsum & Hp).
  assert (Hregions : map RegionData.region (map regionStatistics m)
                     = map fst m).
  { rewrite map_map. apply map_ext, regionStatistics_region. }
  split; [|split; [|split; [|split]]].
  - apply (sort_descending RegionData.averageCombinedFigures).
  - rewrite (list_sum_permutation _ _
               (Permutation_map RegionData.totalCountries Hp)).
    rewrite map_map, <- Hsum. f_equal.
    apply map_ext, regionStatistics_totalCountries.
  - apply (Permutation_NoDup
             (Permutation_sym (Permutation_map RegionData.region Hp))).
    rewrite Hregions. exact Hnd.
  - intros r. rewrite <- Hkeys, <- Hregions. split; apply Permutation_in.
    + apply Permutation_map, Hp.
    + apply Permutation_sym, Permutation_map, Hp.
  - apply (Permutation_Forall (Permutation_sym Hp)).
    apply Forall_map, Forall_forall. intros e He.
    rewrite Forall_forall in Hm. specialize (Hm e He).
    rewrite regionStatistics_totalCountries, regionStatistics_region.
    rewrite regionStatistics_average, Hm.
    split; [reflexivity|]. split; [|reflexivity].
    assert (Hin : In (fst e) (map region data))
      by (apply Hkeys, in_map, He).
    apply in_map_iff in Hin. destruct Hin as (i & Hi & Hin).
    assert (Hf : In i (filter (inRegion (fst e)) data)).
    { apply filter_In. split; [exact Hin|].
      unfold inRegion. rewrite Hi. apply String.eqb_refl. }
    destruct (filter (inRegion (fst e)) data); [destruct Hf|simpl; lia].
Qed.

(** ** [getTopWasteCountries] *)

Lemma getTopWasteCountries_prefix (data : list FoodWasteData) (n : Z) :
  getTopWasteCountries data (Some n)
  = firstn (Z.to_nat (Js.relativeIndex (Z.of_nat (List.length data)) n))
      (Js.sort (descending combinedFigures) data).
Proof.
  unfold getTopWasteCountries, Js.slice. fold (descending combinedFigures).
  rewrite sort_length.
  assert (H0 : Js.relativeIndex (Z.of_nat (List.length data)) 0 = 0%Z).
  { unfold Js.relativeIndex. simpl. lia. }
  rewrite H0. simpl skipn.
  f_equal. unfold Js.relativeIndex.
  destruct (n <? 0)%Z; lia.
Qed.

(** A count of zero, or one that reaches below minus the length, gives the
    empty array. *)
Lemma getTopWasteCountries_none (data : list FoodWasteData) (n : Z) :
  (n = 0 \/ n <= - Z.of_nat (List.length data))%Z ->
  getTopWasteCountries data (Some n) = [].
Proof.
  intros H. rewrite getTopWasteCountries_prefix.
  replace (Z.to_nat (Js.relativeIndex (Z.of_nat (List.length data)) n))
    with 0%nat; [reflexivity|].
  unfold Js.relativeIndex. destruct (n <? 0)%Z eqn:E; lia.
Qed.

(** A count of at least the length gives every record, in non-increasing
    order of [combinedFigures]. *)
Lemma getTopWasteCountries_all (data : list FoodWasteData) (n : Z) :
  (Z.of_nat (List.length data) <= n)%Z ->
  getTopWasteCountries data (Some n) = Js.sort (descending combinedFigures) data
  /\ Permutation (getTopWasteCountries data (Some n)) data
  /\ StronglySorted
       (fun a b => (combinedFigures b <= combinedFigures a)%Q)
       (getTopWasteCountries data (Some n)).
Proof.
  intros H.
  assert (E : getTopWasteCountries data (Some n)
              = Js.sort (descending combinedFigures) data).
  { rewrite getTopWasteCountries_prefix.
    apply firstn_all2. rewrite sort_length.
    unfold Js.relativeIndex. destruct (n <? 0)%Z eqn:E; lia. }
  rewrite E. split; [reflexivity|]. split.
  - apply sort_permutation.
  - apply sort_descending.
Qed.

(** A negative count above minus the length drops that many records from
    the end of the ranking, and keeps the others. *)
Lemma getTopWasteCountries_negative (data : list FoodWasteData) (n : Z) :
  (- Z.of_nat (List.length data) < n < 0)%Z ->
  List.length (getTopWasteCountries data (Some n))
  = Z.to_nat (Z.of_nat (List.length data) + n)
  /\ getTopWasteCountries data (Some n) <> [].
Proof.
  intros H.
  assert (L : List.length (getTopWasteCountries data (Some n))
              = Z.to_nat (Z.of_nat (List.length data) + n)).
  { rewrite getTopWasteCountries_prefix, length_firstn, sort_length.
    unfold Js.relativeIndex. destruct (n <? 0)%Z eqn:E; lia. }
  split; [exact L|].
  intros E. rewrite E in L. simpl in L. lia.
Qed.

(** C4, at the input where the code departs from it: asked for the top
    [-1] of the two records of the example, [getTopWasteCountries] returns
    record A, not the empty array. *)
Theorem getTopWasteCountries_minus_one :
  getTopWasteCountries [Sample.A; Sample.B] (Some (-1)%Z) = [Sample.A]
  /\ getTopWasteCountries [Sample.A; Sample.B] (Some (-1)%Z) <> [].
Proof. split; [reflexivity | discriminate]. Qed.

(** ** [getComparisonData] *)

Lemma getComparisonData_countries (data : list FoodWasteData)
  (countries : list string) :
  map ComparisonData.country (getComparisonData data countries)
  = filter (Js.includes countries) (map country data).
Proof.
  unfold getComparisonData. rewrite map_map. simpl.
  induction data as [|item data IH]; simpl; [reflexivity|].
  destruct (Js.includes countries (country item)); simpl; rewrite IH;
    reflexivity.
Qed.

Lemma includes_In (l : list string) (x : string) :
  Js.includes l x = true <-> In x l.
Proof.
  unfold Js.includes. rewrite existsb_exists. split.
  - intros (y & Hy & E). apply String.eqb_eq in E. subst. exact Hy.
  - intros H. exists x. split; [exact H | apply String.eqb_refl].
Qed.

(** C5, as stated, fails: asked for B and then A, [getComparisonData]
    answers with A and then B, the order of the records. *)
Lemma getComparisonData_ignores_requested_order :
  ~ requestedOrderKept ["B"; "A"]%string
      (map ComparisonData.country
         (getComparisonData [Sample.A; Sample.B] ["B"; "A"]%string)).
Proof.
  intros H.
  destruct (H 0%nat 1%nat "B"%string "A"%string) as (p & q & Hlt & Hp & Hq);
    try reflexivity; try lia; try (simpl; tauto).
  destruct p as [|[|[|p]]]; destruct q as [|[|[|q]]]; simpl in Hp, Hq;
    try discriminate; lia.
Qed.

(** C5, amended.  The entries returned by [getComparisonData] are those of
    the records whose name is among the requested names, one per record and
    in the order of the records; a name comes out exactly when it is both
    requested and present, so a requested name that no record carries is
    skipped, and no call fails. *)
Theorem getComparisonData_record_order :
  forall (data : list FoodWasteData) (countries : list string),
    map ComparisonData.country (getComparisonData data countries)
    = filter (Js.includes countries) (map country data)
    /\ (forall name : string,
           In name (map ComparisonData.country
                      (getComparisonData data countries))
           <-> In name countries /\ In name (map country data)).
Proof.
  intros data countries. split; [apply getComparisonData_countries|].
  intros name. rewrite getComparisonData_countries, filter_In, includes_In.
  tauto.
Qed.

Lemma divide_finite (a b : Js.number) :
  ~ (b == 0)%Q -> Js.divide a b = Js.Finite (Qred (a / b)%Q).
Proof.
  intros H. unfold Js.divide.
  destruct (Qeq_bool b 0) eqn:E; [|reflexivity].
  apply Qeq_bool_iff in E. contradiction.
Qed.

(** A zero total gives shares that are not finite, and no failure. *)
Lemma divide_by_zero (a b : Js.number) :
  (b == 0)%Q ->
  Js.divide a b = Js.NaN \/ Js.divide a b = Js.PosInfinity
  \/ Js.divide a b = Js.NegInfinity.
Proof.
  intros H. unfold Js.divide. apply Qeq_bool_iff in H. rewrite H.
  destruct (a ?= 0)%Q; tauto.
Qed.

Lemma add_add_correct (a b c : Js.number) :
  (Js.add (Js.add a b) c == a + b + c)%Q.
Proof. unfold Js.add. rewrite !Qred_correct. reflexivity. Qed.

Lemma sourceTotal_positive (item : FoodWasteData) :
  sourcesNonNegative item -> ~ sourcesAllZero item ->
  (0 < sourceTotal item)%Q.
Proof.
  unfold sourcesNonNegative, sourcesAllZero, sourceTotal.
  generalize (householdEstimatePerCapita item) (retailEstimatePerCapita item)
    (foodServiceEstimatePerCapita item).
  intros h r f (Hh & Hr & Hf) Hz.
  destruct (Qlt_le_dec 0 (h + r + f)) as [Hp|Hn]; [exact Hp|].
  exfalso. apply Hz. repeat split; lra.
Qed.

(** The shares of one record whose sources have a non-zero sum. *)
Lemma shares_sum_to_one (h r f : Js.number) :
  ~ (h + r + f == 0)%Q ->
  let total := Js.add (Js.add h r) f in
  exists sh sr sf : Js.number,
    Js.divide h total = Js.Finite sh
    /\ Js.divide r total = Js.Finite sr
    /\ Js.divide f total = Js.Finite sf
    /\ (sh == h / (h + r + f))%Q
    /\ (sr == r / (h + r + f))%Q
    /\ (sf == f / (h + r + f))%Q
    /\ (sh + sr + sf == 1)%Q
    /\ Js.add (Js.add sh sr) sf = 1%Q.
Proof.
  intros Hnz total.
  assert (Ht : (total == h + r + f)%Q) by apply add_add_correct.
  assert (Hnz' : ~ (total == 0)%Q) by (rewrite Ht; exact Hnz).
  exists (Qred (h / total)), (Qred (r / total)), (Qred (f / total)).
  rewrite !divide_finite by exact Hnz'.
  assert (Hsum : (Qred (h / total) + Qred (r / total) + Qred (f / total)
                  == 1)%Q).
  { rewrite !Qred_correct, Ht. field. exact Hnz. }
  repeat split; try (rewrite Qred_correct, Ht; reflexivity).
  - exact Hsum.
  - transitivity (Qred 1); [|reflexivity].
    unfold Js.add. apply Qred_complete. rewrite Qred_correct. exact Hsum.
Qed.

(** C6.  For a record of the input whose name is requested and whose three
    per-capita source figures are non-negative (the data model's constraint)
    and not all zero, [getComparisonData] returns an entry whose three
    shares are finite, are the source figures divided by their sum, and add
    up to exactly 1 (also when added the way the code adds numbers). *)
Theorem getComparisonData_shares_sum_to_one :
  forall (data : list FoodWasteData) (countries : list string)
         (item : FoodWasteData),
    In item data ->
    Js.includes countries (country item) = true ->
    sourcesNonNegative item ->
    ~ sourcesAllZero item ->
    exists sh sr sf : Js.number,
      In (comparisonEntry item sh sr sf) (getComparisonData data countries)
      /\ (sh == householdEstimatePerCapita item / sourceTotal item)%Q
      /\ (sr == retailEstimatePerCapita item / sourceTotal item)%Q
      /\ (sf == foodServiceEstimatePerCapita item / sourceTotal item)%Q
      /\ (sh + sr + sf == 1)%Q
      /\ Js.add (Js.add sh sr) sf = 1%Q.
Proof.
  intros data countries item Hin Hreq Hnn Hnz.
  pose proof (sourceTotal_positive item Hnn Hnz) as Hpos.
  assert (Hne : ~ (sourceTotal item == 0)%Q).
  { intros E. rewrite E in Hpos. exact (Qlt_irrefl 0 Hpos). }
  destruct (shares_sum_to_one _ _ _ Hne)
    as (sh & sr & sf & Eh & Er & Ef & Hh & Hr & Hf & Hsum & Hadd).
  exists sh, sr, sf. repeat split; try assumption.
  unfold getComparisonData. apply in_map_iff. exists item. split.
  - unfold comparisonEntry. rewrite Eh, Er, Ef. reflexivity.
  - apply filter_In. split; assumption.
Qed.

Lemma getComparisonData_shares_sum_to_one_example :
  exists sh sr sf : Js.number,
    In (comparisonEntry Sample.A sh sr sf)
      (getComparisonData [Sample.A; Sample.B] ["A"; "B"]%string)
    /\ (sh == householdEstimatePerCapita Sample.A / sourceTotal Sample.A)%Q
    /\ (sr == retailEstimatePerCapita Sample.A / sourceTotal Sample.A)%Q
    /\ (sf == foodServiceEstimatePerCapita Sample.A / sourceTotal Sample.A)%Q
    /\ (sh + sr + sf == 1)%Q
    /\ Js.add (Js.add sh sr) sf = 1%Q.
Proof.
  apply (getComparisonData_shares_sum_to_one
           [Sample.A; Sample.B] ["A"; "B"]%string Sample.A).
  - simpl. tauto.
  - reflexivity.
  - unfold sourcesNonNegative. simpl. repeat split; discriminate.
  - unfold sourcesAllZero. simpl. intros (H & _). discriminate H.
Defined.

(** ** [generateTrendData] *)

Section GeneratorFacts.
Variable currentYear : Z.
Variable random : nat -> Js.number.

(** The loop leaves by its own test: any bound of at least the number of
    years from [year] to [currentYear] gives the same points. *)
Lemma yearLoop_runs (fuel : nat) (c : FoodWasteData) (year : Z)
  (trendData : list TrendDataPoint.t) (drawn : nat) :
  (Z.to_nat (currentYear - year + 1) <= fuel)%nat ->
  yearLoop currentYear random fuel c year trendData drawn
  = (trendData
     ++ loopPoints currentYear random c year drawn
          (Z.to_nat (currentYear - year + 1)),
     (drawn + Z.to_nat (currentYear - year + 1))%nat).
Proof.
  revert year trendData drawn.
  induction fuel as [|fuel IH]; intros year trendData drawn H.
  - replace (Z.to_nat (currentYear - year + 1)) with 0%nat by lia.
    simpl. rewrite app_nil_r, Nat.add_0_r. reflexivity.
  - simpl. destruct (year <=? currentYear)%Z eqn:E.
    + apply Z.leb_le in E.
      rewrite IH by lia.
      replace (Z.to_nat (currentYear - year + 1))
        with (S (Z.to_nat (currentYear - (year + 1) + 1))) by lia.
      set (n := Z.to_nat (currentYear - (year + 1) + 1)).
      unfold loopPoints. simpl seq. rewrite <- seq_shift, map_cons, map_map.
      rewrite <- app_assoc. simpl app.
      rewrite Z.add_0_r, Nat.add_0_r.
      f_equal; [|lia]. f_equal. f_equal.
      apply map_ext. intros i. f_equal; [lia|f_equal; lia].
    + apply Z.leb_gt in E.
      replace (Z.to_nat (currentYear - year + 1)) with 0%nat by lia.
      unfold loopPoints. simpl. rewrite app_nil_r, Nat.add_0_r. reflexivity.
Qed.

Lemma compareYear_precedes (a b : TrendDataPoint.t) :
  precedes compareYear a b
  <-> (TrendDataPoint.year a <= TrendDataPoint.year b)%Z.
Proof.
  unfold precedes, compareYear, Js.sub, Js.ofInt. rewrite Qred_correct.
  rewrite Zle_Qle.
  generalize (inject_Z (TrendDataPoint.year a))
    (inject_Z (TrendDataPoint.year b)).
  intros p q. split; lra.
Qed.

Lemma loopPoints_years (c : FoodWasteData) (year : Z) (drawn n : nat) :
  map TrendDataPoint.year (loopPoints currentYear random c year drawn n)
  = map (fun i => (year + Z.of_nat i)%Z) (seq 0 n).
Proof. unfold loopPoints. rewrite map_map. reflexivity. Qed.

Lemma loopPoints_sorted (c : FoodWasteData) (year : Z) (drawn n : nat) :
  StronglySorted (precedes compareYear)
    (loopPoints currentYear random c year drawn n).
Proof.
  unfold loopPoints. generalize 0%nat as start.
  induction n as [|n IH]; intros start; simpl; constructor; [apply IH|].
  apply Forall_forall. intros p Hp.
  apply in_map_iff in Hp. destruct Hp as (i & <- & Hi).
  apply in_seq in Hi. apply compareYear_precedes. simpl. lia.
Qed.

Lemma mapCountries_seriesOf (data : list FoodWasteData) (startYear : Z)
  (drawn : nat) :
  mapCountries currentYear random data startYear drawn
  = (seriesOf currentYear random data startYear drawn
       (yearLoopFuel currentYear startYear),
     (drawn + yearLoopFuel currentYear startYear * List.length data)%nat).
Proof.
  revert drawn. induction data as [|c rest IH]; intros drawn; simpl.
  - rewrite Nat.mul_0_r, Nat.add_0_r. reflexivity.
  - rewrite yearLoop_runs by (unfold yearLoopFuel; lia).
    fold (yearLoopFuel currentYear startYear).
    rewrite IH. simpl app. rewrite sort_sorted_fixed by apply loopPoints_sorted.
    f_equal. lia.
Qed.

Lemma seriesOf_countries (data : list FoodWasteData) (startYear : Z)
  (drawn n : nat) :
  map CountryTrendData.country
    (seriesOf currentYear random data startYear drawn n)
  = map country data
  /\ map CountryTrendData.region
       (seriesOf currentYear random data startYear drawn n)
     = map region data.
Proof.
  revert drawn. induction data as [|c rest IH]; intros drawn; simpl;
    [split; reflexivity|].
  destruct (IH (drawn + n)%nat) as [H1 H2]. rewrite H1, H2.
  split; reflexivity.
Qed.


Lemma seriesOf_empty (data : list FoodWasteData) (startYear : Z)
  (drawn : nat) :
  seriesOf currentYear random data startYear drawn 0 = map emptySeries data.
Proof.
  revert drawn. induction data as [|c rest IH]; intros drawn; simpl;
    [reflexivity|].
  rewrite IH. reflexivity.
Qed.

End GeneratorFacts.

Lemma seriesOf_years (currentYear : Z) (random : nat -> Js.number)
  (data : list FoodWasteData) (startYear : Z) (drawn n : nat) :
  Forall
    (fun s =>
       map TrendDataPoint.year (CountryTrendData.trendData s)
       = map (fun i => (startYear + Z.of_nat i)%Z) (seq 0 n))
    (seriesOf currentYear random data startYear drawn n).
Proof.
  revert drawn. induction data as [|c rest IH]; intros drawn; simpl;
    constructor; [apply loopPoints_years | apply IH].
Qed.

(** C7, as stated, fails: asked for zero years, [generateTrendData]
    completes normally, with one series without points per record. *)
Lemma generateTrendData_zero_years_returns :
  generateTrendData 2025 (fun _ => 1 # 2) [Sample.A; Sample.B] (Some 0%Z) 0
  = Normal ([emptySeries Sample.A; emptySeries Sample.B], 0%nat)
  /\ generateTrendData 2025 (fun _ => 1 # 2) [Sample.A; Sample.B]
       (Some 0%Z) 0
     <> Throw InvalidArgument.
Proof. split; [reflexivity | discriminate]. Qed.

(** C7, amended.  Asked for fewer than one year, [generateTrendData] does
    not fail: it returns one series per record, in order, each carrying the
    record's country and region and no point, and draws no random value. *)
Theorem generateTrendData_below_one_year :
  forall (currentYear : Z) (random : nat -> Js.number)
         (data : list FoodWasteData) (years : Z) (drawn : nat),
    (years < 1)%Z ->
    generateTrendData currentYear random data (Some years) drawn
    = Normal (map emptySeries data, drawn).
Proof.
  intros currentYear random data years drawn H.
  unfold generateTrendData. rewrite mapCountries_seriesOf.
  replace (yearLoopFuel currentYear (currentYear - years + 1)) with 0%nat
    by (unfold yearLoopFuel; lia).
  rewrite seriesOf_empty. simpl. rewrite Nat.add_0_r. reflexivity.
Qed.

Lemma generateTrendData_below_one_year_example :
  (-3 < 1)%Z
  /\ generateTrendData 2025 (fun _ => 1 # 2) [Sample.A; Sample.B]
       (Some (-3)%Z) 7
     = Normal (map emptySeries [Sample.A; Sample.B], 7%nat).
Proof.
  split; [reflexivity|].
  apply (generateTrendData_below_one_year 2025 (fun _ => 1 # 2)
           [Sample.A; Sample.B] (-3) 7).
  reflexivity.
Defined.

(** *** Rounding to one decimal place *)









(** ** [getGlobalTrendData] and [getRegionalTrendData] *)

Lemma setOf_fold_In (l s : list Z) (y : Z) :
  In y (fold_left
          (fun s y => if existsb (Z.eqb y) s then s else s ++ [y]) l s)
  <-> In y s \/ In y l.
Proof.
  revert s. induction l as [|x l IH]; intros s; simpl; [tauto|].
  rewrite IH. destruct (existsb (Z.eqb x) s) eqn:E.
  - apply existsb_exists in E. destruct E as (x' & Hx' & E).
    apply Z.eqb_eq in E. subst x'. intuition (subst; tauto).
  - rewrite in_app_iff. simpl. tauto.
Qed.


Lemma setOf_In (l : list Z) (y : Z) : In y (setOf l) <-> In y l.
Proof. unfold setOf. rewrite setOf_fold_In. simpl. tauto. Qed.


Lemma availableYears_In (trendData : list CountryTrendData.t) (y : Z) :
  In y (availableYears trendData) <-> yearOccurs trendData y.
Proof.
  unfold availableYears, yearOccurs.
  transitivity
    (In y (setOf
             (flat_map
                (fun country =>
                   map TrendDataPoint.year (CountryTrendData.trendData country))
                trendData))).
  - split; apply Permutation_in;
      [|apply Permutation_sym]; apply sort_permutation.
  - rewrite setOf_In, in_flat_map. split.
    + intros (s & Hs & Hy). apply in_map_iff in Hy.
      destruct Hy as (p & Hp & Hin). exists s, p. tauto.
    + intros (s & p & Hs & Hp & Hy). exists s. split; [exact Hs|].
      apply in_map_iff. exists p. tauto.
Qed.


Lemma yearDataPoints_In (trendData : list CountryTrendData.t) (y : Z)
  (point : TrendDataPoint.t) :
  In point (yearDataPoints trendData y)
  <-> exists s, In s trendData
                /\ In point (CountryTrendData.trendData s)
                /\ TrendDataPoint.year point = y.
Proof.
  unfold yearDataPoints. rewrite in_flat_map.
  split; intros (s & Hs & H); exists s; split; try exact Hs.
  - apply filter_In in H. rewrite Z.eqb_eq in H. exact H.
  - apply filter_In. rewrite Z.eqb_eq. exact H.
Qed.

(** A year that occurs has at least one data point. *)
Lemma yearDataPoints_nonempty (trendData : list CountryTrendData.t) (y : Z) :
  yearOccurs trendData y ->
  (1 <= List.length (yearDataPoints trendData y))%nat.
Proof.
  intros (s & p & Hs & Hp & Hy).
  assert (H : In p (yearDataPoints trendData y)).
  { apply yearDataPoints_In. exists s. tauto. }
  destruct (yearDataPoints trendData y); [destruct H | simpl; lia].
Qed.

Lemma getGlobalTrendData_years (trendData : list CountryTrendData.t) :
  map TrendDataPoint.year (getGlobalTrendData trendData)
  = availableYears trendData.
Proof.
  unfold getGlobalTrendData. rewrite map_map. simpl. apply map_id.
Qed.

Lemma filter_none {A : Type} (f : A -> bool) (l : list A) :
  (forall x, In x l -> f x = false) -> filter f l = [].
Proof.
  induction l as [|x l IH]; simpl; intros H; [reflexivity|].
  rewrite (H x (or_introl eq_refl)). apply IH. intros y Hy. apply H. tauto.
Qed.

(** C10.  Every year of the result of [getGlobalTrendData] occurs in some
    input series, and for such a year the number of data points the mean is
    taken over is at least 1, so the divisor is never zero; and
    [getRegionalTrendData] returns the empty array for a region that no
    series belongs to. *)
Theorem getGlobalTrendData_divisor_positive :
  forall trendData : list CountryTrendData.t,
    Forall
      (fun point =>
         yearOccurs trendData (TrendDataPoint.year point)
         /\ (1 <= List.length
                    (yearDataPoints trendData (TrendDataPoint.year point)))%nat
         /\ ~ (Js.ofLength
                 (List.length
                    (yearDataPoints trendData (TrendDataPoint.year point)))
               == 0)%Q)
      (getGlobalTrendData trendData)
    /\ (forall region : string,
           (forall s, In s trendData -> CountryTrendData.region s <> region) ->
           getRegionalTrendData trendData region = []).
Proof.
  intros trendData. split.
  - apply Forall_forall. intros p Hp.
    assert (Hy : yearOccurs trendData (TrendDataPoint.year p)).
    { apply availableYears_In. rewrite <- getGlobalTrendData_years.
      apply in_map, Hp. }
    pose proof (yearDataPoints_nonempty trendData _ Hy) as Hn.
    split; [exact Hy|]. split; [exact Hn|].
    unfold Js.ofLength, Qeq. simpl. lia.
  - intros region H. unfold getRegionalTrendData.
    rewrite filter_none; [reflexivity|].
    intros s Hs. apply String.eqb_neq, H, Hs.
Qed.

Lemma getGlobalTrendData_divisor_positive_example :
  Forall
    (fun point =>
       (1 <= List.length
               (yearDataPoints SampleTrend.twoSeries
                  (TrendDataPoint.year point)))%nat)
    (getGlobalTrendData SampleTrend.twoSeries)
  /\ getRegionalTrendData SampleTrend.twoSeries "Y" = [].
Proof.
  destruct (getGlobalTrendData_divisor_positive SampleTrend.twoSeries)
    as [H1 H2].
  split.
  - eapply Forall_impl; [|exact H1]. intros p Hp. apply Hp.
  - apply H2. simpl. intros s [<-|[<-|[]]]; discriminate.
Defined.








(** *** The order of the years *)

Lemma ltb_lt (a b : string) : String.ltb a b = true <-> String_as_OT.lt a b.
Proof.
  rewrite <- String_as_OT.cmp_lt. unfold String.ltb, String_as_OT.cmp.
  destruct (String.compare a b); split; congruence.
Qed.

Lemma ltb_trans (a b c : string) :
  String.ltb a b = true -> String.ltb b c = true -> String.ltb a c = true.
Proof. rewrite !ltb_lt. apply String_as_OT.lt_trans. Qed.

Lemma ltb_irrefl (a : string) : String.ltb a a = false.
Proof.
  destruct (String.ltb a a) eqn:E; [|reflexivity].
  apply ltb_lt in E. exfalso.
  exact (String_as_OT.lt_not_eq a a E eq_refl).
Qed.

Lemma ltb_asym (a b : string) :
  String.ltb a b = true -> String.ltb b a = false.
Proof.
  intros H. destruct (String.ltb b a) eqn:E; [|reflexivity].
  rewrite <- (ltb_irrefl a). symmetry. exact (ltb_trans a b a H E).
Qed.










(** ** The end-to-end example *)

Example getRegionData_example :
  getRegionData [Sample.A; Sample.B]
  = [{| RegionData.region := "X";
        RegionData.averageCombinedFigures := 75;
        RegionData.totalCountries := 2;
        RegionData.totalHouseholdWaste := 90;
        RegionData.totalRetailWaste := 30;
        RegionData.totalFoodServiceWaste := 30 |}].
Proof. reflexivity. Qed.

Example getTopWasteCountries_example :
  getTopWasteCountries [Sample.A; Sample.B] (Some 1%Z) = [Sample.A]
  /\ getTopWasteCountries [Sample.B; Sample.A] (Some 1%Z) = [Sample.A]
  /\ getTopWasteCountries [Sample.B; Sample.A] None = [Sample.A; Sample.B].
Proof. repeat split. Qed.

Example getComparisonData_example :
  getComparisonData [Sample.A; Sample.B] ["A"; "B"]%string
  = [comparisonEntry Sample.A (3 # 5) (1 # 5) (1 # 5);
     comparisonEntry Sample.B (3 # 5) (1 # 5) (1 # 5)].
Proof. reflexivity. Qed.

Example generateTrendData_example :
  generateTrendData 2025 (fun _ => 1 # 2) [Sample.B] (Some 2%Z) 0
  = Normal
      ([SampleTrend.series "B" "X"
          [{| TrendDataPoint.year := 2024;
              TrendDataPoint.combinedFigures := 105 # 2;
              TrendDataPoint.householdEstimatePerCapita := 63 # 2;
              TrendDataPoint.retailEstimatePerCapita := 21 # 2;
              TrendDataPoint.foodServiceEstimatePerCapita := 21 # 2 |};
           {| TrendDataPoint.year := 2025;
              TrendDataPoint.combinedFigures := 50;
              TrendDataPoint.householdEstimatePerCapita := 30;
              TrendDataPoint.retailEstimatePerCapita := 10;
              TrendDataPoint.foodServiceEstimatePerCapita := 10 |}]],
       2%nat).
Proof. reflexivity. Qed.

Example toFixed1_examples :
  Js.toFixed1 (5 # 4) = 13 # 10
  /\ Js.toFixed1 (- (5 # 4)) = - (13 # 10)
  /\ Js.toFixed1 (124 # 100) = 6 # 5
  /\ Js.toFixed1 (1 # 20) = 1 # 10
  /\ Js.toFixed1 (1 # 25) = 0.
Proof. repeat split. Qed.

(** * Further properties *)

(** ** First occurrences *)

Section FirstOccurrences.
Context {A : Type}.
Variable eqb : A -> A -> bool.
Hypothesis eqb_eq : forall x y, eqb x y = true <-> x = y.

Lemma existsb_eqb_In (x : A) (s : list A) :
  existsb (eqb x) s = true <-> In x s.
Proof.
  rewrite existsb_exists. split.
  - intros (y & Hy & E). apply eqb_eq in E. subst. exact Hy.
  - intros H. exists x. split; [exact H | apply eqb_eq; reflexivity].
Qed.

Lemma firstOccurrences_fold_In (l s : list A) (x : A) :
  In x (fold_left (fun s x => if existsb (eqb x) s then s else s ++ [x]) l s)
  <-> In x s \/ In x l.
Proof.
  revert s. induction l as [|y l IH]; intros s; simpl; [tauto|].
  rewrite IH. destruct (existsb (eqb y) s) eqn:E.
  - apply existsb_eqb_In in E. intuition (subst; tauto).
  - rewrite in_app_iff. simpl. tauto.
Qed.

Lemma firstOccurrences_fold_NoDup (l s : list A) :
  NoDup s ->
  NoDup (fold_left (fun s x => if existsb (eqb x) s then s else s ++ [x]) l s).
Proof.
  revert s. induction l as [|y l IH]; intros s H; simpl; [exact H|].
  apply IH. destruct (existsb (eqb y) s) eqn:E; [exact H|].
  apply NoDup_app; [exact H | constructor; [intros []|constructor] |].
  intros z Hz [<-|[]].
  apply existsb_eqb_In in Hz. congruence.
Qed.

Lemma firstOccurrences_In (l : list A) (x : A) :
  In x (firstOccurrencesBy eqb l) <-> In x l.
Proof.
  unfold firstOccurrencesBy. rewrite firstOccurrences_fold_In. simpl. tauto.
Qed.

Lemma firstOccurrences_NoDup (l : list A) : NoDup (firstOccurrencesBy eqb l).
Proof. apply firstOccurrences_fold_NoDup. constructor. Qed.

Lemma firstOccurrences_snoc (l : list A) (x : A) :
  firstOccurrencesBy eqb (l ++ [x])
  = if existsb (eqb x) (firstOccurrencesBy eqb l)
    then firstOccurrencesBy eqb l
    else firstOccurrencesBy eqb l ++ [x].
Proof. unfold firstOccurrencesBy. rewrite fold_left_app. reflexivity. Qed.

(** A list without repetitions is its own list of first occurrences. *)
Lemma firstOccurrences_fold_fixed (l s : list A) :
  NoDup (s ++ l) ->
  fold_left (fun s x => if existsb (eqb x) s then s else s ++ [x]) l s
  = s ++ l.
Proof.
  revert s. induction l as [|y l IH]; intros s H; simpl.
  - rewrite app_nil_r. reflexivity.
  - destruct (existsb (eqb y) s) eqn:E.
    + apply existsb_eqb_In in E. apply NoDup_remove_2 in H.
      exfalso. apply H. apply in_or_app. tauto.
    + replace (s ++ y :: l) with ((s ++ [y]) ++ l) in *
        by (rewrite <- app_assoc; reflexivity).
      apply IH, H.
Qed.

(** Elements that are already present change nothing. *)
Lemma firstOccurrences_fold_present (l s : list A) :
  (forall x, In x l -> In x s) ->
  fold_left (fun s x => if existsb (eqb x) s then s else s ++ [x]) l s = s.
Proof.
  induction l as [|y l IH]; intros H; simpl; [reflexivity|].
  assert (E : existsb (eqb y) s = true)
    by (apply existsb_eqb_In, H; simpl; tauto).
  rewrite E. apply IH. intros x Hx. apply H. simpl. tauto.
Qed.
End FirstOccurrences.

Lemma ConfidenceLevel_eqb_eq (a b : ConfidenceLevel) :
  ConfidenceLevel_eqb a b = true <-> a = b.
Proof. destruct a, b; simpl; split; congruence. Qed.

Lemma ConfidenceLevel_eqb_refl (a : ConfidenceLevel) :
  ConfidenceLevel_eqb a a = true.
Proof. destruct a; reflexivity. Qed.

Lemma ConfidenceLevel_eqb_sym (a b : ConfidenceLevel) :
  ConfidenceLevel_eqb a b = ConfidenceLevel_eqb b a.
Proof. destruct a, b; reflexivity. Qed.

(** ** [getConfidenceData] *)

Lemma groupByConfidenceStep_cons (k : ConfidenceLevel)
  (v : list FoodWasteData) (m : LevelMap.t (list FoodWasteData))
  (item : FoodWasteData) :
  ConfidenceLevel_eqb k (confidenceInEstimate item) = false ->
  groupByConfidenceStep ((k, v) :: m) item
  = (k, v) :: groupByConfidenceStep m item.
Proof.
  intros E. unfold groupByConfidenceStep, LevelMap.has. simpl. rewrite !E.
  destruct (LevelMap.get m (confidenceInEstimate item)) as [items|] eqn:G;
    simpl; rewrite ?E, ?G; simpl; rewrite ?E; [reflexivity|].
  destruct (LevelMap.get (LevelMap.set m (confidenceInEstimate item) [])
              (confidenceInEstimate item));
    simpl; rewrite ?E; reflexivity.
Qed.

Lemma groupByConfidenceStep_addToLevel (m : LevelMap.t (list FoodWasteData))
  (item : FoodWasteData) :
  groupByConfidenceStep m item = addToLevel m item.
Proof.
  induction m as [|[k v] m IH].
  - unfold groupByConfidenceStep, LevelMap.has. simpl.
    rewrite !ConfidenceLevel_eqb_refl. reflexivity.
  - simpl. destruct (ConfidenceLevel_eqb k (confidenceInEstimate item)) eqn:E.
    + unfold groupByConfidenceStep, LevelMap.has. simpl. rewrite !E. simpl.
      rewrite ?E. reflexivity.
    + rewrite groupByConfidenceStep_cons by exact E. rewrite IH. reflexivity.
Qed.

Lemma fold_groupByConfidenceStep (data : list FoodWasteData)
  (m : LevelMap.t (list FoodWasteData)) :
  fold_left groupByConfidenceStep data m = fold_left addToLevel data m.
Proof.
  revert m. induction data as [|item data IH]; intros m; simpl;
    [reflexivity|].
  rewrite groupByConfidenceStep_addToLevel. apply IH.
Qed.

Lemma addToLevel_keys (m : LevelMap.t (list FoodWasteData))
  (item : FoodWasteData) :
  map fst (addToLevel m item)
  = if existsb (ConfidenceLevel_eqb (confidenceInEstimate item)) (map fst m)
    then map fst m
    else map fst m ++ [confidenceInEstimate item].
Proof.
  induction m as [|[k v] m IH]; simpl; [reflexivity|].
  rewrite (ConfidenceLevel_eqb_sym (confidenceInEstimate item) k).
  destruct (ConfidenceLevel_eqb k (confidenceInEstimate item)); simpl;
    [reflexivity|].
  rewrite IH.
  destruct (existsb (ConfidenceLevel_eqb (confidenceInEstimate item))
              (map fst m)); reflexivity.
Qed.

Lemma filter_atLevel_snoc (k : ConfidenceLevel) (done : list FoodWasteData)
  (item : FoodWasteData) :
  filter (atLevel k) (done ++ [item])
  = filter (atLevel k) done
    ++ (if ConfidenceLevel_eqb k (confidenceInEstimate item)
        then [item] else []).
Proof.
  rewrite filter_app. simpl. unfold atLevel.
  rewrite (ConfidenceLevel_eqb_sym (confidenceInEstimate item) k).
  destruct (ConfidenceLevel_eqb k (confidenceInEstimate item)); reflexivity.
Qed.

Lemma filter_atLevel_absent (k : ConfidenceLevel)
  (done : list FoodWasteData) :
  ~ In k (map confidenceInEstimate done) -> filter (atLevel k) done = [].
Proof.
  intros H. apply filter_none. intros i Hi. unfold atLevel.
  destruct (ConfidenceLevel_eqb (confidenceInEstimate i) k) eqn:E;
    [|reflexivity].
  apply ConfidenceLevel_eqb_eq in E. exfalso. apply H. rewrite <- E.
  apply in_map, Hi.
Qed.

Lemma addToLevel_contents (done : list FoodWasteData)
  (m : LevelMap.t (list FoodWasteData)) (item : FoodWasteData) :
  NoDup (map fst m) ->
  (In (confidenceInEstimate item) (map fst m)
   \/ filter (atLevel (confidenceInEstimate item)) done = []) ->
  Forall (fun e => snd e = filter (atLevel (fst e)) done) m ->
  Forall (fun e => snd e = filter (atLevel (fst e)) (done ++ [item]))
    (addToLevel m item).
Proof.
  induction m as [|[k v] m IH]; simpl; intros Hnd Hk Hm.
  - constructor; [|constructor]. simpl.
    rewrite filter_atLevel_snoc, ConfidenceLevel_eqb_refl.
    destruct Hk as [[]|Hk]. rewrite Hk. reflexivity.
  - inversion Hnd as [|? ? Hn Hnd']; subst.
    inversion Hm as [|? ? Hv Hm']; subst. simpl in Hv.
    destruct (ConfidenceLevel_eqb k (confidenceInEstimate item)) eqn:E.
    + constructor; simpl.
      * rewrite filter_atLevel_snoc, E, Hv. reflexivity.
      * apply Forall_forall. intros [k' v'] Hin.
        rewrite Forall_forall in Hm'. specialize (Hm' _ Hin). simpl in *.
        rewrite filter_atLevel_snoc.
        destruct (ConfidenceLevel_eqb k' (confidenceInEstimate item)) eqn:E'.
        -- apply ConfidenceLevel_eqb_eq in E, E'. exfalso. apply Hn.
           rewrite E, <- E'. apply (in_map fst _ _ Hin).
        -- rewrite app_nil_r. exact Hm'.
    + constructor; simpl.
      * rewrite filter_atLevel_snoc, E, app_nil_r. exact Hv.
      * apply IH; [exact Hnd' | | exact Hm'].
        destruct Hk as [[Hk|Hk]|Hk]; [|left; exact Hk|right; exact Hk].
        subst k. rewrite ConfidenceLevel_eqb_refl in E. discriminate.
Qed.

Lemma levelGroupsOf_step (done : list FoodWasteData)
  (m : LevelMap.t (list FoodWasteData)) (item : FoodWasteData) :
  levelGroupsOf done m -> levelGroupsOf (done ++ [item]) (addToLevel m item).
Proof.
  intros (Hkeys & Hm). split.
  - rewrite addToLevel_keys, map_app. simpl.
    rewrite (firstOccurrences_snoc ConfidenceLevel_eqb), <- Hkeys.
    reflexivity.
  - assert (Hnd : NoDup (map fst m)).
    { rewrite Hkeys.
      apply (firstOccurrences_NoDup _ ConfidenceLevel_eqb_eq). }
    apply addToLevel_contents; [exact Hnd| |exact Hm].
    destruct (existsb (ConfidenceLevel_eqb (confidenceInEstimate item))
                (map fst m)) eqn:Ex.
    { left. apply (existsb_eqb_In _ ConfidenceLevel_eqb_eq), Ex. }
    right.
    assert (Hout : ~ In (confidenceInEstimate item) (map fst m)).
    { intros H. apply (existsb_eqb_In _ ConfidenceLevel_eqb_eq) in H.
      congruence. }
    apply filter_atLevel_absent. intros H. apply Hout. rewrite Hkeys.
    apply (firstOccurrences_In _ ConfidenceLevel_eqb_eq). exact H.
Qed.

Lemma levelGroupsOf_fold (data done : list FoodWasteData)
  (m : LevelMap.t (list FoodWasteData)) :
  levelGroupsOf done m ->
  levelGroupsOf (done ++ data) (fold_left addToLevel data m).
Proof.
  revert done m. induction data as [|item data IH]; intros done m H; simpl.
  - rewrite app_nil_r. exact H.
  - replace (done ++ item :: data) with ((done ++ [item]) ++ data)
      by (rewrite <- app_assoc; reflexivity).
    apply IH, levelGroupsOf_step, H.
Qed.

Lemma addToLevel_sizes (m : LevelMap.t (list FoodWasteData))
  (item : FoodWasteData) :
  list_sum (map (fun e => List.length (snd e)) (addToLevel m item))
  = S (list_sum (map (fun e => List.length (snd e)) m)).
Proof.
  induction m as [|[k v] m IH]; simpl; [reflexivity|].
  destruct (ConfidenceLevel_eqb k (confidenceInEstimate item)); simpl.
  - rewrite length_app. simpl. lia.
  - rewrite IH. lia.
Qed.

Lemma fold_addToLevel_sizes (data : list FoodWasteData)
  (m : LevelMap.t (list FoodWasteData)) :
  list_sum (map (fun e => List.length (snd e)) (fold_left addToLevel data m))
  = (list_sum (map (fun e => List.length (snd e)) m) + List.length data)%nat.
Proof.
  revert m. induction data as [|item data IH]; intros m; simpl; [lia|].
  rewrite IH, addToLevel_sizes. lia.
Qed.

Lemma getConfidenceData_groups (data : list FoodWasteData) :
  exists m : LevelMap.t (list FoodWasteData),
    levelGroupsOf data m
    /\ list_sum (map (fun e => List.length (snd e)) m) = List.length data
    /\ getConfidenceData data = map confidenceStatistics m.
Proof.
  exists (fold_left addToLevel data []). split; [|split].
  - apply (levelGroupsOf_fold data [] []). split; [reflexivity|constructor].
  - rewrite fold_addToLevel_sizes. reflexivity.
  - unfold getConfidenceData, LevelMap.entries, LevelMap.empty.
    rewrite fold_groupByConfidenceStep. reflexivity.
Qed.

Lemma sumCombinedFigures_from (items : list FoodWasteData) (acc : Js.number) :
  (fold_left (fun sum item => Js.add sum (combinedFigures item)) items acc
   == acc + fold_right Qplus 0 (map combinedFigures items))%Q.
Proof.
  revert acc. induction items as [|i items IH]; intros acc; simpl.
  - ring.
  - rewrite IH. unfold Js.add. rewrite Qred_correct. ring.
Qed.

Lemma sumCombinedFigures_sum (items : list FoodWasteData) :
  (sumCombinedFigures items
   == fold_right Qplus 0 (map combinedFigures items))%Q.
Proof.
  unfold sumCombinedFigures. rewrite sumCombinedFigures_from. ring.
Qed.

Lemma NoDup_levels_length (l : list ConfidenceLevel) :
  NoDup l -> (List.length l <= 4)%nat.
Proof.
  intros H.
  apply (NoDup_incl_length H
           (l' := [VeryLowConfidence; LowConfidence; MediumConfidence;
                   HighConfidence])).
  intros c _. destruct c; simpl; tauto.
Qed.

(** X1.  [getConfidenceData] returns one entry per confidence level that
    occurs in the input, in the order in which the levels first occur (it
    does not sort); the levels listed are pairwise distinct, so there are
    at most four entries, and none for a level without records. *)
Theorem getConfidenceData_levels :
  forall data : list FoodWasteData,
    map ConfidenceData.confidenceLevel (getConfidenceData data)
    = firstOccurrencesBy ConfidenceLevel_eqb (map confidenceInEstimate data)
    /\ NoDup (map ConfidenceData.confidenceLevel (getConfidenceData data))
    /\ (List.length (getConfidenceData data) <= 4)%nat
    /\ (forall c : ConfidenceLevel,
           In c (map ConfidenceData.confidenceLevel (getConfidenceData data))
           <-> In c (map confidenceInEstimate data)).
Proof.
  intros data.
  destruct (getConfidenceData_groups data) as (m & (Hkeys & _) & _ & E).
  assert (Hl : map ConfidenceData.confidenceLevel (getConfidenceData data)
               = firstOccurrencesBy ConfidenceLevel_eqb
                   (map confidenceInEstimate data)).
  { rewrite E, map_map, <- Hkeys. apply map_ext. intros [k v]. reflexivity. }
  assert (Hnd : NoDup (map ConfidenceData.confidenceLevel
                         (getConfidenceData data))).
  { rewrite Hl. apply (firstOccurrences_NoDup _ ConfidenceLevel_eqb_eq). }
  split; [exact Hl|]. split; [exact Hnd|]. split.
  - rewrite <- (length_map ConfidenceData.confidenceLevel).
    apply NoDup_levels_length, Hnd.
  - intros c. rewrite Hl.
    apply (firstOccurrences_In _ ConfidenceLevel_eqb_eq).
Qed.

(** X2.  The counts reported by [getConfidenceData] add up to the number of
    input records; each entry counts the records of its own level, of which
    there is at least one (so its average never divides by zero), and its
    average is the exact mean of their combined figures. *)
Theorem getConfidenceData_counts :
  forall data : list FoodWasteData,
    list_sum (map ConfidenceData.count (getConfidenceData data))
    = List.length data
    /\ Forall
         (fun s =>
            ConfidenceData.count s
            = List.length
                (filter (atLevel (ConfidenceData.confidenceLevel s)) data)
            /\ (1 <= ConfidenceData.count s)%nat
            /\ (ConfidenceData.averageCombinedFigures s
                == meanCombined
                     (filter (atLevel (ConfidenceData.confidenceLevel s))
                        data))%Q)
         (getConfidenceData data).
Proof.
  intros data.
  destruct (getConfidenceData_groups data) as (m & (Hkeys & Hm) & Hsum & E).
  rewrite E. split.
  - rewrite map_map, <- Hsum. f_equal.
    apply map_ext. intros [k v]. reflexivity.
  - apply Forall_map, Forall_forall. intros [k v] He.
    rewrite Forall_forall in Hm. specialize (Hm _ He). simpl in Hm.
    simpl. subst v. split; [reflexivity|]. split.
    + assert (Hin : In k (map confidenceInEstimate data)).
      { apply (firstOccurrences_In _ ConfidenceLevel_eqb_eq).
        rewrite <- Hkeys. apply (in_map fst _ _ He). }
      apply in_map_iff in Hin. destruct Hin as (i & Hi & Hin).
      assert (Hf : In i (filter (atLevel k) data)).
      { apply filter_In. split; [exact Hin|].
        unfold atLevel. rewrite Hi. apply ConfidenceLevel_eqb_refl. }
      destruct (filter (atLevel k) data); [destruct Hf|simpl; lia].
    + unfold Js.div, Js.ofLength, meanCombined.
      rewrite Qred_correct, sumCombinedFigures_sum. reflexivity.
Qed.

(** ** [getAllRegions] and [getAllCountries] *)

Lemma ltb_false_antisym (a b : string) :
  String.ltb a b = false -> String.ltb b a = false -> a = b.
Proof.
  unfold String.ltb. rewrite (String.compare_antisym b a).
  destruct (String.compare a b) eqn:E; simpl; intros H1 H2;
    try discriminate.
  apply String.compare_eq_iff, E.
Qed.

Lemma compareStrings_precedes (a b : string) :
  precedes compareStrings a b <-> String.ltb b a = false.
Proof.
  unfold precedes, compareStrings.
  destruct (String.ltb a b) eqn:E.
  - rewrite (ltb_asym _ _ E). split; [reflexivity | discriminate].
  - destruct (String.ltb b a); split; try reflexivity; try discriminate.
    intros C. exfalso. apply C. reflexivity.
Qed.

Lemma notAfter_total (a b : string) :
  String.ltb b a = false \/ String.ltb a b = false.
Proof.
  destruct (String.ltb b a) eqn:E;
    [right; apply ltb_asym, E | left; reflexivity].
Qed.

Lemma notAfter_trans (a b c : string) :
  String.ltb b a = false -> String.ltb c b = false -> String.ltb c a = false.
Proof.
  intros Hab Hbc. destruct (String.ltb c a) eqn:E; [|reflexivity].
  destruct (String.ltb a b) eqn:Eab.
  - rewrite (ltb_trans c a b E Eab) in Hbc. discriminate.
  - rewrite (ltb_false_antisym a b Eab Hab) in E. congruence.
Qed.

(** [sort()] leaves strings in non-descending code-unit order. *)
Lemma sort_compareStrings (l : list string) :
  StronglySorted (fun a b => String.ltb b a = false)
    (Js.sort compareStrings l).
Proof.
  assert (H : StronglySorted (precedes compareStrings)
                (Js.sort compareStrings l)).
  { apply (sort_sorted _ (fun _ => True)).
    - intros a b _ _. rewrite !compareStrings_precedes. apply notAfter_total.
    - intros a b c _ _ _. rewrite !compareStrings_precedes.
      apply notAfter_trans.
    - apply Forall_forall. intros; exact I. }
  revert H. generalize (Js.sort compareStrings l). intros s H.
  induction H as [|x s Hs IH Hx]; constructor; [exact IH|].
  eapply Forall_impl; [|exact Hx].
  intros y. apply compareStrings_precedes.
Qed.

Lemma sorted_strings_distinct (l : list string) :
  StronglySorted (fun a b => String.ltb b a = false) l -> NoDup l ->
  StronglySorted (fun a b => String.ltb a b = true) l.
Proof.
  induction 1 as [|x l Hs IH Hx]; intros Hd; constructor;
    inversion Hd as [|? ? Hn Hd']; subst.
  - apply IH, Hd'.
  - rewrite Forall_forall in Hx |- *. intros y Hy.
    specialize (Hx y Hy).
    destruct (String.ltb x y) eqn:E; [reflexivity|].
    exfalso. apply Hn. rewrite (ltb_false_antisym x y E Hx). exact Hy.
Qed.

Lemma regionsSet_firstOccurrences (data : list FoodWasteData)
  (s : list string) :
  fold_left (fun regionsSet item => setAdd regionsSet (region item)) data s
  = fold_left (fun s x => if existsb (String.eqb x) s then s else s ++ [x])
      (map region data) s.
Proof.
  revert s. induction data as [|i data IH]; intros s; simpl; [reflexivity|].
  apply IH.
Qed.

Lemma getAllRegions_sorted_set (data : list FoodWasteData) :
  getAllRegions data
  = Js.sort compareStrings (firstOccurrencesBy String.eqb (map region data)).
Proof.
  unfold getAllRegions, firstOccurrencesBy.
  rewrite regionsSet_firstOccurrences. reflexivity.
Qed.

Lemma getAllRegions_NoDup (data : list FoodWasteData) :
  NoDup (getAllRegions data).
Proof.
  rewrite getAllRegions_sorted_set.
  eapply Permutation_NoDup;
    [apply Permutation_sym, sort_permutation|].
  apply (firstOccurrences_NoDup _ String.eqb_eq).
Qed.

Lemma getAllRegions_In (data : list FoodWasteData) (r : string) :
  In r (getAllRegions data) <-> In r (map region data).
Proof.
  rewrite getAllRegions_sorted_set.
  rewrite <- (firstOccurrences_In _ String.eqb_eq (map region data) r).
  split; apply Permutation_in;
    [|apply Permutation_sym]; apply sort_permutation.
Qed.

Lemma getRegionData_regions (data : list FoodWasteData) :
  NoDup (map RegionData.region (getRegionData data))
  /\ (forall r,
         In r (map RegionData.region (getRegionData data))
         <-> In r (map region data)).
Proof.
  destruct (getRegionData_groups data) as (m & (Hnd & Hkeys & _) & _ & Hp).
  assert (Hregions : map RegionData.region (map regionStatistics m)
                     = map fst m).
  { rewrite map_map. apply map_ext, regionStatistics_region. }
  split.
  - apply (Permutation_NoDup
             (Permutation_sym (Permutation_map RegionData.region Hp))).
    rewrite Hregions. exact Hnd.
  - intros r. rewrite <- Hkeys, <- Hregions. split; apply Permutation_in.
    + apply Permutation_map, Hp.
    + apply Permutation_sym, Permutation_map, Hp.
Qed.

(** X3.  [getAllRegions] lists the regions that occur in the input, each
    once, in strictly ascending code-unit order; they are the regions of the
    summaries of [getRegionData], in another order. *)
Theorem getAllRegions_sorted_distinct :
  forall data : list FoodWasteData,
    StronglySorted (fun a b => String.ltb a b = true) (getAllRegions data)
    /\ NoDup (getAllRegions data)
    /\ (forall r : string,
           In r (getAllRegions data) <-> In r (map region data))
    /\ Permutation (getAllRegions data)
         (map RegionData.region (getRegionData data)).
Proof.
  intros data.
  pose proof (getAllRegions_NoDup data) as Hnd.
  split; [|split; [exact Hnd|split; [apply getAllRegions_In|]]].
  - apply sorted_strings_distinct; [|exact Hnd].
    rewrite getAllRegions_sorted_set. apply sort_compareStrings.
  - destruct (getRegionData_regions data) as [Hnd' Hin].
    apply NoDup_Permutation; [exact Hnd | exact Hnd'|].
    intros r. rewrite getAllRegions_In, Hin. tauto.
Qed.

(** X4.  [getAllCountries] returns the country names of all records, a name
    as often as it occurs, in non-descending code-unit order. *)
Theorem getAllCountries_sorted_names :
  forall data : list FoodWasteData,
    Permutation (getAllCountries data) (map country data)
    /\ List.length (getAllCountries data) = List.length data
    /\ StronglySorted (fun a b => String.ltb b a = false)
         (getAllCountries data).
Proof.
  intros data. unfold getAllCountries. split; [apply sort_permutation|].
  split; [rewrite sort_length; apply length_map | apply sort_compareStrings].
Qed.

(** ** [getWasteDistribution] *)

(** X5.  For a record whose three per-capita source figures have a non-zero
    sum, [getWasteDistribution] in percentage mode (the default) returns
    three finite percentages, each 100 times the source figure divided by
    the sum, and they add up to exactly 100; with [percentage = false] it
    returns the three source figures as they are. *)
Theorem getWasteDistribution_percentages :
  forall item : FoodWasteData,
    ~ (sourceTotal item == 0)%Q ->
    exists ph pr pf : Js.number,
      getWasteDistribution item None
      = {| WasteDistribution.household := Js.Finite ph;
           WasteDistribution.retail := Js.Finite pr;
           WasteDistribution.foodService := Js.Finite pf |}
      /\ getWasteDistribution item (Some true)
         = getWasteDistribution item None
      /\ (ph == householdEstimatePerCapita item / sourceTotal item * 100)%Q
      /\ (pr == retailEstimatePerCapita item / sourceTotal item * 100)%Q
      /\ (pf == foodServiceEstimatePerCapita item / sourceTotal item * 100)%Q
      /\ (ph + pr + pf == 100)%Q
      /\ getWasteDistribution item (Some false)
         = {| WasteDistribution.household :=
                Js.Finite (householdEstimatePerCapita item);
              WasteDistribution.retail :=
                Js.Finite (retailEstimatePerCapita item);
              WasteDistribution.foodService :=
                Js.Finite (foodServiceEstimatePerCapita item) |}.
Proof.
  intros item Hne.
  destruct (shares_sum_to_one _ _ _ Hne)
    as (sh & sr & sf & Eh & Er & Ef & Hh & Hr & Hf & Hsum & _).
  exists (Qred (sh * 100)), (Qred (sr * 100)), (Qred (sf * 100)).
  unfold getWasteDistribution. rewrite Eh, Er, Ef.
  unfold times, sourceTotal. cbv beta iota zeta.
  split; [reflexivity|]. split; [reflexivity|].
  split; [rewrite Qred_correct, Hh; reflexivity|].
  split; [rewrite Qred_correct, Hr; reflexivity|].
  split; [rewrite Qred_correct, Hf; reflexivity|].
  split; [|reflexivity].
  rewrite !Qred_correct.
  transitivity ((sh + sr + sf) * 100)%Q; [ring|]. rewrite Hsum. reflexivity.
Qed.

Lemma getWasteDistribution_percentages_example :
  exists ph pr pf : Js.number,
    getWasteDistribution Sample.A None
    = {| WasteDistribution.household := Js.Finite ph;
         WasteDistribution.retail := Js.Finite pr;
         WasteDistribution.foodService := Js.Finite pf |}
    /\ (ph + pr + pf == 100)%Q.
Proof.
  destruct (getWasteDistribution_percentages Sample.A)
    as (ph & pr & pf & E & _ & _ & _ & _ & Hsum & _).
  - discriminate.
  - exists ph, pr, pf. split; assumption.
Defined.

(** ** Regions: [getAllRegions], [filterData] and [getRegionData] together *)

Lemma filterData_region (data : list FoodWasteData) (r : string) :
  filterData data (Some (regionCriteria r))
  = if Js.truthy r then filter (inRegion r) data else data.
Proof.
  unfold filterData, regionCriteria. simpl.
  destruct (Js.truthy r); reflexivity.
Qed.

Lemma truthy_named (r : string) : r <> EmptyString -> Js.truthy r = true.
Proof.
  intros H. unfold Js.truthy. destruct (String.eqb r "") eqn:E;
    [|reflexivity].
  apply String.eqb_eq in E. contradiction.
Qed.

Lemma filter_inRegion_present (data : list FoodWasteData) (r : string) :
  In r (map region data) -> filter (inRegion r) data <> [].
Proof.
  intros H. apply in_map_iff in H. destruct H as (i & Hi & Hin).
  assert (Hf : In i (filter (inRegion r) data)).
  { apply filter_In. split; [exact Hin|].
    unfold inRegion. rewrite Hi. apply String.eqb_refl. }
  intros E. rewrite E in Hf. destruct Hf.
Qed.

(** X6.  Every region that [getAllRegions] offers selects at least one
    record when given to [filterData] as the only criterion, so a caller may
    take the first record of the selection and divide by its length.  The
    selection is the records of that region, except for a region whose name
    is the empty string, for which it is every record. *)
Theorem filterData_offered_region :
  forall (data : list FoodWasteData) (r : string),
    In r (getAllRegions data) ->
    filterData data (Some (regionCriteria r)) <> []
    /\ (r <> EmptyString ->
        filterData data (Some (regionCriteria r)) = filter (inRegion r) data)
    /\ (r = EmptyString ->
        filterData data (Some (regionCriteria r)) = data).
Proof.
  intros data r Hr. apply getAllRegions_In in Hr.
  rewrite filterData_region. split; [|split].
  - destruct (Js.truthy r).
    + apply filter_inRegion_present, Hr.
    + intros E. subst data. destruct Hr.
  - intros H. rewrite (truthy_named r H). reflexivity.
  - intros ->. reflexivity.
Qed.

Lemma filterData_offered_region_example :
  In "X"%string (getAllRegions [Sample.A; Sample.B; Sample.C])
  /\ filterData [Sample.A; Sample.B; Sample.C]
       (Some (regionCriteria "X"))
     <> [].
Proof.
  assert (H : In "X"%string (getAllRegions [Sample.A; Sample.B; Sample.C]))
    by (simpl; tauto).
  split; [exact H|].
  exact (proj1 (filterData_offered_region
                  [Sample.A; Sample.B; Sample.C] "X" H)).
Defined.

Lemma regionTotals_first (items : list FoodWasteData)
  (a b c d : Js.number) :
  fst (fst (fst
    (fold_left
       (fun '(totalCombinedFigures, totalHouseholdWaste, totalRetailWaste,
              totalFoodServiceWaste) item =>
          (Js.add totalCombinedFigures (combinedFigures item),
           Js.add totalHouseholdWaste (householdEstimatePerCapita item),
           Js.add totalRetailWaste (retailEstimatePerCapita item),
           Js.add totalFoodServiceWaste (foodServiceEstimatePerCapita item)))
       items (a, b, c, d))))
  = fold_left (fun sum item => Js.add sum (combinedFigures item)) items a.
Proof.
  revert a b c d. induction items as [|i items IH]; intros a b c d; simpl;
    [reflexivity|].
  apply IH.
Qed.

(** The summary of a non-empty group is the regional average of its key. *)
Lemma regionStatistics_regionAverage (data : list FoodWasteData)
  (e : string * list FoodWasteData) :
  fst e <> EmptyString ->
  snd e = filter (inRegion (fst e)) data ->
  snd e <> [] ->
  regionAverage data (fst e) = summaryAverage (regionStatistics e).
Proof.
  destruct e as [k items]. simpl. intros Hk Hitems Hne.
  unfold regionAverage. rewrite filterData_region, (truthy_named k Hk).
  rewrite <- Hitems.
  unfold summaryAverage, regionStatistics.
  pose proof (regionTotals_first items 0 0 0 0) as H.
  fold (regionTotals items) in H.
  destruct (regionTotals items) as [[[a b] c] d]. simpl in H. subst a.
  fold (sumCombinedFigures items). cbn [RegionData.region
    RegionData.averageCombinedFigures RegionData.totalCountries].
  rewrite divide_finite; [reflexivity|].
  unfold Js.ofLength, Qeq. simpl. destruct items; [contradiction|].
  simpl. lia.
Qed.

Lemma regionAverages_unsorted (data : list FoodWasteData) :
  regionsNamed data ->
  Permutation (map (regionAverage data) (getAllRegions data))
    (map summaryAverage (getRegionData data)).
Proof.
  intros Hnamed.
  destruct (getRegionData_groups data) as (m & (Hnd & Hkeys & Hm) & _ & Hp).
  apply Permutation_trans
    with (map summaryAverage (map regionStatistics m));
    [|apply Permutation_map, Permutation_sym, Hp].
  apply Permutation_trans with (map (regionAverage data) (map fst m)).
  - apply Permutation_map, NoDup_Permutation;
      [apply getAllRegions_NoDup | exact Hnd |].
    intros r. rewrite getAllRegions_In, Hkeys. tauto.
  - rewrite !map_map. erewrite map_ext_in; [apply Permutation_refl|].
    intros e He. rewrite Forall_forall in Hm.
    assert (Hin : In (fst e) (map region data))
      by (apply Hkeys, in_map, He).
    apply regionStatistics_regionAverage.
    + apply in_map_iff in Hin. destruct Hin as (i & Hi & Hin).
      unfold regionsNamed in Hnamed. rewrite Forall_forall in Hnamed.
      rewrite <- Hi. apply Hnamed, Hin.
    + apply Hm, He.
    + rewrite (Hm e He). apply filter_inRegion_present, Hin.
Qed.

Lemma regionAverages_precedes (a b : RegionAverage.t) (x y : Js.number) :
  RegionAverage.average a = Js.Finite x ->
  RegionAverage.average b = Js.Finite y ->
  (precedes
     (fun a b =>
        comparatorResult
          (minus (RegionAverage.average b) (RegionAverage.average a)))
     a b
   <-> (y <= x)%Q).
Proof.
  intros Ha Hb. unfold precedes. rewrite Ha, Hb.
  unfold minus, comparatorResult. rewrite Qred_correct. split; lra.
Qed.

(** X7.  When no record has an empty region name, the regional averages
    that [generateInsights] computes by filtering are the summaries of
    [getRegionData]: the same regions with the same average and the same
    count, possibly in another order among equal averages; all averages are
    finite, and the list is in non-increasing order of average. *)
Theorem regionAverages_agree_with_getRegionData :
  forall data : list FoodWasteData,
    regionsNamed data ->
    Permutation (regionAverages data)
      (map summaryAverage (getRegionData data))
    /\ StronglySorted averageAtLeast (regionAverages data).
Proof.
  intros data Hnamed.
  pose proof (regionAverages_unsorted data Hnamed) as Hp.
  split.
  - eapply Permutation_trans; [apply sort_permutation | exact Hp].
  - set (cmp := fun a b : RegionAverage.t =>
                  comparatorResult
                    (minus (RegionAverage.average b)
                       (RegionAverage.average a))).
    set (P := fun a : RegionAverage.t =>
                exists x, RegionAverage.average a = Js.Finite x).
    assert (Hall : Forall P (map (regionAverage data) (getAllRegions data))).
    { apply (Permutation_Forall (Permutation_sym Hp)).
      apply Forall_map, Forall_forall. intros s _.
      exists (RegionData.averageCombinedFigures s). reflexivity. }
    assert (Hs : StronglySorted (precedes cmp) (regionAverages data)).
    { apply (sort_sorted cmp P).
      - intros a b [x Ha] [y Hb]. unfold cmp.
        rewrite (regionAverages_precedes a b x y Ha Hb).
        rewrite (regionAverages_precedes b a y x Hb Ha). lra.
      - intros a b c [x Ha] [y Hb] [z Hc]. unfold cmp.
        rewrite (regionAverages_precedes a b x y Ha Hb).
        rewrite (regionAverages_precedes b c y z Hb Hc).
        rewrite (regionAverages_precedes a c x z Ha Hc). lra.
      - exact Hall. }
    assert (Hall' : Forall P (regionAverages data)).
    { apply (Permutation_Forall
               (Permutation_sym (sort_permutation cmp _))), Hall. }
    revert Hs Hall'. generalize (regionAverages data). intros l Hs.
    induction Hs as [|a l Hs IH Ha]; intros Hl; constructor;
      inversion Hl as [|? ? Pa Pl]; subst.
    + apply IH, Pl.
    + rewrite Forall_forall in Ha, Pl |- *. intros b Hb.
      destruct Pa as [x Hx]. destruct (Pl b Hb) as [y Hy].
      exists x, y. split; [exact Hx|]. split; [exact Hy|].
      apply (regionAverages_precedes a b x y Hx Hy), Ha, Hb.
Qed.

Lemma regionAverages_agree_with_getRegionData_example :
  regionsNamed [Sample.A; Sample.B; Sample.C]
  /\ Permutation (regionAverages [Sample.A; Sample.B; Sample.C])
       (map summaryAverage (getRegionData [Sample.A; Sample.B; Sample.C])).
Proof.
  assert (H : regionsNamed [Sample.A; Sample.B; Sample.C])
    by (repeat constructor; discriminate).
  split; [exact H|].
  exact (proj1 (regionAverages_agree_with_getRegionData _ H)).
Defined.

(** ** [generateTrendData] for any number of years, and [getCountryTrendData] *)

Lemma map_filter_comp {A B : Type} (f : A -> B) (g : B -> bool)
  (l : list A) :
  map f (filter (fun x => g (f x)) l) = filter g (map f l).
Proof.
  induction l as [|x l IH]; simpl; [reflexivity|].
  destruct (g (f x)); simpl; rewrite IH; reflexivity.
Qed.

Lemma generateTrendData_seriesOf (currentYear : Z)
  (random : nat -> Js.number) (data : list FoodWasteData) (years : Z)
  (drawn : nat) :
  generateTrendData currentYear random data (Some years) drawn
  = Normal
      (seriesOf currentYear random data (currentYear - years + 1) drawn
         (Z.to_nat years),
       (drawn + Z.to_nat years * List.length data)%nat).
Proof.
  unfold generateTrendData. rewrite mapCountries_seriesOf.
  replace (yearLoopFuel currentYear (currentYear - years + 1))
    with (Z.to_nat years) by (unfold yearLoopFuel; lia).
  reflexivity.
Qed.

(** X8.  For any requested number of years, [generateTrendData] returns one
    series per record, in order, with the record's country and region; each
    series has as many points as years were requested (none when the number
    is not positive), for consecutive years in ascending order that end at
    the current year; and the call draws one random value per point. *)
Theorem generateTrendData_any_years :
  forall (currentYear : Z) (random : nat -> Js.number)
         (data : list FoodWasteData) (years : Z) (drawn : nat),
  exists out : list CountryTrendData.t,
    generateTrendData currentYear random data (Some years) drawn
    = Normal (out, (drawn + Z.to_nat years * List.length data)%nat)
    /\ map CountryTrendData.country out = map country data
    /\ map CountryTrendData.region out = map region data
    /\ Forall
         (fun s =>
            List.length (CountryTrendData.trendData s) = Z.to_nat years
            /\ map TrendDataPoint.year (CountryTrendData.trendData s)
               = map (fun i => (currentYear - years + 1 + Z.of_nat i)%Z)
                   (seq 0 (Z.to_nat years))
            /\ StronglySorted Z.lt
                 (map TrendDataPoint.year (CountryTrendData.trendData s))
            /\ ((1 <= years)%Z ->
                last (map TrendDataPoint.year (CountryTrendData.trendData s))
                  0%Z
                = currentYear))
         out.
Proof.
  intros currentYear random data years drawn.
  exists (seriesOf currentYear random data (currentYear - years + 1) drawn
            (Z.to_nat years)).
  split; [apply generateTrendData_seriesOf|].
  destruct (seriesOf_countries currentYear random data
              (currentYear - years + 1) drawn (Z.to_nat years)) as [Hc Hr].
  split; [exact Hc|]. split; [exact Hr|].
  eapply Forall_impl; [|apply seriesOf_years].
  intros s Hs. cbv beta in Hs.
  split; [rewrite <- (length_map TrendDataPoint.year), Hs, length_map;
          apply length_seq|].
  split; [exact Hs|]. rewrite Hs. split.
  - generalize 0%nat as start. generalize (Z.to_nat years) as n.
    induction n as [|n IH]; intros start; simpl; constructor; [apply IH|].
    apply Forall_forall. intros y Hy. apply in_map_iff in Hy.
    destruct Hy as (i & <- & Hi). apply in_seq in Hi. lia.
  - intros Hy.
    replace (Z.to_nat years) with (S (Z.to_nat (years - 1))) by lia.
    rewrite seq_S, map_app. cbn [map]. rewrite last_last. lia.
Qed.

Lemma generateTrendData_any_years_example :
  exists out : list CountryTrendData.t,
    generateTrendData 2025 (fun _ => 1 # 2) [Sample.A; Sample.B]
      (Some 3%Z) 0
    = Normal (out, 6%nat)
    /\ Forall
         (fun s =>
            last (map TrendDataPoint.year (CountryTrendData.trendData s)) 0%Z
            = 2025%Z)
         out.
Proof.
  destruct (generateTrendData_any_years 2025 (fun _ => 1 # 2)
              [Sample.A; Sample.B] 3 0) as (out & Hrun & _ & _ & Hall).
  exists out. split; [exact Hrun|].
  eapply Forall_impl; [|exact Hall].
  intros s (_ & _ & _ & Hlast). apply Hlast. discriminate.
Defined.

(** X9.  Asked for the series of some countries, [getCountryTrendData]
    applied to the output of [generateTrendData] answers with the series of
    the countries that [getComparisonData] answers with for the same
    records and names, in the same order (the order of the records): a name
    comes out exactly when it is both requested and carried by a record. *)
Theorem getCountryTrendData_matches_getComparisonData :
  forall (currentYear : Z) (random : nat -> Js.number)
         (data : list FoodWasteData) (years : Z) (drawn : nat)
         (countries : list string),
  exists (out : list CountryTrendData.t) (drawn' : nat),
    generateTrendData currentYear random data (Some years) drawn
    = Normal (out, drawn')
    /\ map CountryTrendData.country (getCountryTrendData out countries)
       = map ComparisonData.country (getComparisonData data countries)
    /\ (forall name : string,
           In name
             (map CountryTrendData.country
                (getCountryTrendData out countries))
           <-> In name countries /\ In name (map country data)).
Proof.
  intros currentYear random data years drawn countries.
  exists (seriesOf currentYear random data (currentYear - years + 1) drawn
            (Z.to_nat years)).
  exists (drawn + Z.to_nat years * List.length data)%nat.
  split; [apply generateTrendData_seriesOf|].
  destruct (seriesOf_countries currentYear random data
              (currentYear - years + 1) drawn (Z.to_nat years)) as [Hc _].
  assert (E : map CountryTrendData.country
                (getCountryTrendData
                   (seriesOf currentYear random data
                      (currentYear - years + 1) drawn (Z.to_nat years))
                   countries)
              = filter (Js.includes countries) (map country data)).
  { unfold getCountryTrendData.
    rewrite (map_filter_comp CountryTrendData.country
               (Js.includes countries)), Hc.
    reflexivity. }
  split.
  - rewrite E, getComparisonData_countries. reflexivity.
  - intros name. rewrite E, filter_In, includes_In. tauto.
Qed.

(** ** The years of the global and of a regional trend *)

(** Series that all cover the same years, none of them twice, have these
    years as their available years, up to the final sort. *)
Lemma availableYears_common (trendData : list CountryTrendData.t)
  (ys : list Z) :
  trendData <> [] ->
  NoDup ys ->
  Forall
    (fun s => map TrendDataPoint.year (CountryTrendData.trendData s) = ys)
    trendData ->
  availableYears trendData = Js.sort defaultCompare ys.
Proof.
  intros Hne Hnd Hall. unfold availableYears. f_equal.
  destruct trendData as [|s rest]; [contradiction|].
  inversion Hall as [|? ? Hs Hrest]; subst. simpl.
  unfold setOf. rewrite fold_left_app.
  rewrite (firstOccurrences_fold_fixed Z.eqb Z.eqb_eq
             (map TrendDataPoint.year (CountryTrendData.trendData s)) [])
    by exact Hnd.
  simpl. apply (firstOccurrences_fold_present Z.eqb Z.eqb_eq).
  intros y Hy. apply in_flat_map in Hy. destruct Hy as (s' & Hs' & Hy).
  rewrite Forall_forall in Hrest. rewrite (Hrest s' Hs') in Hy. exact Hy.
Qed.

Lemma consecutive_NoDup (start : Z) (n : nat) :
  NoDup (map (fun i => (start + Z.of_nat i)%Z) (seq 0 n)).
Proof.
  generalize 0%nat as a. induction n as [|n IH]; intros a; simpl;
    constructor; [|apply IH].
  intros H. apply in_map_iff in H. destruct H as (i & E & Hi).
  apply in_seq in Hi. lia.
Qed.

(** X10.  On the series that [generateTrendData] makes, the regional trend
    of any region that some record belongs to has exactly the years of the
    global trend, in the same order, so the two can be drawn against one
    list of year labels, position by position. *)
Theorem regional_trend_years_match_global :
  forall (currentYear : Z) (random : nat -> Js.number)
         (data : list FoodWasteData) (years : Z) (drawn : nat)
         (r : string),
    In r (map region data) ->
    exists (out : list CountryTrendData.t) (drawn' : nat),
      generateTrendData currentYear random data (Some years) drawn
      = Normal (out, drawn')
      /\ map TrendDataPoint.year (getRegionalTrendData out r)
         = map TrendDataPoint.year (getGlobalTrendData out)
      /\ List.length (getRegionalTrendData out r)
         = List.length (getGlobalTrendData out).
Proof.
  intros currentYear random data years drawn r Hr.
  set (out := seriesOf currentYear random data (currentYear - years + 1)
                drawn (Z.to_nat years)).
  exists out, (drawn + Z.to_nat years * List.length data)%nat.
  split; [apply generateTrendData_seriesOf|].
  set (ys := map (fun i => (currentYear - years + 1 + Z.of_nat i)%Z)
               (seq 0 (Z.to_nat years))).
  assert (Hall : Forall
                   (fun s =>
                      map TrendDataPoint.year (CountryTrendData.trendData s)
                      = ys)
                   out) by apply seriesOf_years.
  destruct (seriesOf_countries currentYear random data
              (currentYear - years + 1) drawn (Z.to_nat years)) as [_ Hreg].
  fold out in Hreg.
  assert (Hin : exists s, In s out /\ CountryTrendData.region s = r).
  { rewrite <- Hreg in Hr. apply in_map_iff in Hr.
    destruct Hr as (s & E & Hs). exists s. tauto. }
  destruct Hin as (s & Hs & E).
  assert (Hyears : map TrendDataPoint.year (getRegionalTrendData out r)
                   = map TrendDataPoint.year (getGlobalTrendData out)).
  { unfold getRegionalTrendData. rewrite !getGlobalTrendData_years.
    rewrite (availableYears_common out ys);
      [|intros C; rewrite C in Hs; destruct Hs
       |apply consecutive_NoDup | exact Hall].
    apply availableYears_common; [|apply consecutive_NoDup|].
    - intros C.
      assert (Hf : In s (filter
                           (fun country =>
                              String.eqb (CountryTrendData.region country) r)
                           out)).
      { apply filter_In. split; [exact Hs|].
        rewrite E. apply String.eqb_refl. }
      rewrite C in Hf. destruct Hf.
    - apply Forall_forall. intros s' Hs'. apply filter_In in Hs'.
      rewrite Forall_forall in Hall. apply Hall. tauto. }
  split; [exact Hyears|].
  rewrite <- (length_map TrendDataPoint.year), Hyears. apply length_map.
Qed.

Lemma regional_trend_years_match_global_example :
  exists (out : list CountryTrendData.t) (drawn' : nat),
    generateTrendData 2025 (fun _ => 1 # 2)
      [Sample.A; Sample.B; Sample.C] (Some 5%Z) 0
    = Normal (out, drawn')
    /\ map TrendDataPoint.year (getRegionalTrendData out "Y")
       = map TrendDataPoint.year (getGlobalTrendData out).
Proof.
  destruct (regional_trend_years_match_global 2025 (fun _ => 1 # 2)
              [Sample.A; Sample.B; Sample.C] 5 0 "Y")
    as (out & drawn' & Hrun & Hyears & _).
  - simpl. tauto.
  - exists out, drawn'. split; assumption.
Defined.

(** ** Rounding to one decimal place *)


(** ** The values of the generated points *)







(** ** The dashboard: waste type and range *)

Lemma mapWasteType_project (w : WasteType) (item : FoodWasteData) :
  mapWasteType w item = projectWasteType w item.
Proof. destruct w; reflexivity. Qed.



Lemma mathMin_least (rest : list Js.number) (x : Js.number) :
  let m := fold_left (fun m y => if Qle_bool m y then m else y) rest x in
  In m (x :: rest) /\ Forall (fun y => (m <= y)%Q) (x :: rest).
Proof.
  revert x. induction rest as [|y rest IH]; intros x; simpl.
  - split; [tauto|]. constructor; [lra|constructor].
  - destruct (Qle_bool x y) eqn:E.
    + apply Qle_bool_iff in E. destruct (IH x) as [Hin Hall].
      inversion Hall as [|? ? Hx Hrest]; subst. split.
      * simpl in Hin. tauto.
      * constructor; [exact Hx|]. constructor; [lra|exact Hrest].
    + assert (Hyx : (y <= x)%Q).
      { destruct (Qlt_le_dec x y) as [H|H]; [|exact H].
        apply Qlt_le_weak, Qle_bool_iff in H. congruence. }
      destruct (IH y) as [Hin Hall].
      inversion Hall as [|? ? Hy Hrest]; subst. split.
      * simpl in Hin. tauto.
      * constructor; [lra|]. constructor; [exact Hy|exact Hrest].
Qed.

Lemma mathMax_greatest (rest : list Js.number) (x : Js.number) :
  let m := fold_left (fun m y => if Qle_bool y m then m else y) rest x in
  In m (x :: rest) /\ Forall (fun y => (y <= m)%Q) (x :: rest).
Proof.
  revert x. induction rest as [|y rest IH]; intros x; simpl.
  - split; [tauto|]. constructor; [lra|constructor].
  - destruct (Qle_bool y x) eqn:E.
    + apply Qle_bool_iff in E. destruct (IH x) as [Hin Hall].
      inversion Hall as [|? ? Hx Hrest]; subst. split.
      * simpl in Hin. tauto.
      * constructor; [exact Hx|]. constructor; [lra|exact Hrest].
    + assert (Hxy : (x <= y)%Q).
      { destruct (Qlt_le_dec y x) as [H|H]; [|exact H].
        apply Qlt_le_weak, Qle_bool_iff in H. congruence. }
      destruct (IH y) as [Hin Hall].
      inversion Hall as [|? ? Hy Hrest]; subst. split.
      * simpl in Hin. tauto.
      * constructor; [lra|]. constructor; [exact Hy|exact Hrest].
Qed.

Lemma Qceiling_bounds (x : Q) :
  (x <= inject_Z (Qceiling x))%Q /\ (inject_Z (Qceiling x - 1) < x)%Q.
Proof.
  unfold Qceiling.
  pose proof (Qfloor_le (- x)) as H1. pose proof (Qlt_floor (- x)) as H2.
  rewrite inject_Z_plus in H2.
  unfold Z.sub. rewrite inject_Z_plus, !inject_Z_opp.
  change (inject_Z 1) with 1%Q in *. split; lra.
Qed.

(** The two ends of the slider are integers that enclose the combined
    figures and are within 1 of the least and of the greatest. *)
Lemma slider_ends (data : list FoodWasteData) :
  data <> [] ->
  exists lo hi : Z,
    sliderMin data = Js.Finite (inject_Z lo)
    /\ sliderMax data = Js.Finite (inject_Z hi)
    /\ (lo <= hi)%Z
    /\ Forall
         (fun item =>
            (inject_Z lo <= combinedFigures item <= inject_Z hi)%Q)
         data
    /\ (exists item,
           In item data /\ (combinedFigures item < inject_Z (lo + 1))%Q)
    /\ (exists item,
           In item data /\ (inject_Z (hi - 1) < combinedFigures item)%Q).
Proof.
  intros Hne. destruct data as [|d rest]; [contradiction|].
  unfold sliderMin, sliderMax. simpl map. unfold mathMin, mathMax.
  destruct (mathMin_least (map combinedFigures rest) (combinedFigures d))
    as [Hmin_in Hmin].
  destruct (mathMax_greatest (map combinedFigures rest) (combinedFigures d))
    as [Hmax_in Hmax].
  set (m := fold_left (fun m y => if Qle_bool m y then m else y)
              (map combinedFigures rest) (combinedFigures d)) in *.
  set (M := fold_left (fun m y => if Qle_bool y m then m else y)
              (map combinedFigures rest) (combinedFigures d)) in *.
  change (combinedFigures d :: map combinedFigures rest)
    with (map combinedFigures (d :: rest)) in *.
  set (data := d :: rest) in *.
  exists (Qfloor m), (Qceiling M). simpl mathFloor. simpl mathCeil.
  pose proof (Qfloor_le m) as Hfl. pose proof (Qlt_floor m) as Hfl'.
  destruct (Qceiling_bounds M) as [Hce Hce'].
  split; [reflexivity|]. split; [reflexivity|]. split.
  { rewrite Zle_Qle. rewrite Forall_forall in Hmin.
    pose proof (Hmin M Hmax_in). lra. }
  split.
  { apply Forall_forall. intros item Hitem.
    rewrite Forall_forall in Hmin, Hmax.
    pose proof (Hmin _ (in_map combinedFigures _ _ Hitem)).
    pose proof (Hmax _ (in_map combinedFigures _ _ Hitem)). split; lra. }
  split.
  { apply in_map_iff in Hmin_in. destruct Hmin_in as (item & E & Hitem).
    exists item. split; [exact Hitem|]. rewrite E. exact Hfl'. }
  apply in_map_iff in Hmax_in. destruct Hmax_in as (item & E & Hitem).
  exists item. split; [exact Hitem|]. rewrite E. exact Hce'.
Qed.

Lemma mapWasteType_figure (w : WasteType) (item : FoodWasteData) :
  combinedFigures (mapWasteType w item) = selectedFigure w item.
Proof. destruct w; reflexivity. Qed.

(** Criteria without a waste type, applied to the projected copies. *)
Lemma filterData_projected (data : list FoodWasteData)
  (o : FilterOptions.t) (w : WasteType) :
  FilterOptions.wasteType o = None ->
  filterData (map (mapWasteType w) data) (Some o)
  = map (mapWasteType w)
      (filter
         (fun item =>
            regionMatches (FilterOptions.region o) item
            && confidenceMatches (FilterOptions.confidence o) item
            && withinBounds (FilterOptions.minWaste o)
                 (FilterOptions.maxWaste o) (mapWasteType w item))
         data).
Proof.
  intros Hw. rewrite filterData_keeps_then_projects, Hw. simpl.
  rewrite map_id.
  rewrite <- (map_filter_comp (mapWasteType w) (keeps o)).
  f_equal. apply filter_ext. intros item. unfold keeps.
  rewrite !mapWasteType_project.
  change (projectWasteType w item)
    with (projectOptionalWasteType (Some w) item).
  rewrite regionMatches_project, confidenceMatches_project. reflexivity.
Qed.

(** The state [filteredData] once both effects have run on loaded data. *)
Lemma filteredDataEffect_settled (data wasteTypeData : list FoodWasteData)
  (o : FilterOptions.t) (w : WasteType) :
  data <> [] ->
  filteredDataEffect data (wasteTypeEffect data w wasteTypeData) o w
  = filterData (map (mapWasteType w) data) (Some o).
Proof.
  intros Hne. unfold filteredDataEffect, wasteTypeEffect.
  destruct data as [|d rest]; [contradiction|].
  change (List.length (d :: rest) =? 0)%nat with false. cbv iota.
  destruct w; try reflexivity.
  f_equal. symmetry.
  change (mapWasteType combined) with (fun item : FoodWasteData => item).
  apply map_id.
Qed.

(** X14.  For loaded data the two ends of the range slider are integers,
    the lower not above the higher, that enclose the combined figure of
    every record and are within 1 of the least and of the greatest one.
    The slider reads the combined figures whatever waste type is shown.  So,
    with criteria that carry no waste type of their own (the dashboard's
    never do), its full range removes no record from the combined view:
    only the region and confidence criteria restrict the result there.
    With a waste type active the same full range is applied to the
    projected copies: it keeps exactly the records whose selected figure
    lies between the two ends, and so drops every record whose selected
    figure lies below the least combined figure rounded down. *)
Theorem slider_full_range_in_dashboard :
  forall (data : list FoodWasteData) (prev : FilterOptions.t),
    data <> [] ->
    FilterOptions.wasteType prev = None ->
    exists lo hi : Z,
      sliderMin data = Js.Finite (inject_Z lo)
      /\ sliderMax data = Js.Finite (inject_Z hi)
      /\ (lo <= hi)%Z
      /\ Forall
           (fun item =>
              (inject_Z lo <= combinedFigures item <= inject_Z hi)%Q)
           data
      /\ (exists item,
             In item data /\ (combinedFigures item < inject_Z (lo + 1))%Q)
      /\ (exists item,
             In item data /\ (inject_Z (hi - 1) < combinedFigures item)%Q)
      /\ (forall wasteTypeData : list FoodWasteData,
             filteredDataEffect data
               (wasteTypeEffect data combined wasteTypeData)
               (handleWasteRangeFilterChange prev (inject_Z lo)
                  (inject_Z hi))
               combined
             = filter
                 (fun item =>
                    regionMatches (FilterOptions.region prev) item
                    && confidenceMatches (FilterOptions.confidence prev)
                         item)
                 data)
      /\ (forall (w : WasteType) (wasteTypeData : list FoodWasteData),
             filteredDataEffect data (wasteTypeEffect data w wasteTypeData)
               (handleWasteRangeFilterChange prev (inject_Z lo)
                  (inject_Z hi))
               w
             = map (mapWasteType w)
                 (filter
                    (fun item =>
                       regionMatches (FilterOptions.region prev) item
                       && confidenceMatches (FilterOptions.confidence prev)
                            item
                       && (Qle_bool (inject_Z lo) (selectedFigure w item)
                           && Qle_bool (selectedFigure w item)
                                (inject_Z hi)))
                    data)).
Proof.
  intros data prev Hne Hw.
  destruct (slider_ends data Hne)
    as (lo & hi & Hlo & Hhi & Hle & Hall & Hlow & Hhigh).
  exists lo, hi.
  split; [exact Hlo|]. split; [exact Hhi|]. split; [exact Hle|].
  split; [exact Hall|]. split; [exact Hlow|]. split; [exact Hhigh|].
  assert (Hgen : forall (w : WasteType) (wasteTypeData : list FoodWasteData),
             filteredDataEffect data (wasteTypeEffect data w wasteTypeData)
               (handleWasteRangeFilterChange prev (inject_Z lo)
                  (inject_Z hi))
               w
             = map (mapWasteType w)
                 (filter
                    (fun item =>
                       regionMatches (FilterOptions.region prev) item
                       && confidenceMatches (FilterOptions.confidence prev)
                            item
                       && (Qle_bool (inject_Z lo) (selectedFigure w item)
                           && Qle_bool (selectedFigure w item)
                                (inject_Z hi)))
                    data)).
  { intros w wasteTypeData.
    rewrite (filteredDataEffect_settled data wasteTypeData _ w Hne).
    rewrite filterData_projected by exact Hw.
    f_equal. apply filter_ext. intros item.
    cbn [handleWasteRangeFilterChange FilterOptions.region
         FilterOptions.confidence FilterOptions.minWaste
         FilterOptions.maxWaste].
    unfold withinBounds. rewrite mapWasteType_figure. reflexivity. }
  split; [|exact Hgen].
  intros wasteTypeData. rewrite Hgen.
  change (mapWasteType combined) with (fun item : FoodWasteData => item).
  rewrite map_id. apply filter_ext_in. intros item Hitem.
  rewrite Forall_forall in Hall. destruct (Hall item Hitem) as [H1 H2].
  cbn [selectedFigure].
  apply Qle_bool_iff in H1, H2. rewrite H1, H2. apply andb_true_r.
Qed.

Lemma slider_full_range_in_dashboard_example :
  exists lo hi : Z,
    sliderMin [Sample.A; Sample.B] = Js.Finite (inject_Z lo)
    /\ sliderMax [Sample.A; Sample.B] = Js.Finite (inject_Z hi)
    /\ lo = 50%Z
    /\ hi = 100%Z
    /\ filteredDataEffect [Sample.A; Sample.B]
         (wasteTypeEffect [Sample.A; Sample.B] combined [])
         (handleWasteRangeFilterChange noCriteria (inject_Z lo)
            (inject_Z hi))
         combined
       = [Sample.A; Sample.B]
    /\ map (fun out => (country out, combinedFigures out))
         (filteredDataEffect [Sample.A; Sample.B]
            (wasteTypeEffect [Sample.A; Sample.B] household [])
            (handleWasteRangeFilterChange noCriteria (inject_Z lo)
               (inject_Z hi))
            household)
       = [("A"%string, 60%Q)].
Proof.
  destruct (slider_full_range_in_dashboard [Sample.A; Sample.B] noCriteria)
    as (lo & hi & Hlo & Hhi & _ & _ & _ & _ & Hcombined & Hany);
    [discriminate | reflexivity |].
  exists lo, hi. split; [exact Hlo|]. split; [exact Hhi|].
  assert (Elo : lo = 50%Z).
  { vm_compute in Hlo. injection Hlo as Hlo. symmetry. exact Hlo. }
  assert (Ehi : hi = 100%Z).
  { vm_compute in Hhi. injection Hhi as Hhi. symmetry. exact Hhi. }
  split; [exact Elo|]. split; [exact Ehi|].
  rewrite Hcombined, Hany. subst lo hi. split; reflexivity.
Defined.

(** ** The selection of countries to compare *)

Lemma handleAddCountry_bounded (selectedCountries : list string)
  (c : string) :
  selectionBounded selectedCountries ->
  selectionBounded (handleAddCountry selectedCountries c).
Proof.
  intros [Hnd Hlen]. unfold handleAddCountry.
  destruct (Js.includes selectedCountries c) eqn:Ein; [split; assumption|].
  destruct (8 <=? List.length selectedCountries)%nat eqn:Efull;
    [split; assumption|].
  apply Nat.leb_gt in Efull. split.
  - apply NoDup_app; [exact Hnd | repeat constructor; intros [] |].
    intros x Hx [E|[]]; subst.
    apply includes_In in Hx. congruence.
  - rewrite length_app. simpl. lia.
Qed.

Lemma handleRemoveCountry_bounded (selectedCountries : list string)
  (c : string) :
  selectionBounded selectedCountries ->
  selectionBounded (handleRemoveCountry selectedCountries c).
Proof.
  intros [Hnd Hlen]. unfold handleRemoveCountry. split.
  - apply NoDup_filter, Hnd.
  - etransitivity; [apply filter_length_le | exact Hlen].
Qed.

Lemma selection_bounded (actions : list SelectionAction) :
  forall selectedCountries,
    selectionBounded selectedCountries ->
    selectionBounded (fold_left applySelectionAction actions selectedCountries).
Proof.
  induction actions as [|a actions IH]; intros sel H; simpl; [exact H|].
  apply IH. destruct a; simpl.
  - apply handleAddCountry_bounded, H.
  - apply handleRemoveCountry_bounded, H.
Qed.

Lemma initialSelection_bounded : selectionBounded initialSelection.
Proof.
  split; [|simpl; lia].
  unfold initialSelection.
  repeat (constructor; [simpl; intuition discriminate|]). constructor.
Qed.

(** X15.  Whatever countries the user adds and removes, in any order,
    starting from the initial selection: the selection never repeats a
    name and never has more than eight; a country that is removed is no
    longer selected, and one that is added is selected afterwards exactly
    when it was already or there was room; and when no two records share a
    country name, the chart has at most eight entries, at most one for each
    selected country. *)
Theorem selection_at_most_eight :
  forall (actions : list SelectionAction) (data : list FoodWasteData),
    NoDup (map country data) ->
    let selectedCountries :=
      fold_left applySelectionAction actions initialSelection in
    NoDup selectedCountries
    /\ (List.length selectedCountries <= 8)%nat
    /\ (forall c, ~ In c (handleRemoveCountry selectedCountries c))
    /\ (forall c,
           In c (handleAddCountry selectedCountries c)
           <-> In c selectedCountries
               \/ (List.length selectedCountries < 8)%nat)
    /\ (List.length (getComparisonData data selectedCountries)
        <= List.length selectedCountries)%nat
    /\ (List.length (getComparisonData data selectedCountries) <= 8)%nat.
Proof.
  intros actions data Hdata sel.
  destruct (selection_bounded actions _ initialSelection_bounded)
    as [Hnd Hlen].
  fold sel in Hnd, Hlen.
  assert (Hchart : (List.length (getComparisonData data sel)
                    <= List.length sel)%nat).
  { rewrite <- (length_map ComparisonData.country).
    rewrite getComparisonData_countries.
    apply NoDup_incl_length; [apply NoDup_filter, Hdata|].
    intros c Hc. apply filter_In in Hc. apply includes_In, Hc. }
  split; [exact Hnd|]. split; [exact Hlen|]. split.
  { intros c Hc. unfold handleRemoveCountry in Hc.
    apply filter_In in Hc. destruct Hc as [_ Hc].
    rewrite String.eqb_refl in Hc. discriminate. }
  split.
  { intros c. unfold handleAddCountry.
    destruct (Js.includes sel c) eqn:Ein.
    - apply includes_In in Ein. tauto.
    - assert (Hnot : ~ In c sel).
      { intros Hc. apply includes_In in Hc. congruence. }
      destruct (8 <=? List.length sel)%nat eqn:Efull.
      + apply Nat.leb_le in Efull. split; [tauto|]. intros [H|H]; [tauto|lia].
      + apply Nat.leb_gt in Efull. rewrite in_app_iff. simpl. tauto. }
  split; [exact Hchart | lia].
Qed.

Lemma selection_at_most_eight_example :
  fold_left applySelectionAction
    [AddCountry "France"; RemoveCountry "China"; AddCountry "India"]%string
    initialSelection
  = ["United States of America"; "India"; "United Kingdom"; "Germany";
     "France"]%string
  /\ (List.length
        (getComparisonData [Sample.A; Sample.B; Sample.C]
           (fold_left applySelectionAction
              [AddCountry "France"; RemoveCountry "China";
               AddCountry "India"]%string
              initialSelection))
      <= 8)%nat.
Proof.
  split; [reflexivity|].
  apply (selection_at_most_eight
           [AddCountry "France"; RemoveCountry "China";
            AddCountry "India"]%string
           [Sample.A; Sample.B; Sample.C]).
  repeat (constructor; [simpl; intuition discriminate|]). constructor.
Defined.

(** ** The largest figures *)

Lemma StronglySorted_app_inv {A : Type} (R : A -> A -> Prop)
  (l1 l2 : list A) :
  StronglySorted R (l1 ++ l2) ->
  StronglySorted R l1
  /\ forall a b, In a l1 -> In b l2 -> R a b.
Proof.
  induction l1 as [|x l1 IH]; simpl; intros H.
  - split; [constructor | intros a b []].
  - inversion H as [|? ? Hs Hx]; subst. destruct (IH Hs) as [Hs1 Hcross].
    rewrite Forall_app in Hx. destruct Hx as [Hx1 Hx2]. split.
    + constructor; assumption.
    + intros a b [E|Ha] Hb.
      * subst. rewrite Forall_forall in Hx2. apply Hx2, Hb.
      * apply Hcross; assumption.
Qed.

(** The first [k] records of the data in descending order of the combined
    figure are [k] of its records, or all when there are fewer, and none
    of the others has a larger figure. *)
Lemma sorted_prefix_largest (data : list FoodWasteData) (k : nat) :
  let sorted := Js.sort (descending combinedFigures) data in
  List.length (firstn k sorted) = Nat.min k (List.length data)
  /\ StronglySorted (fun a b => (combinedFigures b <= combinedFigures a)%Q)
       (firstn k sorted)
  /\ Permutation (firstn k sorted ++ skipn k sorted) data
  /\ forall a b,
       In a (firstn k sorted) -> In b (skipn k sorted) ->
       (combinedFigures b <= combinedFigures a)%Q.
Proof.
  intros sorted.
  pose proof (sort_descending combinedFigures data) as Hs. fold sorted in Hs.
  rewrite <- (firstn_skipn k sorted) in Hs.
  apply StronglySorted_app_inv in Hs. destruct Hs as [Hs Hcross].
  split; [|split; [exact Hs|split; [|exact Hcross]]].
  - rewrite length_firstn. unfold sorted. rewrite sort_length. reflexivity.
  - rewrite firstn_skipn. apply sort_permutation.
Qed.

Lemma getTopWasteCountries_nonnegative (data : list FoodWasteData) (n : Z) :
  (0 <= n)%Z ->
  getTopWasteCountries data (Some n)
  = firstn (Z.to_nat n) (Js.sort (descending combinedFigures) data).
Proof.
  intros Hn. rewrite getTopWasteCountries_prefix.
  unfold Js.relativeIndex.
  destruct (n <? 0)%Z eqn:E; [apply Z.ltb_lt in E; lia|].
  destruct (Z.le_ge_cases n (Z.of_nat (List.length data))) as [H|H].
  - rewrite Z.min_l by exact H. reflexivity.
  - rewrite Z.min_r by exact H. rewrite Nat2Z.id.
    rewrite !firstn_all2; [reflexivity| |]; rewrite sort_length; lia.
Qed.

(** X16.  For a count that is not negative, [getTopWasteCountries] returns
    that many records of the data, or all of them when there are fewer, in
    non-increasing order of the combined figure, and no record that it
    leaves out has a larger combined figure than one it returns. *)
Theorem getTopWasteCountries_largest :
  forall (data : list FoodWasteData) (n : Z),
    (0 <= n)%Z ->
    exists others : list FoodWasteData,
      Permutation (getTopWasteCountries data (Some n) ++ others) data
      /\ List.length (getTopWasteCountries data (Some n))
         = Nat.min (Z.to_nat n) (List.length data)
      /\ StronglySorted
           (fun a b => (combinedFigures b <= combinedFigures a)%Q)
           (getTopWasteCountries data (Some n))
      /\ forall a b,
           In a (getTopWasteCountries data (Some n)) -> In b others ->
           (combinedFigures b <= combinedFigures a)%Q.
Proof.
  intros data n Hn. rewrite (getTopWasteCountries_nonnegative data n Hn).
  destruct (sorted_prefix_largest data (Z.to_nat n)) as (Hlen & Hs & Hp & Hc).
  exists (skipn (Z.to_nat n) (Js.sort (descending combinedFigures) data)).
  split; [exact Hp|]. split; [exact Hlen|]. split; [exact Hs | exact Hc].
Qed.

Lemma getTopWasteCountries_largest_example :
  getTopWasteCountries [Sample.B; Sample.A; Sample.C] (Some 2%Z)
  = [Sample.A; Sample.C]
  /\ exists others : list FoodWasteData,
       Permutation
         (getTopWasteCountries [Sample.B; Sample.A; Sample.C] (Some 2%Z)
          ++ others)
         [Sample.B; Sample.A; Sample.C]
       /\ forall a b,
            In a (getTopWasteCountries [Sample.B; Sample.A; Sample.C]
                    (Some 2%Z)) ->
            In b others ->
            (combinedFigures b <= combinedFigures a)%Q.
Proof.
  split; [reflexivity|].
  destruct (getTopWasteCountries_largest [Sample.B; Sample.A; Sample.C] 2)
    as (others & Hp & _ & _ & Hc); [lia|].
  exists others. split; [exact Hp | exact Hc].
Defined.

(** X17.  The answer to a question about the top countries: the limit is
    the number read from the question, 5 when it has none, and never more
    than 10 nor negative; the answer lists that many records, or all when
    the data have fewer, so at most 10, in non-increasing order of the
    combined figure, and no record left out has a larger figure than a
    listed one. *)
Theorem topCountries_at_most_ten :
  forall (data : list FoodWasteData) (numMatch : option N),
    let limit := topCountriesLimit numMatch in
    (0 <= limit <= 10)%Z
    /\ limit
       = match numMatch with
         | Some n => if (Z.of_N n <=? 10)%Z then Z.of_N n else 10%Z
         | None => 5%Z
         end
    /\ List.length (topCountries data numMatch)
       = Nat.min (Z.to_nat limit) (List.length data)
    /\ (List.length (topCountries data numMatch) <= 10)%nat
    /\ StronglySorted
         (fun a b => (combinedFigures b <= combinedFigures a)%Q)
         (topCountries data numMatch)
    /\ exists others : list FoodWasteData,
         Permutation (topCountries data numMatch ++ others) data
         /\ forall a b,
              In a (topCountries data numMatch) -> In b others ->
              (combinedFigures b <= combinedFigures a)%Q.
Proof.
  intros data numMatch limit.
  assert (Hlimit : (0 <= limit <= 10)%Z).
  { unfold limit, topCountriesLimit. destruct numMatch; lia. }
  unfold topCountries. fold limit.
  rewrite (getTopWasteCountries_nonnegative data limit (proj1 Hlimit)).
  destruct (sorted_prefix_largest data (Z.to_nat limit))
    as (Hlen & Hs & Hp & Hc).
  split; [exact Hlimit|]. split.
  { unfold limit, topCountriesLimit. destruct numMatch as [n|]; [|reflexivity].
    destruct (Z.of_N n <=? 10)%Z eqn:E;
      [apply Z.leb_le in E | apply Z.leb_gt in E]; lia. }
  split; [exact Hlen|]. split; [rewrite Hlen; lia|]. split; [exact Hs|].
  exists (skipn (Z.to_nat limit) (Js.sort (descending combinedFigures) data)).
  split; [exact Hp | exact Hc].
Qed.

(** ** Global statistics *)

Lemma ascending_precedes {A : Type} (key : A -> Js.number) (a b : A) :
  precedes (fun a b => Js.sub (key a) (key b)) a b <-> (key a <= key b)%Q.
Proof.
  unfold precedes, Js.sub. rewrite Qred_correct.
  generalize (key a) (key b). intros p q. split; lra.
Qed.

Lemma sort_ascending {A : Type} (key : A -> Js.number) (l : list A) :
  StronglySorted (fun a b => (key a <= key b)%Q)
    (Js.sort (fun a b => Js.sub (key a) (key b)) l).
Proof.
  assert (H : StronglySorted (precedes (fun a b => Js.sub (key a) (key b)))
                (Js.sort (fun a b => Js.sub (key a) (key b)) l)).
  { apply (sort_sorted _ (fun _ => True)).
    - intros a b _ _. rewrite !ascending_precedes.
      generalize (key a) (key b). intros p q. lra.
    - intros a b c _ _ _. rewrite !ascending_precedes.
      generalize (key a) (key b) (key c). intros p q r. lra.
    - apply Forall_forall. intros; exact I. }
  revert H. generalize (Js.sort (fun a b => Js.sub (key a) (key b)) l).
  intros s H.
  induction H as [|x s Hs IH Hx]; constructor; [exact IH|].
  eapply Forall_impl; [|exact Hx].
  intros y. apply ascending_precedes.
Qed.

(** The first element of a sorted array precedes every element of the
    array that was sorted. *)
Lemma sorted_head_first {A : Type} (R : A -> A -> Prop) (l s : list A) :
  (forall a, R a a) ->
  Permutation s l -> StronglySorted R s -> l <> [] ->
  exists x, nth_error s 0 = Some x /\ In x l /\ forall y, In y l -> R x y.
Proof.
  intros Hrefl Hp Hs Hne. destruct s as [|x s].
  - apply Permutation_nil in Hp. contradiction.
  - exists x. split; [reflexivity|]. split.
    + apply (Permutation_in _ Hp). left. reflexivity.
    + intros y Hy. apply (Permutation_in _ (Permutation_sym Hp)) in Hy.
      inversion Hs as [|? ? _ Hx]; subst. destruct Hy as [E|Hy].
      * subst. apply Hrefl.
      * rewrite Forall_forall in Hx. apply Hx, Hy.
Qed.

(** X18.  For data that are not empty the answer on global statistics is
    built: it reports the number of records; the highest and the lowest
    record are records of the data, and the combined figure of every record
    lies between theirs; the average is a finite number, the sum of the
    combined figures over their number.  For empty data building the answer
    throws. *)
Theorem globalStatistics_bounds :
  forall data : list FoodWasteData,
    data <> [] ->
    exists (s : GlobalStatistics.t) (a : Js.number),
      globalStatistics data = Normal s
      /\ GlobalStatistics.totalCountries s = List.length data
      /\ In (GlobalStatistics.highest s) data
      /\ In (GlobalStatistics.lowest s) data
      /\ Forall
           (fun item =>
              (combinedFigures (GlobalStatistics.lowest s)
               <= combinedFigures item
               <= combinedFigures (GlobalStatistics.highest s))%Q)
           data
      /\ GlobalStatistics.avg s = Js.Finite a
      /\ (a == meanCombined data)%Q.
Proof.
  intros data Hne. unfold globalStatistics.
  rewrite (getTopWasteCountries_nonnegative data 1) by lia.
  change (Z.to_nat 1) with 1%nat.
  destruct (sorted_head_first
              (fun a b => (combinedFigures b <= combinedFigures a)%Q)
              data (Js.sort (descending combinedFigures) data))
    as (h & Hh & Hhin & Hhmax);
    [intros; lra | apply sort_permutation | apply sort_descending
     | exact Hne |].
  destruct (sorted_head_first
              (fun a b => (combinedFigures a <= combinedFigures b)%Q)
              data
              (Js.sort
                 (fun a b => Js.sub (combinedFigures a) (combinedFigures b))
                 data))
    as (l & Hl & Hlin & Hlmin);
    [intros; lra | apply sort_permutation
     | apply (sort_ascending combinedFigures) | exact Hne |].
  assert (Hh' : nth_error
                  (firstn 1 (Js.sort (descending combinedFigures) data)) 0
                = Some h).
  { destruct (Js.sort (descending combinedFigures) data);
      [discriminate | exact Hh]. }
  rewrite Hh', Hl.
  assert (Hlen : ~ (Js.ofLength (List.length data) == 0)%Q).
  { unfold Js.ofLength. change 0%Q with (inject_Z 0).
    rewrite inject_Z_injective.
    destruct data; [contradiction | simpl; lia]. }
  rewrite (divide_finite _ _ Hlen).
  eexists. eexists. split; [reflexivity|].
  cbn [GlobalStatistics.avg GlobalStatistics.totalCountries
       GlobalStatistics.highest GlobalStatistics.lowest].
  split; [reflexivity|]. split; [exact Hhin|]. split; [exact Hlin|]. split.
  { apply Forall_forall. intros item Hitem. split;
      [apply Hlmin | apply Hhmax]; exact Hitem. }
  split; [reflexivity|].
  rewrite Qred_correct. fold (sumCombinedFigures data).
  rewrite sumCombinedFigures_sum. reflexivity.
Qed.

Lemma globalStatistics_bounds_example :
  globalStatistics [] = Throw OtherError
  /\ exists (s : GlobalStatistics.t) (a : Js.number),
       globalStatistics [Sample.B; Sample.A; Sample.C] = Normal s
       /\ country (GlobalStatistics.highest s) = "A"%string
       /\ country (GlobalStatistics.lowest s) = "B"%string
       /\ Forall
            (fun item =>
               (combinedFigures (GlobalStatistics.lowest s)
                <= combinedFigures item
                <= combinedFigures (GlobalStatistics.highest s))%Q)
            [Sample.B; Sample.A; Sample.C]
       /\ GlobalStatistics.avg s = Js.Finite a.
Proof.
  split; [reflexivity|].
  destruct (globalStatistics_bounds [Sample.B; Sample.A; Sample.C])
    as (s & a & Hs & _ & _ & _ & Hall & Ha & _); [discriminate|].
  exists s, a. split; [exact Hs|].
  assert (Es : s = {| GlobalStatistics.avg := Js.Finite (250 # 3);
                      GlobalStatistics.totalCountries := 3;
                      GlobalStatistics.highest := Sample.A;
                      GlobalStatistics.lowest := Sample.B |}).
  { vm_compute in Hs. injection Hs as <-. reflexivity. }
  split; [rewrite Es; reflexivity|]. split; [rewrite Es; reflexivity|].
  split; [exact Hall | exact Ha].
Defined.

(** ** The pages of the table *)

Lemma paginatedData_chunk (filteredData : list FoodWasteData) (p : Z) :
  (1 <= p)%Z ->
  paginatedData filteredData p
  = firstn 10 (skipn (10 * Z.to_nat (p - 1)) filteredData).
Proof.
  intros Hp. unfold paginatedData, startIndex, itemsPerPage, Js.slice.
  set (len := List.length filteredData).
  set (s := (10 * Z.to_nat (p - 1))%nat).
  assert (Hs : ((p - 1) * 10 = Z.of_nat s)%Z) by (unfold s; lia).
  rewrite Hs. unfold Js.relativeIndex.
  destruct (Z.of_nat s <? 0)%Z eqn:E1; [apply Z.ltb_lt in E1; lia|].
  destruct (Z.of_nat s + 10 <? 0)%Z eqn:E2; [apply Z.ltb_lt in E2; lia|].
  destruct (Nat.le_gt_cases len s) as [Hge|Hlt].
  - rewrite (skipn_all2 filteredData (n := s)) by exact Hge.
    rewrite firstn_nil.
    replace (Z.to_nat (Z.min (Z.of_nat s) (Z.of_nat len))) with len by lia.
    unfold len. rewrite skipn_all. apply firstn_nil.
  - replace (Z.to_nat (Z.min (Z.of_nat s) (Z.of_nat len))) with s by lia.
    destruct (Nat.le_gt_cases (s + 10) len) as [Hfull|Hpart].
    + f_equal. lia.
    + rewrite !firstn_all2; [reflexivity| |]; rewrite length_skipn;
        fold len; lia.
Qed.

Lemma chunks_concat {A : Type} (n : nat) :
  forall l : list A,
    (List.length l <= 10 * n)%nat ->
    concat (map (fun i => firstn 10 (skipn (10 * i) l)) (seq 0 n)) = l.
Proof.
  induction n as [|n IH]; intros l Hl.
  - destruct l; [reflexivity | simpl in Hl; lia].
  - cbn [seq map concat]. rewrite <- seq_shift, map_map.
    rewrite (map_ext _ (fun i => firstn 10 (skipn (10 * i) (skipn 10 l)))).
    + rewrite IH; [apply firstn_skipn|]. rewrite length_skipn. lia.
    + intros i. rewrite skipn_skipn. do 2 f_equal. lia.
Qed.

Lemma totalPages_bounds (filteredData : list FoodWasteData) :
  (10 * (totalPages filteredData - 1) < Z.of_nat (List.length filteredData)
   <= 10 * totalPages filteredData)%Z.
Proof.
  unfold totalPages, Js.div, Js.ofLength, Js.ofInt, itemsPerPage.
  set (len := Z.of_nat (List.length filteredData)).
  destruct (Qceiling_bounds (Qred (inject_Z len / inject_Z 10))) as [H1 H2].
  set (T := Qceiling (Qred (inject_Z len / inject_Z 10))) in *.
  rewrite Qred_correct in H1, H2.
  change (inject_Z 10) with 10%Q in H1, H2.
  clearbody T. clearbody len.
  assert (E : (inject_Z len == 10 * (inject_Z len / 10))%Q) by field.
  revert H1 H2 E. generalize (inject_Z len / 10)%Q. intros q H1 H2 E.
  split.
  - rewrite Zlt_Qlt, inject_Z_mult. change (inject_Z 10) with 10%Q. lra.
  - rewrite Zle_Qle, inject_Z_mult. change (inject_Z 10) with 10%Q. lra.
Qed.

Lemma findIndexFrom_found {A : Type} (p : A -> bool) (l : list A) :
  forall i : Z,
    (0 <= i)%Z ->
    (findIndexFrom p l i = (-1)%Z /\ Forall (fun x => p x = false) l)
    \/ exists x,
         (i <= findIndexFrom p l i < i + Z.of_nat (List.length l))%Z
         /\ nth_error l (Z.to_nat (findIndexFrom p l i - i)) = Some x
         /\ p x = true.
Proof.
  induction l as [|y l IH]; intros i Hi; simpl findIndexFrom.
  - left. split; [reflexivity | constructor].
  - destruct (p y) eqn:E.
    + right. exists y. split; [cbn [List.length]; lia|].
      rewrite Z.sub_diag. split; [reflexivity | exact E].
    + destruct (IH (i + 1)%Z) as [[H1 H2]|(x & Hr & Hx & Hp)]; [lia| |].
      * left. split; [exact H1 | constructor; assumption].
      * right. exists x. split; [cbn [List.length]; lia|].
        split; [|exact Hp].
        replace (Z.to_nat (findIndexFrom p l (i + 1) - i))
          with (S (Z.to_nat (findIndexFrom p l (i + 1) - (i + 1)))) by lia.
        exact Hx.
Qed.

(** X19.  The pages of the table, ten records each, partition the records
    to show: put end to end, pages 1 to [totalPages] give back the list;
    every one of these pages has at least one record and at most ten, and
    exactly ten when it is not the last; the buttons never leave these
    pages; a page after the last is empty; and there is no page exactly
    when there is no record. *)
Theorem table_pages_partition :
  forall filteredData : list FoodWasteData,
    (0 <= totalPages filteredData)%Z
    /\ (totalPages filteredData = 0%Z <-> filteredData = [])
    /\ concat
         (map (fun i => paginatedData filteredData (Z.of_nat (S i)))
            (seq 0 (Z.to_nat (totalPages filteredData))))
       = filteredData
    /\ (forall p : Z,
           (1 <= p <= totalPages filteredData)%Z ->
           paginatedData filteredData p <> []
           /\ (List.length (paginatedData filteredData p) <= 10)%nat
           /\ ((p < totalPages filteredData)%Z ->
               List.length (paginatedData filteredData p) = 10%nat)
           /\ (1 <= previousPage p <= totalPages filteredData)%Z
           /\ (1 <= nextPage filteredData p <= totalPages filteredData)%Z)
    /\ (forall p : Z,
           (totalPages filteredData < p)%Z ->
           paginatedData filteredData p = []).
Proof.
  intros l. pose proof (totalPages_bounds l) as HT.
  unfold nextPage. generalize dependent (totalPages l). intros T HT.
  split; [lia|]. split.
  { split.
    - intros E. destruct l; [reflexivity|].
      cbn [List.length] in HT. lia.
    - intros El. subst l. cbn [List.length] in HT. lia. }
  split.
  { rewrite (map_ext _ (fun i => firstn 10 (skipn (10 * i) l))).
    - apply chunks_concat. lia.
    - intros i. rewrite paginatedData_chunk by lia. do 3 f_equal. lia. }
  split.
  { intros p Hp. rewrite paginatedData_chunk by lia.
    assert (Hlen : List.length
                     (firstn 10 (skipn (10 * Z.to_nat (p - 1)) l))
                   = Nat.min 10 (List.length l - 10 * Z.to_nat (p - 1))).
    { rewrite length_firstn, length_skipn. reflexivity. }
    split.
    { intros E. rewrite E in Hlen. cbn [List.length] in Hlen. lia. }
    split; [lia|]. split; [intros Hlt; lia|].
    unfold previousPage. lia. }
  intros p Hp. rewrite paginatedData_chunk by lia.
  rewrite skipn_all2 by lia. apply firstn_nil.
Qed.

(** X20.  When a country is highlighted that is among the records shown,
    the table goes to a page that exists and that shows a record of this
    country; when it is not among them, the table stays on its page. *)
Theorem highlighted_country_on_page :
  forall (filteredData : list FoodWasteData) (h : string) (currentPage : Z),
    h <> EmptyString ->
    (In h (map country filteredData) ->
     (1 <= highlightEffect filteredData (Some h) currentPage
      <= totalPages filteredData)%Z
     /\ exists item,
          In item
            (paginatedData filteredData
               (highlightEffect filteredData (Some h) currentPage))
          /\ country item = h)
    /\ (~ In h (map country filteredData) ->
        highlightEffect filteredData (Some h) currentPage = currentPage).
Proof.
  intros l h p0 Hh. unfold highlightEffect.
  rewrite (truthy_named h Hh). cbv zeta. unfold findIndex.
  destruct (findIndexFrom_found (fun item => String.eqb (country item) h) l 0)
    as [[Hnone Hall]|(x & Hr & Hx & Hp)]; [lia| |].
  - rewrite Hnone. simpl. split; [|reflexivity].
    intros Hin. apply in_map_iff in Hin. destruct Hin as (item & E & Hitem).
    rewrite Forall_forall in Hall. specialize (Hall item Hitem).
    rewrite E, String.eqb_refl in Hall. discriminate.
  - set (r := findIndexFrom (fun item => String.eqb (country item) h) l 0)
      in *.
    apply String.eqb_eq in Hp. rewrite Z.sub_0_r in Hx.
    assert (Hfound : negb (r =? -1)%Z = true).
    { apply negb_true_iff, Z.eqb_neq. lia. }
    rewrite Hfound. split.
    2:{ intros Hnot. exfalso. apply Hnot. apply in_map_iff.
        exists x. split; [exact Hp | eapply nth_error_In, Hx]. }
    intros _. pose proof (totalPages_bounds l) as HT.
    unfold Js.div, Js.ofInt, itemsPerPage.
    pose proof (Qfloor_le (Qred (inject_Z r / inject_Z 10))) as H1.
    pose proof (Qlt_floor (Qred (inject_Z r / inject_Z 10))) as H2.
    set (F := Qfloor (Qred (inject_Z r / inject_Z 10))) in *.
    rewrite Qred_correct in H1, H2.
    change (inject_Z 10) with 10%Q in H1, H2.
    assert (HF : (10 * F <= r < 10 * (F + 1))%Z).
    { clearbody F.
      assert (E : (inject_Z r == 10 * (inject_Z r / 10))%Q) by field.
      revert H1 H2 E. generalize (inject_Z r / 10)%Q. intros q H1 H2 E.
      split.
      - rewrite Zle_Qle, inject_Z_mult. change (inject_Z 10) with 10%Q. lra.
      - rewrite Zlt_Qlt, inject_Z_mult. change (inject_Z 10) with 10%Q. lra. }
    split; [lia|]. exists x. split; [|exact Hp].
    rewrite paginatedData_chunk by lia.
    apply (nth_error_In _ (Z.to_nat r - 10 * Z.to_nat (F + 1 - 1))).
    rewrite nth_error_firstn.
    replace (Z.to_nat r - 10 * Z.to_nat (F + 1 - 1) <? 10)%nat with true
      by (symmetry; apply Nat.ltb_lt; lia).
    rewrite nth_error_skipn.
    replace (10 * Z.to_nat (F + 1 - 1)
             + (Z.to_nat r - 10 * Z.to_nat (F + 1 - 1)))%nat
      with (Z.to_nat r) by lia.
    exact Hx.
Qed.

Lemma highlighted_country_on_page_example :
  highlightEffect [Sample.A; Sample.B; Sample.C] (Some "B"%string) 7 = 1%Z
  /\ exists item,
       In item
         (paginatedData [Sample.A; Sample.B; Sample.C]
            (highlightEffect [Sample.A; Sample.B; Sample.C]
               (Some "B"%string) 7))
       /\ country item = "B"%string.
Proof.
  split; [reflexivity|].
  apply (highlighted_country_on_page [Sample.A; Sample.B; Sample.C]
           "B"%string 7); [discriminate|].
  simpl. tauto.
Defined.

(** ** The overview and the regions *)

Lemma indicator_sum (keys : list string) (r : string) (c : Q) :
  NoDup keys -> In r keys ->
  (fold_right Qplus 0
     (map (fun k => if String.eqb r k then c else 0%Q) keys) == c)%Q.
Proof.
  induction 1 as [|k keys Hk Hnd IH]; intros Hin; [destruct Hin|].
  cbn [map fold_right]. destruct (String.eqb r k) eqn:E.
  - apply String.eqb_eq in E. subst k.
    assert (Hzero : (fold_right Qplus 0
                       (map (fun k => if String.eqb r k then c else 0%Q) keys)
                     == 0)%Q).
    { clear IH Hin Hnd. induction keys as [|k keys IHk]; [reflexivity|].
      cbn [map fold_right]. destruct (String.eqb r k) eqn:E.
      - apply String.eqb_eq in E. subst k. exfalso. apply Hk. left.
        reflexivity.
      - rewrite IHk; [ring|]. intros H. apply Hk. right. exact H. }
    rewrite Hzero. ring.
  - destruct Hin as [Hin|Hin].
    + subst k. rewrite String.eqb_refl in E. discriminate.
    + rewrite (IH Hin). ring.
Qed.

(** The sums over the groups of a partition by region add up to the sum
    over all the records. *)
Lemma partition_sum (keys : list string) (data : list FoodWasteData) :
  NoDup keys ->
  (forall item, In item data -> In (region item) keys) ->
  (fold_right Qplus 0
     (map
        (fun k =>
           fold_right Qplus 0
             (map combinedFigures (filter (inRegion k) data)))
        keys)
   == fold_right Qplus 0 (map combinedFigures data))%Q.
Proof.
  intros Hnd. induction data as [|item data IH]; intros Hin.
  - cbn [filter map fold_right]. clear Hnd Hin.
    induction keys as [|k keys IHk]; [reflexivity|].
    cbn [map fold_right]. rewrite IHk. ring.
  - assert (Hsplit : forall ks,
               (fold_right Qplus 0
                  (map
                     (fun k =>
                        fold_right Qplus 0
                          (map combinedFigures
                             (filter (inRegion k) (item :: data))))
                     ks)
                == fold_right Qplus 0
                     (map
                        (fun k =>
                           if String.eqb (region item) k
                           then combinedFigures item else 0%Q)
                        ks)
                   + fold_right Qplus 0
                       (map
                          (fun k =>
                             fold_right Qplus 0
                               (map combinedFigures
                                  (filter (inRegion k) data)))
                          ks))%Q).
    { induction ks as [|k ks IHk]; [cbn [map fold_right]; ring|].
      cbn [map fold_right]. rewrite IHk. cbn [filter]. unfold inRegion at 1.
      destruct (String.eqb (region item) k); cbn [map fold_right]; ring. }
    rewrite Hsplit, IH, indicator_sum.
    + cbn [map fold_right]. ring.
    + exact Hnd.
    + apply Hin. left. reflexivity.
    + intros x Hx. apply Hin. right. exact Hx.
Qed.

Lemma sum_permutation (l l' : list Q) :
  Permutation l l' -> (fold_right Qplus 0 l == fold_right Qplus 0 l')%Q.
Proof.
  induction 1 as [|x l l' _ IH|x y l|l l' l'' _ IH1 _ IH2];
    cbn [fold_right].
  - reflexivity.
  - rewrite IH. reflexivity.
  - ring.
  - rewrite IH1. exact IH2.
Qed.

Lemma meanCombined_times_length (items : list FoodWasteData) :
  (meanCombined items * inject_Z (Z.of_nat (List.length items))
   == fold_right Qplus 0 (map combinedFigures items))%Q.
Proof.
  unfold meanCombined. destruct items as [|item items].
  - reflexivity.
  - field. change 0%Q with (inject_Z 0). rewrite inject_Z_injective.
    cbn [List.length]. lia.
Qed.

(** The average of a region weighted by its number of records. *)
Lemma regions_weighted_sum (data : list FoodWasteData) :
  (fold_right Qplus 0
     (map
        (fun s =>
           RegionData.averageCombinedFigures s
           * inject_Z (Z.of_nat (RegionData.totalCountries s)))
        (getRegionData data))
   == fold_right Qplus 0 (map combinedFigures data))%Q.
Proof.
  destruct (getRegionData_groups data) as (m & (Hnd & Hkeys & Hm) & _ & Hp).
  rewrite (sum_permutation _ _ (Permutation_map _ Hp)).
  rewrite <- (partition_sum (map fst m) data Hnd).
  - rewrite !map_map. clear Hp Hnd Hkeys.
    induction Hm as [|e m He Hm IH]; [reflexivity|].
    cbn [map fold_right]. rewrite IH.
    rewrite regionStatistics_totalCountries, regionStatistics_average.
    rewrite meanCombined_times_length, He. reflexivity.
  - intros item Hitem. apply Hkeys. apply in_map, Hitem.
Qed.

Lemma regionTotalCountries_sum (data : list FoodWasteData) :
  list_sum (map RegionData.totalCountries (getRegionData data))
  = List.length data.
Proof.
  destruct (getRegionData_groups data) as (m & _ & Hsum & Hp).
  rewrite (list_sum_permutation _ _
             (Permutation_map RegionData.totalCountries Hp)).
  rewrite map_map, <- Hsum. f_equal.
  apply map_ext, regionStatistics_totalCountries.
Qed.

Lemma averageWaste_finite (data : list FoodWasteData) :
  data <> [] ->
  Overview.averageWaste (dataOverview data)
  = Js.Finite
      (Qred
         (fold_left (fun sum item => Js.add sum (combinedFigures item))
            data 0
          / Js.ofLength (List.length data)))
  /\ (Qred
        (fold_left (fun sum item => Js.add sum (combinedFigures item))
           data 0
         / Js.ofLength (List.length data))
      == meanCombined data)%Q.
Proof.
  intros Hne. unfold dataOverview. cbn [Overview.averageWaste].
  assert (Hlen : ~ (Js.ofLength (List.length data) == 0)%Q).
  { unfold Js.ofLength. change 0%Q with (inject_Z 0).
    rewrite inject_Z_injective.
    destruct data; [contradiction | cbn [List.length]; lia]. }
  rewrite (divide_finite _ _ Hlen). split; [reflexivity|].
  rewrite Qred_correct. fold (sumCombinedFigures data).
  rewrite sumCombinedFigures_sum. reflexivity.
Qed.

(** X21.  On the overview of data that are not empty: the number of
    countries is the number of records, and the record counts of the
    summaries of [getRegionData] add up to it; the average is a finite
    number, the sum of the combined figures over their number; the highest
    region shown is the first summary of [getRegionData], and no summary
    has a larger average than this one; the highest amount shown is the
    combined figure of a record of the data, whose country is the one
    shown, and no record has a larger one. *)
Theorem dataOverview_consistent :
  forall data : list FoodWasteData,
    data <> [] ->
    exists (a : Js.number) (top : RegionData.t) (first : FoodWasteData),
      Overview.totalCountries (dataOverview data) = List.length data
      /\ list_sum (map RegionData.totalCountries (getRegionData data))
         = Overview.totalCountries (dataOverview data)
      /\ Overview.averageWaste (dataOverview data) = Js.Finite a
      /\ (a == meanCombined data)%Q
      /\ nth_error (getRegionData data) 0 = Some top
      /\ Forall
           (fun s =>
              (RegionData.averageCombinedFigures s
               <= RegionData.averageCombinedFigures top)%Q)
           (getRegionData data)
      /\ (RegionData.region top <> EmptyString ->
          Overview.highestWasteRegion (dataOverview data)
          = RegionData.region top)
      /\ In first data
      /\ (Overview.highestWasteAmount (dataOverview data)
          == combinedFigures first)%Q
      /\ (country first <> EmptyString ->
          Overview.highestWasteCountry (dataOverview data) = country first)
      /\ Forall
           (fun item =>
              (combinedFigures item
               <= Overview.highestWasteAmount (dataOverview data))%Q)
           data.
Proof.
  intros data Hne.
  destruct (averageWaste_finite data Hne) as [Ha Hmean].
  assert (Hregions : getRegionData data <> []).
  { intros E. pose proof (regionTotalCountries_sum data) as Hsum.
    rewrite E in Hsum. destruct data; [contradiction | discriminate]. }
  destruct (sorted_head_first
              (fun a b =>
                 (RegionData.averageCombinedFigures b
                  <= RegionData.averageCombinedFigures a)%Q)
              (getRegionData data) (getRegionData data))
    as (top & Htop & _ & Htopmax);
    [intros; lra | apply Permutation_refl
     | apply (sort_descending RegionData.averageCombinedFigures)
     | exact Hregions |].
  destruct (sorted_head_first
              (fun a b => (combinedFigures b <= combinedFigures a)%Q)
              data (Js.sort (descending combinedFigures) data))
    as (h & Hh & Hhin & Hhmax);
    [intros; lra | apply sort_permutation | apply sort_descending
     | exact Hne |].
  assert (Hh' : nth_error (getTopWasteCountries data (Some 5%Z)) 0 = Some h).
  { rewrite (getTopWasteCountries_nonnegative data 5) by lia.
    destruct (Js.sort (descending combinedFigures) data);
      [discriminate | exact Hh]. }
  assert (Hamount : ((if Qeq_bool (combinedFigures h) 0 then 0%Q
                      else combinedFigures h)
                     == combinedFigures h)%Q).
  { destruct (Qeq_bool (combinedFigures h) 0) eqn:E; [|reflexivity].
    apply Qeq_bool_iff in E. symmetry. exact E. }
  exists (Qred
            (fold_left (fun sum item => Js.add sum (combinedFigures item))
               data 0
             / Js.ofLength (List.length data))), top, h.
  split; [reflexivity|]. split; [apply regionTotalCountries_sum|].
  split; [exact Ha|]. split; [exact Hmean|]. split; [exact Htop|].
  split; [apply Forall_forall; exact Htopmax|].
  unfold dataOverview.
  cbn [Overview.highestWasteRegion Overview.highestWasteAmount
       Overview.highestWasteCountry].
  rewrite Hh', Htop. split.
  { intros Hr. rewrite (truthy_named _ Hr). reflexivity. }
  split; [exact Hhin|]. split; [exact Hamount|]. split.
  { intros Hc. rewrite (truthy_named _ Hc). reflexivity. }
  apply Forall_forall. intros item Hitem. rewrite Hamount.
  apply Hhmax, Hitem.
Qed.

Lemma dataOverview_consistent_example :
  exists (a : Js.number) (top : RegionData.t),
    Overview.averageWaste (dataOverview [Sample.B; Sample.A; Sample.C])
    = Js.Finite a
    /\ nth_error (getRegionData [Sample.B; Sample.A; Sample.C]) 0 = Some top
    /\ Overview.highestWasteRegion
         (dataOverview [Sample.B; Sample.A; Sample.C])
       = RegionData.region top
    /\ RegionData.region top = "Y"%string
    /\ Overview.highestWasteCountry
         (dataOverview [Sample.B; Sample.A; Sample.C])
       = "A"%string.
Proof.
  destruct (dataOverview_consistent [Sample.B; Sample.A; Sample.C])
    as (a & top & first & _ & _ & Ha & _ & Htop & _ & Hregion & _);
    [discriminate|].
  exists a, top. split; [exact Ha|]. split; [exact Htop|].
  assert (Etop : RegionData.region top = "Y"%string).
  { vm_compute in Htop. injection Htop as <-. reflexivity. }
  split; [apply Hregion; rewrite Etop; discriminate|].
  split; [exact Etop | reflexivity].
Defined.

(** X23.  The averages of the summaries of [getRegionData], each weighted
    by its number of records, add up to the sum of the combined figures of
    all the records (as exact numbers): for data that are not empty, to the
    average of the overview times its number of countries. *)
Theorem regional_averages_weigh_to_total :
  forall data : list FoodWasteData,
    (fold_right Qplus 0
       (map
          (fun s =>
             RegionData.averageCombinedFigures s
             * inject_Z (Z.of_nat (RegionData.totalCountries s)))
          (getRegionData data))
     == fold_right Qplus 0 (map combinedFigures data))%Q
    /\ (data <> [] ->
        exists a : Js.number,
          Overview.averageWaste (dataOverview data) = Js.Finite a
          /\ (a
              * inject_Z
                  (Z.of_nat (Overview.totalCountries (dataOverview data)))
              == fold_right Qplus 0
                   (map
                      (fun s =>
                         RegionData.averageCombinedFigures s
                         * inject_Z (Z.of_nat (RegionData.totalCountries s)))
                      (getRegionData data)))%Q).
Proof.
  intros data. split; [apply regions_weighted_sum|].
  intros Hne. destruct (averageWaste_finite data Hne) as [Ha Hmean].
  eexists. split; [exact Ha|].
  rewrite Hmean, regions_weighted_sum.
  apply meanCombined_times_length.
Qed.

(** ** The counts by confidence level *)

Lemma levels_partition (data : list FoodWasteData) :
  (List.length (filter (atLevel VeryLowConfidence) data)
   + List.length (filter (atLevel LowConfidence) data)
   + List.length (filter (atLevel MediumConfidence) data)
   + List.length (filter (atLevel HighConfidence) data))%nat
  = List.length data.
Proof.
  induction data as [|item data IH]; [reflexivity|].
  unfold atLevel in *. cbn [filter].
  destruct (confidenceInEstimate item); cbn [ConfidenceLevel_eqb List.length];
    lia.
Qed.

Lemma between_levels (data : list FoodWasteData) :
  List.length
    (filter
       (fun country =>
          negb (ConfidenceLevel_eqb (confidenceInEstimate country)
                  HighConfidence)
          && negb (ConfidenceLevel_eqb (confidenceInEstimate country)
                     VeryLowConfidence))
       data)
  = (List.length (filter (atLevel LowConfidence) data)
     + List.length (filter (atLevel MediumConfidence) data))%nat.
Proof.
  induction data as [|item data IH]; [reflexivity|].
  unfold atLevel in *. cbn [filter].
  destruct (confidenceInEstimate item);
    cbn [ConfidenceLevel_eqb List.length negb andb]; lia.
Qed.

Lemma chart_entry (data : list FoodWasteData) (level : ConfidenceLevel)
  (n : nat) :
  In (level, n) (combine confidenceLevels (confidenceCounts data))
  <-> n = List.length (filter (atLevel level) data).
Proof.
  unfold confidenceCounts, confidenceLevels. cbn [map combine In].
  fold (atLevel VeryLowConfidence) (atLevel LowConfidence)
    (atLevel MediumConfidence) (atLevel HighConfidence).
  split.
  - intros [E|[E|[E|[E|[]]]]]; inversion E; reflexivity.
  - intros ->. destruct level; auto 10.
Qed.

(** X22.  The chart of confidence levels counts every record once: its
    four counts add up to the number of records; the count it shows for
    a level is the count of that level's entry in [getConfidenceData],
    and 0 for a level that has no entry there.  Of the three counts of
    the insights panel, which together count every record once too, the
    high and the very low one are those of the chart, and the one
    reported as medium is the sum of the chart's low and medium counts. *)
Theorem confidence_counts_agree :
  forall data : list FoodWasteData,
    list_sum (confidenceCounts data) = List.length data
    /\ List.length (confidenceCounts data) = List.length confidenceLevels
    /\ (forall s,
           In s (getConfidenceData data) ->
           In (ConfidenceData.confidenceLevel s, ConfidenceData.count s)
             (combine confidenceLevels (confidenceCounts data)))
    /\ (forall level n,
           In (level, n) (combine confidenceLevels (confidenceCounts data)) ->
           ~ In level
               (map ConfidenceData.confidenceLevel (getConfidenceData data)) ->
           n = 0%nat)
    /\ exists veryLow low medium high : nat,
         confidenceCounts data = [veryLow; low; medium; high]
         /\ insightConfidenceCounts data = (high, veryLow, (low + medium)%nat)
         /\ (high + veryLow + (low + medium))%nat = List.length data.
Proof.
  intros data.
  destruct (getConfidenceData_groups data) as (m & (Hkeys & Hm) & _ & E).
  pose proof (levels_partition data) as Hsum.
  split.
  { unfold confidenceCounts, confidenceLevels, list_sum.
    cbn [map fold_right]. unfold atLevel in Hsum. lia. }
  split; [reflexivity|]. split.
  { intros s Hs. rewrite E in Hs. apply in_map_iff in Hs.
    destruct Hs as ([k v] & <- & He).
    rewrite Forall_forall in Hm. specialize (Hm _ He). simpl in Hm.
    apply chart_entry. simpl. rewrite Hm. reflexivity. }
  split.
  { intros level n Hn Hnot. apply chart_entry in Hn. subst n.
    destruct (filter (atLevel level) data) as [|item rest] eqn:Ef;
      [reflexivity|].
    exfalso. apply Hnot.
    assert (Hitem : In item (filter (atLevel level) data)).
    { rewrite Ef. left. reflexivity. }
    apply filter_In in Hitem. destruct Hitem as [Hitem Hl].
    apply ConfidenceLevel_eqb_eq in Hl.
    rewrite E, map_map.
    rewrite (map_ext _ fst) by (intros [k v]; reflexivity).
    rewrite Hkeys. apply (firstOccurrences_In _ ConfidenceLevel_eqb_eq).
    rewrite <- Hl. apply in_map, Hitem. }
  exists (List.length (filter (atLevel VeryLowConfidence) data)),
    (List.length (filter (atLevel LowConfidence) data)),
    (List.length (filter (atLevel MediumConfidence) data)),
    (List.length (filter (atLevel HighConfidence) data)).
  split; [reflexivity|]. split; [|lia].
  unfold insightConfidenceCounts. cbv zeta.
  rewrite between_levels. reflexivity.
Qed.
